(** * chatabase: chart configuration validator and SQL query builder

    A shallow embedding of the Go package [chatabase]:
    - the configuration model ([ChartConfig] and its parts),
    - the validator [validateChartConfig] and the normaliser
      [ValidateAndNormalizeConfig],
    - the query builder [BuildChartQuery] and the entry point [ToSql],
    followed by the properties established about them.

    Conventions of the embedding.
    - Go strings are [string]s (sequences of bytes).
    - A Go [interface{}] filter value is a [value]: the builder only ever
      tests it against [nil] and type-switches on [string] and [bool], any
      other dynamic type is carried around untouched.
    - An [error] result is a constructor of [error]; [Error] renders the
      message the Go code formats.
    - [strings.Builder] is the sequence of chunks written so far.  A chunk is
      either literal text or a positional placeholder; [text] is its
      [String()] method and concatenates them, a placeholder [Arg n] being
      printed as a dollar sign followed by the decimal digits of [n].
    - A run-time panic (index out of range) is an outcome of its own. *)

From Stdlib Require Import List String Ascii Bool Arith ZArith Lia.
From Stdlib Require Import DecimalString DecimalNat DecimalZ Decimal.
From Stdlib Require Import SpecFloat.
Import ListNotations.

Local Open Scope string_scope.
Local Open Scope list_scope.

(** ** Go runtime helpers *)

Module Go.

(** [strconv.Itoa] / the [%d] verb on a non-negative index. *)
Definition itoa (n : nat) : string :=
  NilEmpty.string_of_uint (Nat.to_uint n).

(** The [%d] verb on an [int]. *)
Definition itoaZ (z : Z) : string :=
  NilEmpty.string_of_int (Z.to_int z).

(** [strings.ToLower] on ASCII text: the capital letters A-Z are mapped to
    a-z and every other byte is kept.  Outside ASCII the library also
    lowers the capital letters of other alphabets, two of them to ASCII
    letters (U+0130 to i, U+212A to k): the two functions agree on the
    texts made of ASCII bytes. *)
Definition lower_byte (c : ascii) : ascii :=
  let n := nat_of_ascii c in
  if Nat.leb 65 n && Nat.leb n 90 then ascii_of_nat (n + 32) else c.

Fixpoint ToLower (s : string) : string :=
  match s with
  | EmptyString => EmptyString
  | String c r => String (lower_byte c) (ToLower r)
  end.

(** [strings.Join]. *)
Fixpoint Join (l : list string) (sep : string) : string :=
  match l with
  | [] => ""
  | [x] => x
  | x :: r => x ++ sep ++ Join r sep
  end.

End Go.

(** ** Configuration model *)

(** Dynamically typed filter value. *)
Inductive value : Type :=
| VNil
| VString (s : string)
| VBool (b : bool)
| VInt (z : Z).

Definition is_nil (v : value) : bool :=
  match v with VNil => true | _ => false end.

Record JoinConfig := mkJoin {
  jTable : string;
  jAlias : string;
  jType : string;
  jCondition : string
}.

Record TableConfig := mkTable {
  tName : string;
  tAlias : string;
  tJoins : list JoinConfig
}.

Record AxisConfig := mkAxis {
  aColumn : string;
  aLabel : string;
  aAggregation : string;
  aDataType : string;
  aFormat : string;
  aAlias : string
}.

Record FilterConfig := mkFilter {
  fColumn : string;
  fOperator : string;
  fValue : value;
  fValues : list value;
  fRaw : string;
  fRawValues : list value
}.

Record OrderConfig := mkOrder {
  oColumn : string;
  oDirection : string
}.

Record ChartOptions := mkOptions {
  Width : Z;
  Height : Z;
  Theme : string;
  Stacked : bool;
  ShowLegend : bool;
  ShowGrid : bool;
  DateFormat : string;
  TimeInterval : string;
  Colors : list string
}.

Record ChartConfig := mkConfig {
  ChartType : string;
  Title : string;
  Description : string;
  Tables : list TableConfig;
  XAxis : AxisConfig;
  YAxis : list AxisConfig;
  GroupBy : list string;
  Filters : list FilterConfig;
  Options : ChartOptions;
  Limit : Z;
  OrderBy : list OrderConfig
}.

(** ** Errors *)

Inductive error : Type :=
| ErrChartTypeRequired
| ErrTitleRequired
| ErrTableRequired
| ErrYAxisRequired
| ErrInvalidChartType (t : string)
| ErrTableName (i : nat)
| ErrJoinTable (i j : nat)
| ErrJoinCondition (i j : nat)
| ErrJoinType (t : string) (i j : nat)
| ErrXAxisColumn
| ErrYAxisColumn (i : nat)
| ErrAggregation (a : string) (i : nat)
| ErrFilterColumn (i : nat)
| ErrFilterOperator (i : nat)
| ErrInvalidOperator (op : string) (i : nat)
| ErrInValues (i : nat)
| ErrBetweenValues (i : nat)
| ErrFilterValue (op : string) (i : nat)
| ErrBetweenNull
| ErrCompareNull (op : string).

Definition validChartTypes : list string :=
  ["line"; "bar"; "pie"; "scatter"; "area"; "histogram"].
Definition validAggregations : list string :=
  ["SUM"; "COUNT"; "AVG"; "MIN"; "MAX"].
Definition validJoinTypes : list string :=
  ["INNER"; "LEFT"; "RIGHT"; "FULL"].
Definition validOperators : list string :=
  ["="; "!="; ">"; "<"; ">="; "<="; "IN"; "LIKE"; "BETWEEN"; "IS"].

(** The message of an error, as formatted by [fmt.Errorf]. *)
Definition Error (e : error) : string :=
  match e with
  | ErrChartTypeRequired => "chart_type is required"
  | ErrTitleRequired => "title is required"
  | ErrTableRequired => "at least one table is required"
  | ErrYAxisRequired => "at least one y-axis is required"
  | ErrInvalidChartType t =>
      "invalid chart_type: " ++ t ++ ". Must be one of: "
        ++ Go.Join validChartTypes ", "
  | ErrTableName i => "table name is required at index " ++ Go.itoa i
  | ErrJoinTable i j =>
      "join table is required at table index " ++ Go.itoa i
        ++ ", join index " ++ Go.itoa j
  | ErrJoinCondition i j =>
      "join condition is required at table index " ++ Go.itoa i
        ++ ", join index " ++ Go.itoa j
  | ErrJoinType t i j =>
      "invalid join type '" ++ t ++ "' at table index " ++ Go.itoa i
        ++ ", join index " ++ Go.itoa j ++ ". Must be one of: "
        ++ Go.Join validJoinTypes ", "
  | ErrXAxisColumn => "x_axis column is required"
  | ErrYAxisColumn i => "y_axis column is required at index " ++ Go.itoa i
  | ErrAggregation a i =>
      "invalid aggregation '" ++ a ++ "' for y_axis at index " ++ Go.itoa i
        ++ ". Must be one of: " ++ Go.Join validAggregations ", "
  | ErrFilterColumn i => "filter column is required at index " ++ Go.itoa i
  | ErrFilterOperator i =>
      "filter operator is required at index " ++ Go.itoa i
  | ErrInvalidOperator op i =>
      "invalid filter operator '" ++ op ++ "' at index " ++ Go.itoa i
        ++ ". Must be one of: " ++ Go.Join validOperators ", "
  | ErrInValues i =>
      "IN operator requires 'values' array at filter index " ++ Go.itoa i
  | ErrBetweenValues i =>
      "BETWEEN operator requires exactly 2 values at filter index "
        ++ Go.itoa i
  | ErrFilterValue op i =>
      "filter value is required for operator '" ++ op ++ "' at index "
        ++ Go.itoa i
  | ErrBetweenNull => "BETWEEN operator cannot have NULL values"
  | ErrCompareNull op =>
      "comparison operator " ++ op ++ " cannot compare with NULL"
  end.

(** ** Validator *)

(** [contains] checks if a slice contains a specific string. *)
Fixpoint contains (slice : list string) (item : string) : bool :=
  match slice with
  | [] => false
  | s :: r => if String.eqb s item then true else contains r item
  end.

Definition isEmpty (s : string) : bool := String.eqb s "".

(** [for i, x := range l { if err := body i x; err != nil { return err } }],
    the index starting at [i]. *)
Fixpoint forRange {A : Type} (body : nat -> A -> option error)
    (i : nat) (l : list A) : option error :=
  match l with
  | [] => None
  | x :: r =>
      match body i x with
      | Some e => Some e
      | None => forRange body (S i) r
      end
  end.

Definition validateJoinConfig (join : JoinConfig) (tableIndex joinIndex : nat)
  : option error :=
  if isEmpty (jTable join) then Some (ErrJoinTable tableIndex joinIndex)
  else if isEmpty (jCondition join)
  then Some (ErrJoinCondition tableIndex joinIndex)
  else if negb (isEmpty (jType join))
          && negb (contains validJoinTypes (jType join))
  then Some (ErrJoinType (jType join) tableIndex joinIndex)
  else None.

Definition validateFilter (filter : FilterConfig) (index : nat)
  : option error :=
  if negb (isEmpty (fRaw filter)) then None
  else if isEmpty (fColumn filter) then Some (ErrFilterColumn index)
  else if isEmpty (fOperator filter) then Some (ErrFilterOperator index)
  else if negb (contains validOperators (fOperator filter))
  then Some (ErrInvalidOperator (fOperator filter) index)
  else if String.eqb (fOperator filter) "IN" then
    if Nat.eqb (List.length (fValues filter)) 0
    then Some (ErrInValues index) else None
  else if String.eqb (fOperator filter) "BETWEEN" then
    if negb (Nat.eqb (List.length (fValues filter)) 2)
    then Some (ErrBetweenValues index) else None
  else if String.eqb (fOperator filter) "IS" then None
  else
    if is_nil (fValue filter) && Nat.eqb (List.length (fValues filter)) 0
    then Some (ErrFilterValue (fOperator filter) index) else None.

Definition validateTable (i : nat) (table : TableConfig) : option error :=
  if isEmpty (tName table) then Some (ErrTableName i)
  else forRange (fun j join => validateJoinConfig join i j) 0 (tJoins table).

Definition validateYAxis (i : nat) (yAxis : AxisConfig) : option error :=
  if isEmpty (aColumn yAxis) then Some (ErrYAxisColumn i)
  else if negb (isEmpty (aAggregation yAxis))
          && negb (contains validAggregations (aAggregation yAxis))
  then Some (ErrAggregation (aAggregation yAxis) i)
  else None.

Definition validateChartConfig (config : ChartConfig) : option error :=
  if isEmpty (ChartType config) then Some ErrChartTypeRequired
  else if isEmpty (Title config) then Some ErrTitleRequired
  else if Nat.eqb (List.length (Tables config)) 0 then Some ErrTableRequired
  else if Nat.eqb (List.length (YAxis config)) 0 then Some ErrYAxisRequired
  else if negb (contains validChartTypes (ChartType config))
  then Some (ErrInvalidChartType (ChartType config))
  else
    match forRange validateTable 0 (Tables config) with
    | Some e => Some e
    | None =>
        if isEmpty (aColumn (XAxis config)) then Some ErrXAxisColumn
        else
          match forRange validateYAxis 0 (YAxis config) with
          | Some e => Some e
          | None =>
              forRange (fun i filter => validateFilter filter i) 0
                (Filters config)
          end
    end.

(** ** Normaliser *)

Definition defaultJoinType (join : JoinConfig) : JoinConfig :=
  if isEmpty (jType join)
  then mkJoin (jTable join) (jAlias join) "INNER" (jCondition join)
  else join.

Definition defaultJoins (table : TableConfig) : TableConfig :=
  mkTable (tName table) (tAlias table) (map defaultJoinType (tJoins table)).

Definition defaultDirection (order : OrderConfig) : OrderConfig :=
  if isEmpty (oDirection order) then mkOrder (oColumn order) "ASC" else order.

Definition defaultOptions (o : ChartOptions) : ChartOptions :=
  mkOptions
    (if Z.eqb (Width o) 0 then 800%Z else Width o)
    (if Z.eqb (Height o) 0 then 400%Z else Height o)
    (if isEmpty (Theme o) then "light" else Theme o)
    (Stacked o) (ShowLegend o) (ShowGrid o)
    (DateFormat o) (TimeInterval o) (Colors o).

(** The configuration as [ValidateAndNormalizeConfig] leaves it after a
    successful validation. *)
Definition normalize (config : ChartConfig) : ChartConfig :=
  mkConfig
    (Go.ToLower (ChartType config))
    (Title config) (Description config)
    (map defaultJoins (Tables config))
    (XAxis config) (YAxis config) (GroupBy config) (Filters config)
    (defaultOptions (Options config))
    (Limit config)
    (map defaultDirection (OrderBy config)).

(** [ValidateAndNormalizeConfig] works in place: the result pairs the
    returned error with the configuration the pointer designates afterwards
    (untouched when validation fails). *)
Definition ValidateAndNormalizeConfig (config : ChartConfig)
  : option error * ChartConfig :=
  match validateChartConfig config with
  | Some err => (Some err, config)
  | None => (None, normalize config)
  end.

(** ** Query builder *)

(** What has been written to the [strings.Builder]: literal text, or the
    placeholder [$n] printed by the [$%d] part of a format string. *)
Inductive chunk : Type :=
| Txt (s : string)
| Arg (n : nat).

Definition chunkText (c : chunk) : string :=
  match c with
  | Txt s => s
  | Arg n => "$" ++ Go.itoa n
  end.

(** [query.String()]. *)
Fixpoint text (q : list chunk) : string :=
  match q with
  | [] => ""
  | c :: r => chunkText c ++ text r
  end.

(** [strings.Join] on pieces that are still chunks. *)
Fixpoint joinChunks (l : list chunk) (sep : string) : list chunk :=
  match l with
  | [] => []
  | [x] => [x]
  | x :: r => x :: Txt sep :: joinChunks r sep
  end.

Inductive panic : Type :=
| IndexOutOfRange (index len : nat).

Inductive outcome (A : Type) : Type :=
| Ok (a : A)
| Err (e : error)
| Panic (p : panic).
Arguments Ok {A} a.
Arguments Err {A} e.
Arguments Panic {A} p.

(** The local variables [query], [args] and [argIndex] of
    [BuildChartQuery]. *)
Record state := mkState {
  query : list chunk;
  args : list value;
  argIndex : nat
}.

(** [query.WriteString(...)]. *)
Definition write (st : state) (cs : list chunk) : state :=
  mkState (query st ++ cs) (args st) (argIndex st).

(** [args = append(args, val); argIndex++]. *)
Definition bind (st : state) (val : value) : state :=
  mkState (query st) (args st ++ [val]) (S (argIndex st)).

(** The loop
    [for j, val := range nonNullValues {
       placeholders[j] = fmt.Sprintf("$%d", argIndex)
       args = append(args, val); argIndex++ }],
    returning [placeholders] and the state it leaves. *)
Fixpoint bindValues (vals : list value) (st : state) : list chunk * state :=
  match vals with
  | [] => ([], st)
  | val :: r =>
      let '(placeholders, st') := bindValues r (bind st val) in
      (Arg (argIndex st) :: placeholders, st')
  end.

(** [nullCount] and [nonNullValues] of the [IN] and [NOT IN] cases. *)
Definition nullCount (vals : list value) : nat :=
  List.length (List.filter is_nil vals).
Definition nonNullValues (vals : list value) : list value :=
  List.filter (fun v => negb (is_nil v)) vals.

(** [fmt.Sprintf("%s %s $%d", filter.Column, filter.Operator, argIndex)]
    followed by [args = append(args, filter.Value); argIndex++]. *)
Definition compare (filter : FilterConfig) (st : state) : state :=
  bind (write st [Txt (fColumn filter ++ " " ++ fOperator filter ++ " ");
                  Arg (argIndex st)])
       (fValue filter).

Definition caseIn (filter : FilterConfig) (st : state) : state :=
  let nulls := nullCount (fValues filter) in
  let nonNull := nonNullValues (fValues filter) in
  if Nat.ltb 0 nulls && Nat.ltb 0 (List.length nonNull) then
    let st := write st [Txt "("] in
    let '(placeholders, st) := bindValues nonNull st in
    let st := write st ([Txt (fColumn filter ++ " IN (")]
                          ++ joinChunks placeholders ", "
                          ++ [Txt (") OR " ++ fColumn filter ++ " IS NULL")]) in
    write st [Txt ")"]
  else if Nat.ltb 0 nulls then
    write st [Txt (fColumn filter ++ " IS NULL")]
  else
    let '(placeholders, st) := bindValues nonNull st in
    write st ([Txt (fColumn filter ++ " IN (")]
                ++ joinChunks placeholders ", " ++ [Txt ")"]).

Definition caseNotIn (filter : FilterConfig) (st : state) : state :=
  let nulls := nullCount (fValues filter) in
  let nonNull := nonNullValues (fValues filter) in
  if Nat.ltb 0 nulls && Nat.ltb 0 (List.length nonNull) then
    let st := write st [Txt "("] in
    let '(placeholders, st) := bindValues nonNull st in
    let st := write st ([Txt (fColumn filter ++ " NOT IN (")]
                          ++ joinChunks placeholders ", "
                          ++ [Txt (") AND " ++ fColumn filter
                                     ++ " IS NOT NULL")]) in
    write st [Txt ")"]
  else if Nat.ltb 0 nulls then
    write st [Txt (fColumn filter ++ " IS NOT NULL")]
  else
    let '(placeholders, st) := bindValues nonNull st in
    write st ([Txt ("(" ++ fColumn filter ++ " NOT IN (")]
                ++ joinChunks placeholders ", "
                ++ [Txt (") OR " ++ fColumn filter ++ " IS NULL)")]).

Definition caseBetween (filter : FilterConfig) (st : state) : outcome state :=
  let vals := fValues filter in
  match nth_error vals 0 with
  | None => Panic (IndexOutOfRange 0 (List.length vals))
  | Some v0 =>
      if is_nil v0 then Err ErrBetweenNull
      else
        match nth_error vals 1 with
        | None => Panic (IndexOutOfRange 1 (List.length vals))
        | Some v1 =>
            if is_nil v1 then Err ErrBetweenNull
            else
              let st := write st [Txt (fColumn filter ++ " BETWEEN ");
                                  Arg (argIndex st);
                                  Txt " AND ";
                                  Arg (argIndex st + 1)] in
              Ok (mkState (query st) (args st ++ [v0; v1]) (argIndex st + 2))
        end
  end.

(** The boolean spelling shared by the string and the [bool] branches. *)
Definition isBool (filter : FilterConfig) (isTrue : bool) (st : state)
  : state :=
  if String.eqb (Go.ToLower (fOperator filter)) "=" then
    if isTrue then write st [Txt (fColumn filter ++ " IS TRUE")]
    else write st [Txt (fColumn filter ++ " IS FALSE")]
  else
    if isTrue then write st [Txt (fColumn filter ++ " IS NOT TRUE")]
    else write st [Txt (fColumn filter ++ " IS NOT FALSE")].

Definition caseEquality (filter : FilterConfig) (st : state) : state :=
  match fValue filter with
  | VNil =>
      if String.eqb (Go.ToLower (fOperator filter)) "="
      then write st [Txt (fColumn filter ++ " IS NULL")]
      else write st [Txt (fColumn filter ++ " IS NOT NULL")]
  | VString boolVal =>
      let lowerVal := Go.ToLower boolVal in
      if String.eqb lowerVal "true" || String.eqb lowerVal "false"
      then isBool filter (String.eqb lowerVal "true") st
      else compare filter st
  | VBool boolVal => isBool filter boolVal st
  | _ => compare filter st
  end.

Definition caseOrdered (filter : FilterConfig) (st : state) : outcome state :=
  if is_nil (fValue filter) then Err (ErrCompareNull (fOperator filter))
  else Ok (compare filter st).

(** The [LIKE] family and the [default] case have the same body. *)
Definition caseNullable (filter : FilterConfig) (st : state) : state :=
  if is_nil (fValue filter)
  then write st [Txt (fColumn filter ++ " IS NULL")]
  else compare filter st.

Definition oneOf (s : string) (l : list string) : bool :=
  existsb (String.eqb s) l.

(** The [switch strings.ToLower(filter.Operator)] of the [WHERE] loop. *)
Definition expandFilter (filter : FilterConfig) (st : state) : outcome state :=
  let op := Go.ToLower (fOperator filter) in
  if String.eqb op "in" then Ok (caseIn filter st)
  else if String.eqb op "not in" then Ok (caseNotIn filter st)
  else if String.eqb op "between" then caseBetween filter st
  else if oneOf op ["="; "!="; "<>"] then Ok (caseEquality filter st)
  else if String.eqb op "is null"
  then Ok (write st [Txt (fColumn filter ++ " IS NULL")])
  else if String.eqb op "is not null"
  then Ok (write st [Txt (fColumn filter ++ " IS NOT NULL")])
  else if oneOf op ["<"; "<="; ">"; ">="] then caseOrdered filter st
  else if oneOf op ["like"; "ilike"; "not like"; "not ilike"]
  then Ok (caseNullable filter st)
  else Ok (caseNullable filter st).

(** [for i, filter := range config.Filters], from index [i] on. *)
Fixpoint whereLoop (i : nat) (filters : list FilterConfig) (st : state)
  : outcome state :=
  match filters with
  | [] => Ok st
  | filter :: r =>
      let st := if Nat.ltb 0 i then write st [Txt " AND "] else st in
      match expandFilter filter st with
      | Ok st => whereLoop (S i) r st
      | Err e => Err e
      | Panic p => Panic p
      end
  end.

Definition whereClause (config : ChartConfig) (st : state) : outcome state :=
  if Nat.ltb 0 (List.length (Filters config))
  then whereLoop 0 (Filters config) (write st [Txt " WHERE "])
  else Ok st.

(** [SELECT] list. *)
Definition xAxisTerm (x : AxisConfig) : string :=
  if negb (isEmpty (aAggregation x))
  then aAggregation x ++ "(" ++ aColumn x ++ ") as x_value"
  else aColumn x ++ " as x_value".

Definition yAxisTerm (i : nat) (yAxis : AxisConfig) : string :=
  if negb (isEmpty (aAggregation yAxis))
  then aAggregation yAxis ++ "(" ++ aColumn yAxis ++ ") as y_value_"
         ++ Go.itoa i
  else aColumn yAxis ++ " as y_value_" ++ Go.itoa i.

Fixpoint yAxisLoop (i : nat) (ys : list AxisConfig) (st : state) : state :=
  match ys with
  | [] => st
  | yAxis :: r =>
      yAxisLoop (S i) r (write (write st [Txt ", "]) [Txt (yAxisTerm i yAxis)])
  end.

(** [FROM] and [JOIN]. *)
Definition fromClause (table : TableConfig) (st : state) : state :=
  let st := write st [Txt (" FROM " ++ tName table)] in
  if negb (isEmpty (tAlias table))
  then write st [Txt (" " ++ tAlias table)] else st.

Definition writeJoin (st : state) (join : JoinConfig) : state :=
  let st := write st [Txt (" " ++ jType join ++ " JOIN " ++ jTable join)] in
  let st := if negb (isEmpty (jAlias join))
            then write st [Txt (" " ++ jAlias join)] else st in
  write st [Txt (" ON " ++ jCondition join)].

Definition joinLoop (tables : list TableConfig) (st : state) : state :=
  fold_left (fun st table => fold_left writeJoin (tJoins table) st) tables st.

(** [GROUP BY], [ORDER BY], [LIMIT]. *)
Definition groupByClause (config : ChartConfig) (st : state) : state :=
  if Nat.ltb 0 (List.length (GroupBy config))
  then write (write st [Txt " GROUP BY "])
             [Txt (Go.Join (GroupBy config) ", ")]
  else st.

Definition orderClause (order : OrderConfig) : string :=
  oColumn order ++ " " ++ oDirection order.

Definition orderByClause (config : ChartConfig) (st : state) : state :=
  if Nat.ltb 0 (List.length (OrderBy config))
  then write (write st [Txt " ORDER BY "])
             [Txt (Go.Join (map orderClause (OrderBy config)) ", ")]
  else st.

Definition limitClause (config : ChartConfig) (st : state) : state :=
  if Z.ltb 0 (Limit config)
  then write st [Txt (" LIMIT " ++ Go.itoaZ (Limit config))]
  else st.

(** The state of [BuildChartQuery] when it reaches the [WHERE] clause:
    [SELECT], [FROM] and the [JOIN]s are written, no argument is bound. *)
Definition beforeWhere (config : ChartConfig) : outcome state :=
  let st := mkState [] [] 1 in
  let st := write st [Txt "SELECT "] in
  let st := write st [Txt (xAxisTerm (XAxis config))] in
  let st := yAxisLoop 0 (YAxis config) st in
  match nth_error (Tables config) 0 with
  | None => Panic (IndexOutOfRange 0 (List.length (Tables config)))
  | Some table0 =>
      let st := fromClause table0 st in
      Ok (joinLoop (Tables config) st)
  end.

Definition afterWhere (config : ChartConfig) (st : state) : state :=
  limitClause config (orderByClause config (groupByClause config st)).

(** The chunks and arguments of a build that runs to its last line. *)
Definition buildState (config : ChartConfig) : outcome state :=
  match beforeWhere config with
  | Ok st =>
      match whereClause config st with
      | Ok st => Ok (afterWhere config st)
      | Err e => Err e
      | Panic p => Panic p
      end
  | Err e => Err e
  | Panic p => Panic p
  end.

(** What a Go call leaves: the returned values, or a panic. *)
Inductive run (A : Type) : Type :=
| Return (a : A)
| Panics (p : panic).
Arguments Return {A} a.
Arguments Panics {A} p.

(** [BuildChartQuery] returns [(query.String(), args, nil)], or
    [("", nil, err)] from inside the [WHERE] loop. *)
Definition BuildChartQuery (config : ChartConfig)
  : run (string * list value * option error) :=
  match buildState config with
  | Ok st => Return (text (query st), args st, None)
  | Err e => Return ("", [], Some e)
  | Panic p => Panics p
  end.

(** Entry point: validate and normalise, then build. *)
Definition ToSql (c : ChartConfig)
  : run (string * list value * option error) :=
  match ValidateAndNormalizeConfig c with
  | (Some err, _) => Return ("", [], Some err)
  | (None, c') =>
      match BuildChartQuery c' with
      | Return (_, _, Some err) => Return ("", [], Some err)
      | Return (query, args, None) => Return (query, args, None)
      | Panics p => Panics p
      end
  end.


(** ** Result rows (chartrow.go) *)

Module ChartRow.

(** A [float64] is an IEEE 754 binary64 value; the conversion
    [float64(v)] of an integer rounds to the nearest value, ties to
    even.  A [float32] converts to [float64] without rounding. *)
Definition float64 : Type := spec_float.

Definition toFloat64 (z : Z) : float64 := binary_normalize 53 1024 z 0 false.

(** The dynamic values a result cell can hold. *)
#[warnings="-register-all"]
Inductive dyn : Type :=
| DNil
| DBytes (b : string)
| DString (s : string)
| DInt64 (z : Z)
| DInt32 (z : Z)
| DInt (z : Z)
| DFloat32 (f : spec_float)
| DFloat64 (f : float64)
| DTime (unixNano : Z)
| DBool (b : bool)
| DMap (entries : list (string * dyn)).

Definition isNil (v : dyn) : bool :=
  match v with DNil => true | _ => false end.

Record ChartDataRow := mkRow {
  XValue : dyn;
  YValues : list dyn
}.

(** What a call leaves: its results, or the run-time panic of an index
    expression out of range, or of a slice expression whose bounds are out
    of range. *)
Inductive result (A : Type) : Type :=
| Done (a : A)
| IndexPanic (index : Z) (len : nat)
| SlicePanic (low len : nat).
Arguments Done {A} a.
Arguments IndexPanic {A} index len.
Arguments SlicePanic {A} low len.

Definition bind {A B : Type} (r : result A) (k : A -> result B) : result B :=
  match r with
  | Done a => k a
  | IndexPanic i n => IndexPanic i n
  | SlicePanic low n => SlicePanic low n
  end.

(** The index expression [s[i]]. *)
Definition index {A : Type} (s : list A) (i : Z) : result A :=
  if Z.ltb i 0 then IndexPanic i (List.length s)
  else
    match nth_error s (Z.to_nat i) with
    | Some x => Done x
    | None => IndexPanic i (List.length s)
    end.

(** The slice expression [s[low:]]. *)
Definition slice {A : Type} (s : list A) (low : nat) : result (list A) :=
  if Nat.leb low (List.length s) then Done (skipn low s)
  else SlicePanic low (List.length s).

(** [GetYValueAsFloat] gets a Y-value as float64; a nil pointer is
    [None]. *)
Definition GetYValueAsFloat (row : ChartDataRow) (i : Z)
  : result (option float64) :=
  if Z.geb i (Z.of_nat (List.length (YValues row))) then Done None
  else
    bind (index (YValues row) i) (fun y =>
      if isNil y then Done None
      else
        match y with
        | DFloat64 v => Done (Some v)
        | DInt64 v => Done (Some (toFloat64 v))
        | DInt v => Done (Some (toFloat64 v))
        | _ => Done None
        end).

(** [driver.Value] is declared as the empty interface: in a type switch
    its case matches every value that is not nil. *)
Definition isDriverValue (v : dyn) : bool := negb (isNil v).

(** [convertValue]: the cases of the type switch, tried in the order they
    are written. *)
Definition convertValue (val : dyn) : dyn :=
  if isNil val then DNil
  else
    match val with
    | DBytes v => DString v
    | _ =>
        if isDriverValue val then val
        else
          match val with
          | DInt64 v => DFloat64 (toFloat64 v)
          | DInt32 v => DFloat64 (toFloat64 v)
          | DInt v => DFloat64 (toFloat64 v)
          | DFloat32 v => DFloat64 v
          | DFloat64 v => DFloat64 v
          | DString v => DString v
          | DTime v => DTime v
          | DBool v =>
              if v then DFloat64 (toFloat64 1) else DFloat64 (toFloat64 0)
          | _ => val
          end
    end.

(** An error reported by the database driver. *)
Inductive dbError : Type :=
| DbError (message : string).

(** The result set handed to [ScanDynamicChart]: what [rows.Columns()]
    returns, then for every [rows.Next()] that succeeds what [rows.Scan]
    stores or the error it returns, then what [rows.Err()] returns. *)
Record Rows := mkRows {
  Columns : dbError + list string;
  Next : list (dbError + list dyn);
  Err : option dbError
}.

(** [values] after [rows.Scan(valuePtrs...)]: one slot per column, nil
    where the driver stored nothing. *)
Definition scanInto (n : nat) (scanned : list dyn) : list dyn :=
  map (fun i => nth i scanned DNil) (seq 0 n).

(** The loop [for i := range yValues], from index [i] on, [todo] entries
    being left. *)
Fixpoint yValuesLoop (columns : list string) (values : list dyn)
    (i todo : nat) : result (list dyn) :=
  match todo with
  | O => Done []
  | S todo' =>
      bind (index columns (Z.of_nat (i + 1))) (fun column =>
      bind (index values (Z.of_nat (i + 1))) (fun value =>
      bind (yValuesLoop columns values (S i) todo') (fun rest =>
      Done (DMap [(column, value)] :: rest))))
  end.

(** The body of the [rows.Next()] loop after a successful [Scan]: the
    literal [ChartDataRow{XValue: values[0], YValues: values[1:]}], then the
    y values that replace [row.YValues].  Go leaves open which operand of
    the literal is evaluated first; the slice expression is taken first
    here, as the compiled program does. *)
Definition buildRow (columns : list string) (scanned : list dyn)
  : result ChartDataRow :=
  let values := map convertValue (scanInto (List.length columns) scanned) in
  bind (slice values 1) (fun rest =>
  bind (index values 0) (fun x =>
  let row := mkRow x rest in
  bind (yValuesLoop columns values 0 (List.length columns - 1))
       (fun yValues =>
  Done (mkRow (XValue row) yValues)))).

Fixpoint scanLoop (columns : list string) (next : list (dbError + list dyn))
    (results : list ChartDataRow) (err : option dbError)
  : result (list ChartDataRow * option dbError) :=
  match next with
  | [] => Done (results, err)
  | inl e :: _ => Done ([], Some e)
  | inr scanned :: rest =>
      bind (buildRow columns scanned) (fun row =>
      scanLoop columns rest (results ++ [row]) err)
  end.

(** [ScanDynamicChart] scans chart data with an unknown number of
    Y-values. *)
Definition ScanDynamicChart (rows : Rows)
  : result (list ChartDataRow * option dbError) :=
  match Columns rows with
  | inl e => Done ([], Some e)
  | inr columns => scanLoop columns (Next rows) [] (Err rows)
  end.

End ChartRow.
(** * Specification-side definitions *)

(** ** Order of the validation checks *)

Module Order.

(** The first error of a sequence of check results. *)
Fixpoint firstError (checks : list (option error)) : option error :=
  match checks with
  | [] => None
  | Some e :: _ => Some e
  | None :: r => firstError r
  end.

(** The results of one check per element, with the element's index. *)
Fixpoint eachFrom {A : Type} (check : nat -> A -> option error)
    (i : nat) (l : list A) : list (option error) :=
  match l with
  | [] => []
  | x :: r => check i x :: eachFrom check (S i) r
  end.

Definition require (violated : bool) (e : error) : option error :=
  if violated then Some e else None.

(** The checks on one join, one table, one y-axis and one filter. *)
Definition joinChecks (i j : nat) (join : JoinConfig) : list (option error) :=
  [ require (isEmpty (jTable join)) (ErrJoinTable i j);
    require (isEmpty (jCondition join)) (ErrJoinCondition i j);
    require (negb (isEmpty (jType join))
             && negb (contains validJoinTypes (jType join)))
            (ErrJoinType (jType join) i j) ].

Definition tableChecks (i : nat) (table : TableConfig) : list (option error) :=
  require (isEmpty (tName table)) (ErrTableName i)
  :: eachFrom (fun j join => firstError (joinChecks i j join)) 0
       (tJoins table).

Definition yAxisChecks (i : nat) (yAxis : AxisConfig) : list (option error) :=
  [ require (isEmpty (aColumn yAxis)) (ErrYAxisColumn i);
    require (negb (isEmpty (aAggregation yAxis))
             && negb (contains validAggregations (aAggregation yAxis)))
            (ErrAggregation (aAggregation yAxis) i) ].

(** The stages of the validation of a configuration, in the order in which
    a violation is reported:
    chart kind present, title, table count, y-axis count, chart kind in the
    enumeration, the tables one by one (name, then its joins), the x-axis
    column, the y-axes one by one (column, then aggregation), the filters
    one by one. *)
Definition stages (config : ChartConfig) : list (option error) :=
  [ require (isEmpty (ChartType config)) ErrChartTypeRequired;
    require (isEmpty (Title config)) ErrTitleRequired;
    require (Nat.eqb (List.length (Tables config)) 0) ErrTableRequired;
    require (Nat.eqb (List.length (YAxis config)) 0) ErrYAxisRequired;
    require (negb (contains validChartTypes (ChartType config)))
            (ErrInvalidChartType (ChartType config));
    firstError
      (eachFrom (fun i t => firstError (tableChecks i t)) 0 (Tables config));
    require (isEmpty (aColumn (XAxis config))) ErrXAxisColumn;
    firstError
      (eachFrom (fun i y => firstError (yAxisChecks i y)) 0 (YAxis config));
    firstError
      (eachFrom (fun i f => validateFilter f i) 0 (Filters config)) ].

(** The order the specification announces: chart kind, title, table count,
    y-axis count, x-axis column, tables and joins, y-axes, filters. *)
Definition announcedStages (config : ChartConfig) : list (option error) :=
  [ require (isEmpty (ChartType config)) ErrChartTypeRequired;
    require (negb (contains validChartTypes (ChartType config)))
            (ErrInvalidChartType (ChartType config));
    require (isEmpty (Title config)) ErrTitleRequired;
    require (Nat.eqb (List.length (Tables config)) 0) ErrTableRequired;
    require (Nat.eqb (List.length (YAxis config)) 0) ErrYAxisRequired;
    require (isEmpty (aColumn (XAxis config))) ErrXAxisColumn;
    firstError
      (eachFrom (fun i t => firstError (tableChecks i t)) 0 (Tables config));
    firstError
      (eachFrom (fun i y => firstError (yAxisChecks i y)) 0 (YAxis config));
    firstError
      (eachFrom (fun i f => validateFilter f i) 0 (Filters config)) ].

Definition isChartKindError (e : option error) : bool :=
  match e with
  | Some ErrChartTypeRequired | Some (ErrInvalidChartType _) => true
  | _ => false
  end.

End Order.

(** ** Concrete configurations *)

Module Sample.

Definition axis (column aggregation : string) : AxisConfig :=
  mkAxis column "" aggregation "" "" "".

Definition filter (column operator : string) (v : value) (vs : list value)
  : FilterConfig :=
  mkFilter column operator v vs "" [].

Definition rawFilter (raw : string) (rawValues : list value)
    (operator : string) : FilterConfig :=
  mkFilter "" operator VNil [] raw rawValues.

Definition noOptions : ChartOptions :=
  mkOptions 0 0 "" false false false "" "" [].

Definition chart (kind title : string) (tables : list TableConfig)
    (x : AxisConfig) (filters : list FilterConfig) : ChartConfig :=
  mkConfig kind title "" tables x [axis "amount" "SUM"] [] filters
    noOptions 0 [].

Definition orders : TableConfig :=
  mkTable "orders" ""
    [mkJoin "users" "" "LEFT" "orders.user_id = users.id"].

(** A chart kind outside the enumeration together with an empty title. *)
Definition kindAndTitle : ChartConfig :=
  chart "donut" "" [orders] (axis "created_at" "") [].

(** An empty x-axis column together with a join without condition. *)
Definition xAxisAndJoin : ChartConfig :=
  chart "line" "Sales" [mkTable "orders" "" [mkJoin "users" "" "LEFT" ""]]
    (axis "" "") [].

(** A chart kind in mixed case. *)
Definition mixedCase : ChartConfig :=
  chart "Line" "Sales" [orders] (axis "created_at" "") [].

Definition sales (filters : list FilterConfig) : ChartConfig :=
  chart "line" "Sales" [orders] (axis "created_at" "") filters.

End Sample.

(** ** The per-operator expansion, row by row *)

Module Table.

(** What one filter contributes: the chunks it writes and the values it
    binds, in order. *)
Definition emission : Type := list chunk * list value.

(** The state after an emission: the chunks are appended to the query, the
    values to the argument list, and the counter advances by the number of
    values bound. *)
Definition emit (st : state) (e : emission) : state :=
  mkState (query st ++ fst e) (args st ++ snd e)
          (argIndex st + List.length (snd e)).

(** [col SUFFIX], no placeholder. *)
Definition plain (filter : FilterConfig) (suffix : string) : emission :=
  ([Txt (fColumn filter ++ suffix)], []).

(** [col OP $n], the scalar value bound. *)
Definition bound (filter : FilterConfig) (n : nat) : emission :=
  ([Txt (fColumn filter ++ " " ++ fOperator filter ++ " "); Arg n],
   [fValue filter]).

(** [$n, $n+1, ..., $n+k-1]. *)
Definition placeholderList (n k : nat) : list chunk :=
  joinChunks (map Arg (seq n k)) ", ".

Definition hasNull (vals : list value) : bool := existsb is_nil vals.
Definition hasNonNull (vals : list value) : bool :=
  existsb (fun v => negb (is_nil v)) vals.

(** [IN]. *)
Definition membership (filter : FilterConfig) (n : nat) : emission :=
  let col := fColumn filter in
  let vals := nonNullValues (fValues filter) in
  let k := List.length vals in
  if hasNull (fValues filter) && hasNonNull (fValues filter) then
    ([Txt "("; Txt (col ++ " IN (")] ++ placeholderList n k
       ++ [Txt (") OR " ++ col ++ " IS NULL"); Txt ")"], vals)
  else if hasNull (fValues filter) then plain filter " IS NULL"
  else ([Txt (col ++ " IN (")] ++ placeholderList n k ++ [Txt ")"], vals).

(** [NOT IN]. *)
Definition exclusion (filter : FilterConfig) (n : nat) : emission :=
  let col := fColumn filter in
  let vals := nonNullValues (fValues filter) in
  let k := List.length vals in
  if hasNull (fValues filter) && hasNonNull (fValues filter) then
    ([Txt "("; Txt (col ++ " NOT IN (")] ++ placeholderList n k
       ++ [Txt (") AND " ++ col ++ " IS NOT NULL"); Txt ")"], vals)
  else if hasNull (fValues filter) then plain filter " IS NOT NULL"
  else ([Txt ("(" ++ col ++ " NOT IN (")] ++ placeholderList n k
          ++ [Txt (") OR " ++ col ++ " IS NULL)")], vals).

(** [BETWEEN], both bounds given. *)
Definition range (filter : FilterConfig) (n : nat) (lo hi : value)
  : emission :=
  ([Txt (fColumn filter ++ " BETWEEN "); Arg n; Txt " AND "; Arg (n + 1)],
   [lo; hi]).

(** The boolean a value spells, if any: a [bool], or the strings "true"
    and "false" in any letter case. *)
Definition boolLiteral (v : value) : option bool :=
  match v with
  | VBool b => Some b
  | VString s =>
      if String.eqb (Go.ToLower s) "true" then Some true
      else if String.eqb (Go.ToLower s) "false" then Some false
      else None
  | _ => None
  end.

(** [=], [!=], [<>]. *)
Definition equality (filter : FilterConfig) (n : nat) : emission :=
  let positive := String.eqb (fOperator filter) "=" in
  match fValue filter with
  | VNil => plain filter (if positive then " IS NULL" else " IS NOT NULL")
  | v =>
      match boolLiteral v with
      | Some true =>
          plain filter (if positive then " IS TRUE" else " IS NOT TRUE")
      | Some false =>
          plain filter (if positive then " IS FALSE" else " IS NOT FALSE")
      | None => bound filter n
      end
  end.

(** [LIKE], [ILIKE], [NOT LIKE], [NOT ILIKE] and any operator without a row
    of its own. *)
Definition nullable (filter : FilterConfig) (n : nat) : emission :=
  if is_nil (fValue filter) then plain filter " IS NULL" else bound filter n.

(** The whole table, the operator being matched in lower case. *)
Definition expansion (filter : FilterConfig) (n : nat) : outcome emission :=
  let op := Go.ToLower (fOperator filter) in
  if String.eqb op "in" then Ok (membership filter n)
  else if String.eqb op "not in" then Ok (exclusion filter n)
  else if String.eqb op "between" then
    match fValues filter with
    | [] => Panic (IndexOutOfRange 0 0)
    | [lo] =>
        if is_nil lo then Err ErrBetweenNull
        else Panic (IndexOutOfRange 1 1)
    | lo :: hi :: _ =>
        if is_nil lo || is_nil hi then Err ErrBetweenNull
        else Ok (range filter n lo hi)
    end
  else if oneOf op ["="; "!="; "<>"] then Ok (equality filter n)
  else if String.eqb op "is null" then Ok (plain filter " IS NULL")
  else if String.eqb op "is not null" then Ok (plain filter " IS NOT NULL")
  else if oneOf op ["<"; "<="; ">"; ">="] then
    if is_nil (fValue filter) then Err (ErrCompareNull (fOperator filter))
    else Ok (bound filter n)
  else Ok (nullable filter n).

Definition apply (st : state) (r : outcome emission) : outcome state :=
  match r with
  | Ok e => Ok (emit st e)
  | Err e => Err e
  | Panic p => Panic p
  end.

End Table.

(** ** Placeholders of a query *)

(** The numbers of the placeholders written, in order. *)
Fixpoint placeholders (q : list chunk) : list nat :=
  match q with
  | [] => []
  | Txt _ :: r => placeholders r
  | Arg n :: r => n :: placeholders r
  end.

(** The text of the placeholder number [n]. *)
Definition placeholderText (n : nat) : string := "$" ++ Go.itoa n.

(** ** Letter case *)

(** The bytes that are not letters: lower-casing neither changes them nor
    produces them from another byte. *)
Definition symbol (c : ascii) : bool :=
  let n := nat_of_ascii c in
  negb ((Nat.leb 65 n && Nat.leb n 90) || (Nat.leb 97 n && Nat.leb n 122)).

Fixpoint symbolic (s : string) : bool :=
  match s with
  | EmptyString => true
  | String c r => symbol c && symbolic r
  end.

(** ** Filters used as examples *)

Module SampleFilter.

Definition start : state := mkState [Txt "SELECT 1 WHERE "] [] 1.

Definition isActive : FilterConfig :=
  Sample.filter "is_active" "=" (VString "true") [].
Definition deletedAt : FilterConfig :=
  Sample.filter "deleted_at" "=" VNil [].
Definition status : FilterConfig :=
  Sample.filter "status" "=" (VString "completed") [].

Definition notInPlain : FilterConfig :=
  Sample.filter "status" "NOT IN" VNil [VInt 1; VInt 2].
Definition notInNulls : FilterConfig :=
  Sample.filter "status" "NOT IN" VNil [VNil; VNil].
Definition notInMixed : FilterConfig :=
  Sample.filter "status" "not in" VNil [VInt 1; VNil; VInt 2].

End SampleFilter.

(** ** Raw predicates and build failures *)

Module Failure.

(** A filter written with column, operator and values, not as a raw
    predicate. *)
Definition structured (filter : FilterConfig) : Prop := fRaw filter = "".

(** [BETWEEN] with a NULL bound. *)
Definition betweenWithNull (filter : FilterConfig) : bool :=
  String.eqb (Go.ToLower (fOperator filter)) "between"
  && Table.hasNull (fValues filter).

(** An ordered comparison with an absent/NULL value. *)
Definition orderedWithNull (filter : FilterConfig) : bool :=
  oneOf (Go.ToLower (fOperator filter)) ["<"; "<="; ">"; ">="]
  && is_nil (fValue filter).

Definition nullMisuse (config : ChartConfig) : bool :=
  existsb (fun f => betweenWithNull f || orderedWithNull f) (Filters config).

(** The operators the README lists as supported. *)
Definition documentedOperators : list string :=
  ["="; "!="; "<>"; "<"; "<="; ">"; ">="; "LIKE"; "ILIKE"; "NOT LIKE";
   "NOT ILIKE"; "IN"; "NOT IN"; "BETWEEN"; "IS NULL"; "IS NOT NULL"].

(** What an operator accepted by the validator asks of the values. *)
Definition valuesPresent (filter : FilterConfig) : Prop :=
  (fOperator filter = "IN" -> fValues filter <> [])
  /\ (fOperator filter = "BETWEEN" -> List.length (fValues filter) = 2)
  /\ (~ In (fOperator filter) ["IN"; "BETWEEN"; "IS"] ->
      fValue filter <> VNil \/ fValues filter <> []).

(** A raw predicate and nothing else. *)
Definition rawOnly : ChartConfig :=
  Sample.sales [Sample.rawFilter "created_at > $1" [VInt 5] ""].

(** A raw predicate on a filter whose operator field says [BETWEEN]. *)
Definition rawBetween : ChartConfig :=
  Sample.sales
    [Sample.rawFilter "total BETWEEN $1 AND $2" [VInt 1; VInt 2] "BETWEEN"].

(** A raw predicate on a filter that also keeps one bound of a range. *)
Definition rawBetweenOne : ChartConfig :=
  Sample.sales [mkFilter "total" "between" VNil [VInt 1] "total > 0" []].

(** The filter of the README's JSON example. *)
Definition deletedAtIsNull : FilterConfig :=
  Sample.filter "deleted_at" "IS NULL" VNil [].

End Failure.

(** ** The clauses of the query, one by one *)

Module Clause.

Fixpoint concat (l : list string) : string :=
  match l with
  | [] => ""
  | s :: r => s ++ concat r
  end.

(** [SELECT x, y0, y1, ...]. *)
Fixpoint yAxisTerms (i : nat) (ys : list AxisConfig) : list string :=
  match ys with
  | [] => []
  | y :: r => (", " ++ yAxisTerm i y)%string :: yAxisTerms (S i) r
  end.

Definition selectText (config : ChartConfig) : string :=
  "SELECT " ++ xAxisTerm (XAxis config)
    ++ concat (yAxisTerms 0 (YAxis config)).

(** [FROM table alias]. *)
Definition fromText (table : TableConfig) : string :=
  " FROM " ++ tName table
    ++ (if isEmpty (tAlias table) then "" else " " ++ tAlias table).

(** [KIND JOIN table alias ON condition]. *)
Definition joinText (join : JoinConfig) : string :=
  " " ++ jType join ++ " JOIN " ++ jTable join
    ++ (if isEmpty (jAlias join) then "" else " " ++ jAlias join)
    ++ " ON " ++ jCondition join.

(** The joins of every table, table by table, each in list order. *)
Definition allJoins (tables : list TableConfig) : list JoinConfig :=
  flat_map tJoins tables.

(** The joins of the first table only. *)
Definition firstTableJoins (tables : list TableConfig) : list JoinConfig :=
  match tables with
  | [] => []
  | table0 :: _ => tJoins table0
  end.

Definition joinsText (joins : list JoinConfig) : string :=
  concat (map joinText joins).

(** The filters joined by [AND], the first of them being filter number
    [i] and the counter being [n]. *)
Fixpoint conjunction (i n : nat) (filters : list FilterConfig)
  : outcome Table.emission :=
  match filters with
  | [] => Ok ([], [])
  | filter :: r =>
      match Table.expansion filter n with
      | Ok (w, vs) =>
          match conjunction (S i) (n + List.length vs) r with
          | Ok (w', vs') =>
              Ok ((if Nat.ltb 0 i then [Txt " AND "] else []) ++ w ++ w',
                  vs ++ vs')
          | Err e => Err e
          | Panic p => Panic p
          end
      | Err e => Err e
      | Panic p => Panic p
      end
  end.

(** [WHERE f0 AND f1 AND ...], nothing without filters. *)
Definition whereEmission (config : ChartConfig) : outcome Table.emission :=
  match Filters config with
  | [] => Ok ([], [])
  | filters =>
      match conjunction 0 1 filters with
      | Ok (w, vs) => Ok (Txt " WHERE " :: w, vs)
      | Err e => Err e
      | Panic p => Panic p
      end
  end.

Definition groupByText (config : ChartConfig) : string :=
  match GroupBy config with
  | [] => ""
  | exprs => " GROUP BY " ++ Go.Join exprs ", "
  end.

Definition orderByText (config : ChartConfig) : string :=
  match OrderBy config with
  | [] => ""
  | orders => " ORDER BY " ++ Go.Join (map orderClause orders) ", "
  end.

Definition limitText (config : ChartConfig) : string :=
  if Z.ltb 0 (Limit config) then " LIMIT " ++ Go.itoaZ (Limit config)
  else "".

(** The same clauses as the pieces of text written one after the other. *)
Fixpoint yAxisPieces (i : nat) (ys : list AxisConfig) : list string :=
  match ys with
  | [] => []
  | y :: r => ", " :: yAxisTerm i y :: yAxisPieces (S i) r
  end.

Definition selectPieces (config : ChartConfig) : list string :=
  "SELECT " :: xAxisTerm (XAxis config) :: yAxisPieces 0 (YAxis config).

Definition fromPieces (table : TableConfig) : list string :=
  (" FROM " ++ tName table)%string
  :: (if isEmpty (tAlias table) then [] else [(" " ++ tAlias table)%string]).

Definition joinPieces (join : JoinConfig) : list string :=
  (" " ++ jType join ++ " JOIN " ++ jTable join)%string
  :: (if isEmpty (jAlias join) then [] else [(" " ++ jAlias join)%string])
  ++ [(" ON " ++ jCondition join)%string].

Definition groupByPieces (config : ChartConfig) : list string :=
  match GroupBy config with
  | [] => []
  | exprs => [" GROUP BY "; Go.Join exprs ", "]
  end.

Definition orderByPieces (config : ChartConfig) : list string :=
  match OrderBy config with
  | [] => []
  | orders => [" ORDER BY "; Go.Join (map orderClause orders) ", "]
  end.

Definition limitPieces (config : ChartConfig) : list string :=
  if Z.ltb 0 (Limit config)
  then [(" LIMIT " ++ Go.itoaZ (Limit config))%string] else [].

(** Everything written before the [WHERE] clause, and after it. *)
Definition beforePieces (config : ChartConfig) (table0 : TableConfig)
  : list string :=
  selectPieces config ++ fromPieces table0
    ++ flat_map joinPieces (allJoins (Tables config)).

Definition afterPieces (config : ChartConfig) : list string :=
  groupByPieces config ++ orderByPieces config ++ limitPieces config.

(** The query with the given joins. *)
Definition sqlWith (config : ChartConfig) (table0 : TableConfig)
    (joins : list JoinConfig) (w : list chunk) : string :=
  selectText config ++ fromText table0 ++ joinsText joins ++ text w
    ++ groupByText config ++ orderByText config ++ limitText config.

(** Two tables, each with a join of its own. *)
Definition twoTables : ChartConfig :=
  Sample.chart "line" "Sales"
    [ mkTable "orders" "o" [mkJoin "users" "u" "LEFT" "o.user_id = u.id"];
      mkTable "teams" "t" [mkJoin "regions" "" "INNER" "t.region = regions.id"] ]
    (Sample.axis "created_at" "") [].

End Clause.

(** ** Reading the placeholders back from the SQL text *)

Module Scan.

Definition isDigit (c : ascii) : bool :=
  let n := nat_of_ascii c in Nat.leb 48 n && Nat.leb n 57.

Definition isDollar (c : ascii) : bool := Ascii.eqb c "$".

(** The longest run of digits a text starts with. *)
Fixpoint leadingDigits (s : string) : string :=
  match s with
  | EmptyString => EmptyString
  | String c r => if isDigit c then String c (leadingDigits r) else EmptyString
  end.

(** The number a text starts with, if it starts with a digit. *)
Definition numberAt (s : string) : option nat :=
  match leadingDigits s with
  | EmptyString => None
  | digits => option_map Nat.of_uint (NilEmpty.uint_of_string digits)
  end.

(** The numbers of the placeholders of a text: every dollar sign followed
    by digits, with the number the digits spell, from left to right. *)
Fixpoint placeholdersOf (s : string) : list nat :=
  match s with
  | EmptyString => []
  | String c r =>
      if isDollar c then
        match numberAt r with
        | Some n => n :: placeholdersOf r
        | None => placeholdersOf r
        end
      else placeholdersOf r
  end.

(** A text without dollar sign. *)
Fixpoint dollarFree (s : string) : bool :=
  match s with
  | EmptyString => true
  | String c r => negb (isDollar c) && dollarFree r
  end.

(** A text that cannot extend a number written just before it. *)
Definition stops (s : string) : bool :=
  match s with
  | EmptyString => true
  | String c _ => negb (isDigit c)
  end.

(** Chunks whose placeholders can be read back from their text when the
    text that follows cannot extend a number. *)
Definition guarded (w : list chunk) : Prop :=
  forall t, stops t = true ->
            placeholdersOf (text w ++ t) = placeholders w ++ placeholdersOf t.

End Scan.

Module Guard.

(** Chunks whose text, put before a text that cannot extend a number,
    cannot extend a number either. *)
Definition halts (w : list chunk) : Prop :=
  forall t, Scan.stops t = true -> Scan.stops (text w ++ t) = true.

(** A text made of digits only. *)
Fixpoint allDigits (s : string) : bool :=
  match s with
  | EmptyString => true
  | String c r => Scan.isDigit c && allDigits r
  end.

End Guard.

(** ** A configuration with one filter of each shape *)

Module Mixed.

Definition filters : list FilterConfig :=
  [ Sample.filter "status" "=" (VString "completed") [];
    Sample.filter "deleted_at" "=" VNil [VNil];
    Sample.filter "region" "IN" VNil [VInt 1; VNil; VInt 2];
    Sample.filter "total" "BETWEEN" VNil [VInt 10; VInt 20];
    Sample.filter "is_active" "!=" (VBool true) [];
    Sample.filter "name" "LIKE" (VString "a%") [];
    Sample.filter "age" ">=" (VInt 18) [] ].

Definition config : ChartConfig :=
  mkConfig "bar" "Sales" "" [Sample.orders]
    (Sample.axis "created_at" "") [Sample.axis "amount" "SUM"]
    ["created_at"] filters Sample.noOptions 100
    [mkOrder "created_at" "ASC"].

Definition sql : string :=
  "SELECT created_at as x_value, SUM(amount) as y_value_0 FROM orders LEFT JOIN users ON orders.user_id = users.id WHERE status = $1 AND deleted_at IS NULL AND (region IN ($2, $3) OR region IS NULL) AND total BETWEEN $4 AND $5 AND is_active IS NOT TRUE AND name LIKE $6 AND age >= $7 GROUP BY created_at ORDER BY created_at ASC LIMIT 100".

Definition arguments : list value :=
  [VString "completed"; VInt 1; VInt 2; VInt 10; VInt 20; VString "a%";
   VInt 18].

End Mixed.

(** * Further specification-side definitions *)

(** ** Result rows *)

Module RowSpec.

Import ChartRow.

(** The float a cell yields, if it holds a number [GetYValueAsFloat]
    knows. *)
Definition asFloat (v : dyn) : option float64 :=
  match v with
  | DFloat64 f => Some f
  | DInt64 z => Some (toFloat64 z)
  | DInt z => Some (toFloat64 z)
  | _ => None
  end.

(** The row made from the cells of one database row: the first cell as
    x value, every other cell wrapped with the name of its column. *)
Definition rowOf (columns : list string) (scanned : list dyn)
  : ChartDataRow :=
  mkRow (convertValue (nth 0 scanned DNil))
        (map (fun j => DMap [(nth j columns ""%string,
                              convertValue (nth j scanned DNil))])
             (seq 1 (List.length columns - 1))).

(** The first error among the scans. *)
Fixpoint firstScanError (next : list (dbError + list dyn))
  : option dbError :=
  match next with
  | [] => None
  | inl e :: _ => Some e
  | inr _ :: r => firstScanError r
  end.

(** The cells of the scans that succeeded. *)
Fixpoint scanned (next : list (dbError + list dyn)) : list (list dyn) :=
  match next with
  | [] => []
  | inl _ :: r => scanned r
  | inr cells :: r => cells :: scanned r
  end.

Definition isMap (v : dyn) : bool :=
  match v with DMap _ => true | _ => false end.

Definition sample : Rows :=
  mkRows (inr ["x_value"; "y_value_0"; "y_value_1"]%string)
    [ inr [DBytes "2024-01"; DInt64 5; DNil];
      inr [DString "2024-02"; DFloat64 (toFloat64 3); DBool true] ]
    None.

Definition sampleRow : ChartDataRow :=
  mkRow (DString "2024-01") [DInt64 5; DNil; DString "n/a"; DInt 7].

End RowSpec.

(** ** More filters used as examples *)

Module MoreFilters.

Definition inPlain : FilterConfig :=
  Sample.filter "status" "IN" VNil [VInt 1; VInt 2].
Definition inNulls : FilterConfig :=
  Sample.filter "status" "in" VNil [VNil].
Definition inMixed : FilterConfig :=
  Sample.filter "status" "In" VNil [VInt 1; VInt 2; VNil].

Definition between : FilterConfig :=
  Sample.filter "total" "BETWEEN" VNil [VInt 10; VInt 20].
Definition betweenNull : FilterConfig :=
  Sample.filter "total" "between" VNil [VNil].
Definition betweenShort : FilterConfig :=
  Sample.filter "total" "Between" VNil [VInt 10].

Definition older : FilterConfig := Sample.filter "age" ">=" (VInt 18) [].
Definition olderNull : FilterConfig := Sample.filter "age" ">=" VNil [VInt 18].

Definition notLikeNull : FilterConfig :=
  Sample.filter "name" "NOT LIKE" VNil [].
Definition similar : FilterConfig :=
  Sample.filter "name" "SIMILAR TO" (VString "a%") [].

(** A text made of ASCII bytes only: on such a text [Go.ToLower] is
    [strings.ToLower]. *)
Fixpoint isASCII (s : string) : bool :=
  match s with
  | EmptyString => true
  | String c r => Nat.ltb (nat_of_ascii c) 128 && isASCII r
  end.

(** The operators with a case of their own in the builder, in lower
    case. *)
Definition ownCase : list string :=
  ["in"; "not in"; "between"; "="; "!="; "<>"; "is null"; "is not null";
   "<"; "<="; ">"; ">="]%string.

End MoreFilters.

(** ** What the SQL depends on *)

Module Depends.

(** Two filters that differ at most in the values they would bind: same
    column and operator, NULL at the same places, the same boolean
    spelled. *)
Definition sameShape (f g : FilterConfig) : Prop :=
  fColumn f = fColumn g
  /\ fOperator f = fOperator g
  /\ is_nil (fValue f) = is_nil (fValue g)
  /\ Table.boolLiteral (fValue f) = Table.boolLiteral (fValue g)
  /\ map is_nil (fValues f) = map is_nil (fValues g).

(** The configuration with other filters. *)
Definition withFilters (config : ChartConfig) (filters : list FilterConfig)
  : ChartConfig :=
  mkConfig (ChartType config) (Title config) (Description config)
    (Tables config) (XAxis config) (YAxis config) (GroupBy config)
    filters (Options config) (Limit config) (OrderBy config).

(** What the builder reads of an axis. *)
Definition axisKey (a : AxisConfig) : string * string :=
  (aColumn a, aAggregation a).

(** Two configurations that agree on everything the builder reads. *)
Definition sameQuery (c d : ChartConfig) : Prop :=
  Tables c = Tables d
  /\ axisKey (XAxis c) = axisKey (XAxis d)
  /\ map axisKey (YAxis c) = map axisKey (YAxis d)
  /\ GroupBy c = GroupBy d
  /\ Filters c = Filters d
  /\ Limit c = Limit d
  /\ OrderBy c = OrderBy d.

(** A filter on which the [BETWEEN] case does not index out of range. *)
Definition betweenSafe (filter : FilterConfig) : Prop :=
  Go.ToLower (fOperator filter) = "between"%string ->
  2 <= List.length (fValues filter)
  \/ exists rest, fValues filter = VNil :: rest.

(** Two outcomes that agree on what is written: the same chunks and as
    many values bound, or the same error, or the same panic. *)
Definition sameWritten (r r' : outcome Table.emission) : Prop :=
  match r, r' with
  | Ok (w, vs), Ok (w', vs') => w = w' /\ List.length vs = List.length vs'
  | Err e, Err e' => e = e'
  | Panic p, Panic p' => p = p'
  | _, _ => False
  end.

(** Same query, other presentation. *)
Definition restyled : ChartConfig :=
  mkConfig "pie" "Revenue by month" "restyled"
    (Tables Mixed.config)
    (mkAxis "created_at" "Month" "" "datetime" "date" "month")
    [mkAxis "amount" "Revenue" "SUM" "numeric" "currency" "revenue"]
    (GroupBy Mixed.config) (Filters Mixed.config)
    (mkOptions 1024 768 "dark" true true true "2006-01" "month" ["#fff"%string])
    (Limit Mixed.config) (OrderBy Mixed.config).

(** The filters of [Mixed.config] with other values to bind. *)
Definition otherValues : list FilterConfig :=
  [ Sample.filter "status" "=" (VString "x' OR '1'='1") [];
    Sample.filter "deleted_at" "=" VNil [VNil];
    Sample.filter "region" "IN" VNil [VInt 7; VNil; VString "north"];
    Sample.filter "total" "BETWEEN" VNil [VInt 0; VInt 1];
    Sample.filter "is_active" "!=" (VString "TRUE") [];
    Sample.filter "name" "LIKE" (VString "%; DROP TABLE users") [];
    Sample.filter "age" ">=" (VInt 65) [] ].

End Depends.

(** ** Valid configurations, declaratively *)

Module Valid.

Definition join (j : JoinConfig) : Prop :=
  jTable j <> ""%string /\ jCondition j <> ""%string
  /\ (jType j = ""%string \/ In (jType j) validJoinTypes).

Definition table (t : TableConfig) : Prop :=
  tName t <> ""%string /\ Forall join (tJoins t).

Definition yAxis (y : AxisConfig) : Prop :=
  aColumn y <> ""%string
  /\ (aAggregation y = ""%string \/ In (aAggregation y) validAggregations).

Definition filter (f : FilterConfig) : Prop :=
  fRaw f <> ""%string
  \/ (fColumn f <> ""%string /\ In (fOperator f) validOperators
      /\ Failure.valuesPresent f).

Definition config (c : ChartConfig) : Prop :=
  In (ChartType c) validChartTypes
  /\ Title c <> ""%string
  /\ Tables c <> []
  /\ YAxis c <> []
  /\ Forall table (Tables c)
  /\ aColumn (XAxis c) <> ""%string
  /\ Forall yAxis (YAxis c)
  /\ Forall filter (Filters c).

(** What a validation error says of the configuration: the element it
    names by index exists and has the defect reported. *)
Definition locates (c : ChartConfig) (e : error) : Prop :=
  match e with
  | ErrChartTypeRequired => ChartType c = ""%string
  | ErrTitleRequired => Title c = ""%string
  | ErrTableRequired => Tables c = []
  | ErrYAxisRequired => YAxis c = []
  | ErrInvalidChartType t => t = ChartType c /\ ~ In t validChartTypes
  | ErrTableName i =>
      exists t, nth_error (Tables c) i = Some t /\ tName t = ""%string
  | ErrJoinTable i j =>
      exists t jn, nth_error (Tables c) i = Some t
                   /\ nth_error (tJoins t) j = Some jn
                   /\ jTable jn = ""%string
  | ErrJoinCondition i j =>
      exists t jn, nth_error (Tables c) i = Some t
                   /\ nth_error (tJoins t) j = Some jn
                   /\ jCondition jn = ""%string
  | ErrJoinType ty i j =>
      exists t jn, nth_error (Tables c) i = Some t
                   /\ nth_error (tJoins t) j = Some jn
                   /\ jType jn = ty /\ ty <> ""%string
                   /\ ~ In ty validJoinTypes
  | ErrXAxisColumn => aColumn (XAxis c) = ""%string
  | ErrYAxisColumn i =>
      exists y, nth_error (YAxis c) i = Some y /\ aColumn y = ""%string
  | ErrAggregation a i =>
      exists y, nth_error (YAxis c) i = Some y /\ aAggregation y = a
                /\ a <> ""%string /\ ~ In a validAggregations
  | ErrFilterColumn i =>
      exists f, nth_error (Filters c) i = Some f /\ fRaw f = ""%string
                /\ fColumn f = ""%string
  | ErrFilterOperator i =>
      exists f, nth_error (Filters c) i = Some f /\ fRaw f = ""%string
                /\ fOperator f = ""%string
  | ErrInvalidOperator op i =>
      exists f, nth_error (Filters c) i = Some f /\ fRaw f = ""%string
                /\ fOperator f = op /\ ~ In op validOperators
  | ErrInValues i =>
      exists f, nth_error (Filters c) i = Some f /\ fRaw f = ""%string
                /\ fOperator f = "IN"%string /\ fValues f = []
  | ErrBetweenValues i =>
      exists f, nth_error (Filters c) i = Some f /\ fRaw f = ""%string
                /\ fOperator f = "BETWEEN"%string
                /\ List.length (fValues f) <> 2
  | ErrFilterValue op i =>
      exists f, nth_error (Filters c) i = Some f /\ fRaw f = ""%string
                /\ fOperator f = op /\ fValue f = VNil /\ fValues f = []
  | ErrBetweenNull => False
  | ErrCompareNull _ => False
  end.

(** What normalisation guarantees and what it leaves alone. *)
Definition defaultsFilled (c c' : ChartConfig) : Prop :=
  (forall t j, In t (Tables c') -> In j (tJoins t) ->
               In (jType j) validJoinTypes)
  /\ (forall o, In o (OrderBy c') -> oDirection o <> ""%string)
  /\ Width (Options c') <> 0%Z
  /\ Height (Options c') <> 0%Z
  /\ Theme (Options c') <> ""%string
  /\ ChartType c' = ChartType c
  /\ Title c' = Title c
  /\ XAxis c' = XAxis c
  /\ YAxis c' = YAxis c
  /\ GroupBy c' = GroupBy c
  /\ Filters c' = Filters c
  /\ Limit c' = Limit c
  /\ map tName (Tables c') = map tName (Tables c)
  /\ map oColumn (OrderBy c') = map oColumn (OrderBy c).

(** A configuration that leaves the join kind, the direction and the
    options to their defaults. *)
Definition bare : ChartConfig :=
  mkConfig "line" "Sales" ""
    [mkTable "orders" "" [mkJoin "users" "" "" "orders.user_id = users.id"]]
    (Sample.axis "created_at" "") [Sample.axis "amount" "SUM"] [] []
    Sample.noOptions 0 [mkOrder "created_at" ""].

(** A configuration whose third filter lacks its values. *)
Definition thirdFilter : ChartConfig :=
  Sample.sales
    [ Sample.filter "status" "=" (VString "completed") [];
      Sample.rawFilter "1 = 1" [] "";
      Sample.filter "region" "IN" VNil [] ].

End Valid.

(** ** Texts without placeholder *)

Module Quiet.

(** A text in which no dollar sign is followed by a digit. *)
Fixpoint quiet (s : string) : bool :=
  match s with
  | EmptyString => true
  | String c r => negb (Scan.isDollar c && negb (Scan.stops r)) && quiet r
  end.

(** The texts the builder copies from the configuration: the column and
    the aggregation of the axes, the name and the alias of the first table,
    the joins of every table, the column and the operator of the filters,
    the group-by expressions, the column and the direction of the orders.
    None of them holds a placeholder. *)
Definition axisQuiet (a : AxisConfig) : bool :=
  quiet (aColumn a) && quiet (aAggregation a).

Definition joinQuiet (j : JoinConfig) : bool :=
  quiet (jType j) && quiet (jTable j) && quiet (jAlias j)
  && quiet (jCondition j).

Definition fromQuiet (tables : list TableConfig) : bool :=
  match tables with
  | [] => true
  | table0 :: _ => quiet (tName table0) && quiet (tAlias table0)
  end.

Definition filterQuiet (f : FilterConfig) : bool :=
  quiet (fColumn f) && quiet (fOperator f).

Definition orderQuiet (o : OrderConfig) : bool :=
  quiet (oColumn o) && quiet (oDirection o).

Definition configQuiet (config : ChartConfig) : bool :=
  axisQuiet (XAxis config) && forallb axisQuiet (YAxis config)
  && fromQuiet (Tables config)
  && forallb joinQuiet (Clause.allJoins (Tables config))
  && forallb filterQuiet (Filters config)
  && forallb quiet (GroupBy config)
  && forallb orderQuiet (OrderBy config).

(** A text that starts with a character other than a digit. *)
Definition begins (s : string) : bool :=
  match s with
  | EmptyString => false
  | String c _ => negb (Scan.isDigit c)
  end.

(** Pieces of text whose placeholders, none, can be read back when they
    are written before chunks of which this holds. *)
Definition passes (l : list string) : Prop :=
  forall rest, Scan.guarded rest -> Guard.halts rest ->
               Scan.guarded (map Txt l ++ rest)
               /\ Guard.halts (map Txt l ++ rest).

(** A validated configuration whose x-axis column reads as a
    placeholder. *)
Definition dollarColumn : ChartConfig :=
  Sample.chart "line" "Sales" [Sample.orders] (Sample.axis "$9" "") [].

Definition dollarColumnSql : string :=
  "SELECT $9 as x_value, SUM(amount) as y_value_0 FROM orders LEFT JOIN users ON orders.user_id = users.id".

(** A configuration with dollar signs that are not placeholders. *)
Definition dollars : ChartConfig :=
  mkConfig "bar" "Costs" "" [Sample.orders]
    (Sample.axis "period$" "") [Sample.axis "cost$ * 2" "SUM"]
    ["period$"]
    [ Sample.filter "cost$" ">" (VInt 0) [];
      Sample.filter "1st$" "IN" VNil [VInt 3; VInt 4];
      Sample.filter "note" "=" VNil [VNil];
      Sample.filter "paid$" "BETWEEN" VNil [VInt 1; VInt 2] ]
    Sample.noOptions 10 [mkOrder "period$" "DESC"].

Definition dollarsSql : string :=
  "SELECT period$ as x_value, SUM(cost$ * 2) as y_value_0 FROM orders LEFT JOIN users ON orders.user_id = users.id WHERE cost$ > $1 AND 1st$ IN ($2, $3) AND note IS NULL AND paid$ BETWEEN $4 AND $5 GROUP BY period$ ORDER BY period$ DESC LIMIT 10".

Definition dollarsArguments : list value :=
  [VInt 0; VInt 3; VInt 4; VInt 1; VInt 2].

End Quiet.

(** * Properties *)

(** ** Basic facts about strings and the helpers *)

Lemma append_assoc (a b c : string) :
  ((a ++ b) ++ c = a ++ (b ++ c))%string.
Proof. induction a as [|x a IH]; simpl; [reflexivity | now rewrite IH]. Qed.

Lemma append_nil_r (a : string) : (a ++ "" = a)%string.
Proof. induction a as [|x a IH]; simpl; [reflexivity | now rewrite IH]. Qed.

(** Strings up to associativity of concatenation. *)
Ltac string_norm :=
  repeat first [ rewrite append_assoc | rewrite append_nil_r
               | progress cbn [append] ].

Lemma isEmpty_true (s : string) : isEmpty s = true <-> s = "".
Proof. unfold isEmpty. apply String.eqb_eq. Qed.

Lemma isEmpty_false (s : string) : isEmpty s = false <-> s <> "".
Proof. unfold isEmpty. apply String.eqb_neq. Qed.

Lemma contains_In (slice : list string) (item : string) :
  contains slice item = true <-> In item slice.
Proof.
  induction slice as [|s r IH]; simpl.
  - split; [discriminate | tauto].
  - destruct (String.eqb s item) eqn:E.
    + apply String.eqb_eq in E. tauto.
    + apply String.eqb_neq in E. rewrite IH. split; [tauto|].
      intros [H|H]; [contradiction | assumption].
Qed.

Lemma oneOf_In (s : string) (l : list string) :
  oneOf s l = true <-> In s l.
Proof.
  unfold oneOf. rewrite existsb_exists. split.
  - intros [x [Hin Heq]]. apply String.eqb_eq in Heq. now subst.
  - intros H. exists s. split; [assumption | apply String.eqb_refl].
Qed.

Lemma forRange_firstError {A : Type} (body : nat -> A -> option error)
    (l : list A) (i : nat) :
  forRange body i l = Order.firstError (Order.eachFrom body i l).
Proof.
  revert i. induction l as [|x r IH]; intros i; simpl.
  - reflexivity.
  - destruct (body i x); [reflexivity | apply IH].
Qed.

Lemma forRange_ext {A : Type} (f g : nat -> A -> option error) (l : list A) :
  (forall i x, f i x = g i x) ->
  forall i, forRange f i l = forRange g i l.
Proof.
  intros Hfg. induction l as [|x r IH]; intros i; simpl.
  - reflexivity.
  - rewrite Hfg. destruct (g i x); [reflexivity | apply IH].
Qed.

Lemma validateJoinConfig_checks (join : JoinConfig) (i j : nat) :
  validateJoinConfig join i j = Order.firstError (Order.joinChecks i j join).
Proof.
  unfold validateJoinConfig, Order.joinChecks, Order.require.
  cbn [Order.firstError].
  destruct (isEmpty (jTable join)); [reflexivity|].
  destruct (isEmpty (jCondition join)); [reflexivity|].
  destruct (negb (isEmpty (jType join))
            && negb (contains validJoinTypes (jType join))); reflexivity.
Qed.

Lemma validateTable_checks (i : nat) (table : TableConfig) :
  validateTable i table = Order.firstError (Order.tableChecks i table).
Proof.
  unfold validateTable, Order.tableChecks, Order.require.
  cbn [Order.firstError].
  destruct (isEmpty (tName table)); [reflexivity|].
  rewrite <- forRange_firstError. apply forRange_ext.
  intros j join. apply validateJoinConfig_checks.
Qed.

Lemma validateYAxis_checks (i : nat) (yAxis : AxisConfig) :
  validateYAxis i yAxis = Order.firstError (Order.yAxisChecks i yAxis).
Proof.
  unfold validateYAxis, Order.yAxisChecks, Order.require.
  cbn [Order.firstError].
  destruct (isEmpty (aColumn yAxis)); [reflexivity|].
  destruct (negb (isEmpty (aAggregation yAxis))
            && negb (contains validAggregations (aAggregation yAxis)));
    reflexivity.
Qed.

(** C6 (as amended).  The validator reports the first violation in the
    order of [Order.stages]: chart kind present, title, table count, y-axis
    count, chart kind in the enumeration, the tables in list order (name,
    then each join: table, condition, kind), the x-axis column, the y-axes
    in list order (column, then aggregation), the filters in list order. *)
Theorem validation_order (config : ChartConfig) :
  validateChartConfig config = Order.firstError (Order.stages config).
Proof.
  unfold validateChartConfig, Order.stages, Order.require.
  cbn [Order.firstError].
  destruct (isEmpty (ChartType config)); [reflexivity|].
  destruct (isEmpty (Title config)); [reflexivity|].
  destruct (Nat.eqb (List.length (Tables config)) 0); [reflexivity|].
  destruct (Nat.eqb (List.length (YAxis config)) 0); [reflexivity|].
  destruct (negb (contains validChartTypes (ChartType config)));
    [reflexivity|].
  rewrite <- !forRange_firstError.
  rewrite (forRange_ext validateTable
             (fun i t => Order.firstError (Order.tableChecks i t)))
    by apply validateTable_checks.
  destruct (forRange _ 0 (Tables config)); [reflexivity|].
  destruct (isEmpty (aColumn (XAxis config))); [reflexivity|].
  rewrite (forRange_ext validateYAxis
             (fun i y => Order.firstError (Order.yAxisChecks i y)))
    by apply validateYAxis_checks.
  destruct (forRange _ 0 (YAxis config)); [reflexivity|].
  destruct (forRange _ 0 (Filters config)); reflexivity.
Qed.

(** C6 (as stated) fails.  With a chart kind outside the enumeration and an
    empty title the validator reports the title, not the chart kind; with an
    empty x-axis column and a join without condition it reports the join,
    not the x-axis column. *)
Lemma validation_order_announced_fails :
  (validateChartConfig Sample.kindAndTitle = Some ErrTitleRequired
   /\ Order.firstError (Order.announcedStages Sample.kindAndTitle)
      = Some (ErrInvalidChartType "donut")
   /\ Order.isChartKindError (validateChartConfig Sample.kindAndTitle)
      = false)
  /\ (validateChartConfig Sample.xAxisAndJoin = Some (ErrJoinCondition 0 0)
      /\ Order.firstError (Order.announcedStages Sample.xAxisAndJoin)
         = Some ErrXAxisColumn).
Proof. repeat split; reflexivity. Qed.

(** ** Chart kind: validation against normalisation *)

Lemma validated_chart_type (config : ChartConfig) :
  validateChartConfig config = None ->
  contains validChartTypes (ChartType config) = true.
Proof.
  unfold validateChartConfig.
  destruct (isEmpty (ChartType config)); [discriminate|].
  destruct (isEmpty (Title config)); [discriminate|].
  destruct (Nat.eqb (List.length (Tables config)) 0); [discriminate|].
  destruct (Nat.eqb (List.length (YAxis config)) 0); [discriminate|].
  destruct (contains validChartTypes (ChartType config));
    [reflexivity | discriminate].
Qed.

Lemma invalid_chart_type_rejected (config : ChartConfig) :
  contains validChartTypes (ChartType config) = false ->
  exists e, validateChartConfig config = Some e.
Proof.
  intros H. destruct (validateChartConfig config) eqn:E.
  - now exists e.
  - apply validated_chart_type in E. congruence.
Qed.

(** C10.  The chart kind is compared as given with the lower-case
    enumeration: a configuration whose kind is not literally in the list is
    rejected and left untouched, even when its lower-case form is in the
    list, as for "Line"; a configuration that passes is normalised, and only
    then is its chart kind put in lower case. *)
Theorem chart_type_checked_before_lowering (config : ChartConfig) :
  (contains validChartTypes (ChartType config) = false ->
   exists e, ValidateAndNormalizeConfig config = (Some e, config))
  /\ (ChartType config = "Line" ->
      contains validChartTypes (Go.ToLower (ChartType config)) = true
      /\ exists e, ValidateAndNormalizeConfig config = (Some e, config))
  /\ (validateChartConfig config = None ->
      In (ChartType config) validChartTypes
      /\ ValidateAndNormalizeConfig config = (None, normalize config)
      /\ ChartType (snd (ValidateAndNormalizeConfig config))
         = Go.ToLower (ChartType config)).
Proof.
  assert (Hrej : contains validChartTypes (ChartType config) = false ->
                 exists e, ValidateAndNormalizeConfig config
                           = (Some e, config)).
  { intros H. destruct (invalid_chart_type_rejected config H) as [e He].
    exists e. unfold ValidateAndNormalizeConfig. now rewrite He. }
  split; [exact Hrej|]. split.
  - intros HL. split.
    + rewrite HL. reflexivity.
    + apply Hrej. rewrite HL. reflexivity.
  - intros Hv. split; [|split].
    + apply contains_In. now apply validated_chart_type.
    + unfold ValidateAndNormalizeConfig. now rewrite Hv.
    + unfold ValidateAndNormalizeConfig. rewrite Hv. reflexivity.
Qed.

Lemma chart_type_checked_before_lowering_witness :
  (exists e, ValidateAndNormalizeConfig Sample.mixedCase
             = (Some e, Sample.mixedCase))
  /\ (contains validChartTypes (Go.ToLower "Line") = true
      /\ exists e, ValidateAndNormalizeConfig Sample.mixedCase
                   = (Some e, Sample.mixedCase))
  /\ ChartType (snd (ValidateAndNormalizeConfig (Sample.sales []))) = "line".
Proof.
  split; [|split].
  - apply (chart_type_checked_before_lowering Sample.mixedCase).
    reflexivity.
  - apply (chart_type_checked_before_lowering Sample.mixedCase).
    reflexivity.
  - apply (chart_type_checked_before_lowering (Sample.sales [])).
    reflexivity.
Defined.

(** ** The builder state *)

Lemma write_write (st : state) (a b : list chunk) :
  write (write st a) b = write st (a ++ b).
Proof. unfold write. simpl. now rewrite <- app_assoc. Qed.

Lemma emit_write (st : state) (w : list chunk) :
  write st w = Table.emit st (w, []).
Proof.
  unfold write, Table.emit. simpl. now rewrite app_nil_r, Nat.add_0_r.
Qed.

Lemma bindValues_spec (vals : list value) (st : state) :
  bindValues vals st
  = (map Arg (seq (argIndex st) (List.length vals)),
     mkState (query st) (args st ++ vals)
             (argIndex st + List.length vals)).
Proof.
  revert st. induction vals as [|v r IH]; intros st; simpl.
  - rewrite app_nil_r, Nat.add_0_r. now destruct st.
  - rewrite IH. simpl. rewrite <- app_assoc. simpl.
    now rewrite Nat.add_succ_r.
Qed.

Lemma nullCount_hasNull (vals : list value) :
  Nat.ltb 0 (nullCount vals) = Table.hasNull vals.
Proof.
  unfold nullCount, Table.hasNull.
  induction vals as [|v r IH]; simpl; [reflexivity|].
  destruct (is_nil v); simpl; [reflexivity | exact IH].
Qed.

Lemma nonNull_hasNonNull (vals : list value) :
  Nat.ltb 0 (List.length (nonNullValues vals)) = Table.hasNonNull vals.
Proof.
  unfold nonNullValues, Table.hasNonNull.
  induction vals as [|v r IH]; simpl; [reflexivity|].
  destruct (is_nil v); simpl; [exact IH | reflexivity].
Qed.

Lemma compare_bound (filter : FilterConfig) (st : state) :
  compare filter st = Table.emit st (Table.bound filter (argIndex st)).
Proof.
  unfold compare, Table.emit, Table.bound, bind, write. simpl.
  now rewrite Nat.add_1_r.
Qed.

Lemma caseIn_membership (filter : FilterConfig) (st : state) :
  caseIn filter st = Table.emit st (Table.membership filter (argIndex st)).
Proof.
  unfold caseIn, Table.membership.
  rewrite nullCount_hasNull, nonNull_hasNonNull.
  destruct (Table.hasNull (fValues filter) && Table.hasNonNull (fValues filter)).
  - rewrite bindValues_spec. unfold Table.emit, write, Table.placeholderList.
    simpl. f_equal. repeat (rewrite <- app_assoc; simpl). reflexivity.
  - destruct (Table.hasNull (fValues filter)).
    + apply emit_write.
    + rewrite bindValues_spec. reflexivity.
Qed.

Lemma caseNotIn_exclusion (filter : FilterConfig) (st : state) :
  caseNotIn filter st = Table.emit st (Table.exclusion filter (argIndex st)).
Proof.
  unfold caseNotIn, Table.exclusion.
  rewrite nullCount_hasNull, nonNull_hasNonNull.
  destruct (Table.hasNull (fValues filter) && Table.hasNonNull (fValues filter)).
  - rewrite bindValues_spec. unfold Table.emit, write, Table.placeholderList.
    simpl. f_equal. repeat (rewrite <- app_assoc; simpl). reflexivity.
  - destruct (Table.hasNull (fValues filter)).
    + apply emit_write.
    + rewrite bindValues_spec. reflexivity.
Qed.

Lemma lower_byte_symbol (c d : ascii) :
  symbol d = true -> Go.lower_byte c = d -> c = d.
Proof.
  intros Hd H. subst d.
  destruct c as [[] [] [] [] [] [] [] []];
    solve [reflexivity | vm_compute in Hd; discriminate].
Qed.

Lemma ToLower_symbolic (s t : string) :
  symbolic t = true -> Go.ToLower s = t -> s = t.
Proof.
  revert t. induction s as [|c r IH]; intros [|d t] Ht H;
    simpl in H; try discriminate; [reflexivity|].
  simpl in Ht. apply andb_prop in Ht as [Hd Ht].
  injection H as Hc Hr. f_equal.
  - now apply lower_byte_symbol.
  - now apply IH.
Qed.

Lemma ToLower_eqb_symbolic (s t : string) :
  symbolic t = true -> Go.ToLower t = t ->
  String.eqb (Go.ToLower s) t = String.eqb s t.
Proof.
  intros Ht Hfix.
  destruct (String.eqb s t) eqn:E.
  - apply String.eqb_eq in E. subst s. rewrite Hfix. apply String.eqb_refl.
  - apply String.eqb_neq. intros H. apply String.eqb_neq in E. apply E.
    now apply ToLower_symbolic.
Qed.

Lemma isBool_plain (filter : FilterConfig) (b : bool) (st : state) :
  isBool filter b st
  = Table.emit st
      (Table.plain filter
         (if b
          then if String.eqb (fOperator filter) "="
               then " IS TRUE" else " IS NOT TRUE"
          else if String.eqb (fOperator filter) "="
               then " IS FALSE" else " IS NOT FALSE")).
Proof.
  unfold isBool. rewrite ToLower_eqb_symbolic by reflexivity.
  destruct (String.eqb (fOperator filter) "="), b; apply emit_write.
Qed.

Lemma caseEquality_equality (filter : FilterConfig) (st : state) :
  caseEquality filter st
  = Table.emit st (Table.equality filter (argIndex st)).
Proof.
  unfold caseEquality, Table.equality.
  destruct (fValue filter) as [|s|b|z] eqn:Ev.
  - rewrite ToLower_eqb_symbolic by reflexivity.
    destruct (String.eqb (fOperator filter) "="); apply emit_write.
  - unfold Table.boolLiteral.
    destruct (String.eqb (Go.ToLower s) "true") eqn:Et; simpl.
    + rewrite isBool_plain.
      now destruct (String.eqb (fOperator filter) "=").
    + destruct (String.eqb (Go.ToLower s) "false") eqn:Ef.
      * rewrite isBool_plain.
        now destruct (String.eqb (fOperator filter) "=").
      * rewrite compare_bound. unfold Table.bound. now rewrite Ev.
  - simpl. rewrite isBool_plain.
    now destruct b, (String.eqb (fOperator filter) "=").
  - simpl. rewrite compare_bound. unfold Table.bound. now rewrite Ev.
Qed.

Lemma caseNullable_nullable (filter : FilterConfig) (st : state) :
  caseNullable filter st
  = Table.emit st (Table.nullable filter (argIndex st)).
Proof.
  unfold caseNullable, Table.nullable.
  destruct (is_nil (fValue filter)); [apply emit_write | apply compare_bound].
Qed.

(** The [switch] of the builder computes the table. *)
Lemma expandFilter_table (filter : FilterConfig) (st : state) :
  expandFilter filter st
  = Table.apply st (Table.expansion filter (argIndex st)).
Proof.
  unfold expandFilter, Table.expansion.
  destruct (String.eqb (Go.ToLower (fOperator filter)) "in");
    [simpl; now rewrite caseIn_membership|].
  destruct (String.eqb (Go.ToLower (fOperator filter)) "not in");
    [simpl; now rewrite caseNotIn_exclusion|].
  destruct (String.eqb (Go.ToLower (fOperator filter)) "between").
  { unfold caseBetween.
    destruct (fValues filter) as [|lo [|hi r]]; simpl; [reflexivity| |].
    - now destruct (is_nil lo).
    - destruct (is_nil lo); simpl; [reflexivity|].
      destruct (is_nil hi); simpl; [reflexivity|].
      unfold Table.emit, Table.range, write. simpl. reflexivity. }
  destruct (oneOf (Go.ToLower (fOperator filter)) ["="; "!="; "<>"]);
    [simpl; now rewrite caseEquality_equality|].
  destruct (String.eqb (Go.ToLower (fOperator filter)) "is null");
    [simpl; now rewrite emit_write|].
  destruct (String.eqb (Go.ToLower (fOperator filter)) "is not null");
    [simpl; now rewrite emit_write|].
  destruct (oneOf (Go.ToLower (fOperator filter)) ["<"; "<="; ">"; ">="]).
  { unfold caseOrdered. destruct (is_nil (fValue filter)); simpl;
      [reflexivity | now rewrite compare_bound]. }
  destruct (oneOf (Go.ToLower (fOperator filter))
              ["like"; "ilike"; "not like"; "not ilike"]);
    simpl; now rewrite caseNullable_nullable.
Qed.

Lemma text_app (a b : list chunk) :
  text (a ++ b) = (text a ++ text b)%string.
Proof.
  induction a as [|c r IH]; simpl; [reflexivity|].
  rewrite IH. symmetry. apply append_assoc.
Qed.

Lemma text_placeholderList (n k : nat) :
  text (Table.placeholderList n k)
  = Go.Join (map placeholderText (seq n k)) ", ".
Proof.
  unfold Table.placeholderList. revert n.
  induction k as [|k IH]; intros n; [reflexivity|].
  destruct k as [|k].
  - simpl. unfold placeholderText. now rewrite append_nil_r.
  - specialize (IH (S n)).
    change (seq n (S (S k))) with (n :: seq (S n) (S k)).
    change (seq (S n) (S k)) with (S n :: seq (S (S n)) k) in *.
    cbn [map joinChunks text chunkText Go.Join] in *.
    rewrite IH. unfold placeholderText.
    now rewrite <- !append_assoc.
Qed.

(** ** The equality operators *)

(** C7.  For a filter whose operator is [=], [!=] or [<>]:
    - an absent/NULL value gives [col IS NULL] for [=] and [col IS NOT NULL]
      otherwise, and binds nothing;
    - a boolean, or the strings "true" and "false" in any letter case, give
      [col IS TRUE] or [col IS FALSE], with [NOT] for [!=] and [<>], and
      bind nothing;
    - any other value gives [col OP $n], [n] being the current counter, and
      binds the value as the next argument. *)
Theorem equality_expansion (filter : FilterConfig) (st : state) :
  In (fOperator filter) ["="; "!="; "<>"] ->
  let col := fColumn filter in
  let positive := String.eqb (fOperator filter) "=" in
  (fValue filter = VNil ->
   expandFilter filter st
   = Ok (write st [Txt (col ++ (if positive then " IS NULL"
                                else " IS NOT NULL"))]))
  /\ (forall b : bool,
      Table.boolLiteral (fValue filter) = Some b ->
      expandFilter filter st
      = Ok (write st [Txt (col ++ (if positive then " IS " else " IS NOT ")
                               ++ (if b then "TRUE" else "FALSE"))]))
  /\ (fValue filter <> VNil ->
      Table.boolLiteral (fValue filter) = None ->
      expandFilter filter st
      = Ok (mkState
              (query st ++ [Txt (col ++ " " ++ fOperator filter ++ " ");
                            Arg (argIndex st)])
              (args st ++ [fValue filter])
              (S (argIndex st)))
      /\ text [Txt (col ++ " " ++ fOperator filter ++ " "); Arg (argIndex st)]
         = (col ++ " " ++ fOperator filter ++ " "
              ++ placeholderText (argIndex st))%string).
Proof.
  intros Hop col positive.
  assert (Hexp : expandFilter filter st
                 = Ok (Table.emit st (Table.equality filter (argIndex st)))).
  { rewrite expandFilter_table. unfold Table.expansion.
    destruct Hop as [H|[H|[H|[]]]]; rewrite <- H; reflexivity. }
  rewrite Hexp. unfold Table.equality. fold positive. fold col.
  split; [|split].
  - intros Hv. rewrite Hv. now rewrite emit_write.
  - intros b Hb. destruct (fValue filter) eqn:Ev; try discriminate;
      rewrite Hb, emit_write; unfold Table.plain; fold col;
      destruct b, positive; reflexivity.
  - intros Hv Hb. split.
    + destruct (fValue filter) eqn:Ev; try contradiction;
        rewrite Hb; unfold Table.emit, Table.bound; simpl;
        now rewrite Nat.add_1_r, Ev.
    + simpl. unfold placeholderText. now string_norm.
Qed.

Lemma equality_expansion_witness :
  expandFilter SampleFilter.deletedAt SampleFilter.start
  = Ok (write SampleFilter.start [Txt "deleted_at IS NULL"])
  /\ expandFilter SampleFilter.isActive SampleFilter.start
     = Ok (write SampleFilter.start [Txt "is_active IS TRUE"])
  /\ expandFilter SampleFilter.status SampleFilter.start
     = Ok (mkState [Txt "SELECT 1 WHERE "; Txt "status = "; Arg 1]
                   [VString "completed"] 2).
Proof.
  split; [|split].
  - apply (equality_expansion SampleFilter.deletedAt SampleFilter.start);
      [simpl; tauto | reflexivity].
  - apply (proj1 (proj2
      (equality_expansion SampleFilter.isActive SampleFilter.start
         (or_introl eq_refl))) true).
    reflexivity.
  - apply (proj2 (proj2
      (equality_expansion SampleFilter.status SampleFilter.start
         (or_introl eq_refl)))); [discriminate | reflexivity].
Defined.

(** ** NOT IN *)

Lemma hasNull_In (vals : list value) :
  Table.hasNull vals = true <-> In VNil vals.
Proof.
  unfold Table.hasNull. rewrite existsb_exists. split.
  - intros [v [Hin Hv]]. now destruct v.
  - intros H. now exists VNil.
Qed.

Lemma hasNonNull_In (vals : list value) :
  Table.hasNonNull vals = true <-> exists v, In v vals /\ v <> VNil.
Proof.
  unfold Table.hasNonNull. rewrite existsb_exists. split.
  - intros [v [Hin Hv]]. exists v. split; [assumption|].
    intros ->. discriminate.
  - intros [v [Hin Hv]]. exists v. split; [assumption|].
    destruct v; [contradiction | reflexivity ..].
Qed.

Lemma nonNullValues_all (vals : list value) :
  ~ In VNil vals -> nonNullValues vals = vals.
Proof.
  unfold nonNullValues. induction vals as [|v r IH]; intros H; simpl.
  - reflexivity.
  - destruct v; simpl;
      solve [ exfalso; apply H; now left
            | f_equal; apply IH; intros Hin; apply H; now right ].
Qed.

Lemma nonNullValues_none (vals : list value) :
  (forall v, In v vals -> v = VNil) -> Table.hasNonNull vals = false.
Proof.
  intros H. destruct (Table.hasNonNull vals) eqn:E; [|reflexivity].
  apply hasNonNull_In in E as [v [Hin Hv]]. now apply H in Hin.
Qed.

(** C3 (as amended).  For a filter whose operator is [NOT IN] in any letter
    case, [n] being the current counter:
    - when no value is NULL it emits [(col NOT IN ($n, ...) OR col IS NULL)]
      and binds every value;
    - when every value is NULL it emits [col IS NOT NULL] and binds
      nothing;
    - when NULL and non-NULL values are mixed it emits
      [(col NOT IN ($n, ...) AND col IS NOT NULL)] and binds the non-NULL
      values only. *)
Theorem not_in_expansion (filter : FilterConfig) (st : state) :
  Go.ToLower (fOperator filter) = "not in" ->
  let col := fColumn filter in
  let vals := fValues filter in
  let n := argIndex st in
  (~ In VNil vals ->
   expandFilter filter st
   = Ok (mkState
           (query st
              ++ [Txt ("(" ++ col ++ " NOT IN (")]
              ++ Table.placeholderList n (List.length vals)
              ++ [Txt (") OR " ++ col ++ " IS NULL)")])
           (args st ++ vals)
           (n + List.length vals)))
  /\ (vals <> [] -> (forall v, In v vals -> v = VNil) ->
      expandFilter filter st = Ok (write st [Txt (col ++ " IS NOT NULL")]))
  /\ (In VNil vals -> (exists v, In v vals /\ v <> VNil) ->
      expandFilter filter st
      = Ok (mkState
              (query st
                 ++ [Txt "("; Txt (col ++ " NOT IN (")]
                 ++ Table.placeholderList n
                      (List.length (nonNullValues vals))
                 ++ [Txt (") AND " ++ col ++ " IS NOT NULL"); Txt ")"])
              (args st ++ nonNullValues vals)
              (n + List.length (nonNullValues vals))))
  /\ (forall k, text (Table.placeholderList n k)
                = Go.Join (map placeholderText (seq n k)) ", ").
Proof.
  intros Hop col vals n.
  assert (Hexp : expandFilter filter st
                 = Ok (Table.emit st (Table.exclusion filter n))).
  { rewrite expandFilter_table. unfold Table.expansion.
    rewrite Hop. reflexivity. }
  rewrite Hexp. unfold Table.exclusion. fold col. fold vals.
  split; [|split; [|split]].
  - intros Hnn.
    assert (Hn : Table.hasNull vals = false).
    { destruct (Table.hasNull vals) eqn:E; [|reflexivity].
      now apply hasNull_In in E. }
    rewrite Hn, (nonNullValues_all vals Hnn). reflexivity.
  - intros Hne Hall.
    assert (Hn : Table.hasNull vals = true).
    { apply hasNull_In. destruct vals as [|v r]; [contradiction|].
      rewrite <- (Hall v (or_introl eq_refl)). now left. }
    rewrite Hn, (nonNullValues_none vals Hall). simpl.
    now rewrite emit_write.
  - intros Hnull Hother.
    apply hasNull_In in Hnull. apply hasNonNull_In in Hother.
    rewrite Hnull, Hother. reflexivity.
  - intros k. apply text_placeholderList.
Qed.

Lemma not_in_expansion_witness :
  expandFilter SampleFilter.notInPlain SampleFilter.start
  = Ok (mkState
          [Txt "SELECT 1 WHERE "; Txt "(status NOT IN ("; Arg 1; Txt ", ";
           Arg 2; Txt ") OR status IS NULL)"]
          [VInt 1; VInt 2] 3)
  /\ expandFilter SampleFilter.notInNulls SampleFilter.start
     = Ok (write SampleFilter.start [Txt "status IS NOT NULL"])
  /\ expandFilter SampleFilter.notInMixed SampleFilter.start
     = Ok (mkState
             [Txt "SELECT 1 WHERE "; Txt "("; Txt "status NOT IN ("; Arg 1;
              Txt ", "; Arg 2; Txt ") AND status IS NOT NULL"; Txt ")"]
             [VInt 1; VInt 2] 3).
Proof.
  split; [|split].
  - apply (proj1 (not_in_expansion SampleFilter.notInPlain
                    SampleFilter.start eq_refl)).
    simpl. intros [H|[H|[]]]; discriminate.
  - apply (proj1 (proj2 (not_in_expansion SampleFilter.notInNulls
                           SampleFilter.start eq_refl))).
    + discriminate.
    + simpl. intros v [H|[H|[]]]; now subst.
  - apply (proj1 (proj2 (proj2 (not_in_expansion SampleFilter.notInMixed
                                  SampleFilter.start eq_refl)))).
    + simpl. tauto.
    + exists (VInt 1). split; [simpl; tauto | discriminate].
Defined.

(** C3 (as stated) fails on two of its three rows.  With no NULL among the
    values the emission is not [col NOT IN ($n, ...)] but is wrapped with
    [OR col IS NULL]; with mixed values it is not [... OR col IS NULL] but
    [... AND col IS NOT NULL]. *)
Lemma not_in_rows_differ :
  (exists st',
      expandFilter SampleFilter.notInPlain SampleFilter.start = Ok st'
      /\ text (query st')
         = "SELECT 1 WHERE (status NOT IN ($1, $2) OR status IS NULL)"
      /\ text (query st') <> "SELECT 1 WHERE status NOT IN ($1, $2)")
  /\ (exists st',
         expandFilter SampleFilter.notInMixed SampleFilter.start = Ok st'
         /\ text (query st')
            = "SELECT 1 WHERE (status NOT IN ($1, $2) AND status IS NOT NULL)"
         /\ text (query st')
            <> "SELECT 1 WHERE (status NOT IN ($1, $2) OR status IS NULL)").
Proof.
  split; eexists; (split; [reflexivity|]); split;
    solve [reflexivity | discriminate].
Qed.

(** ** What the validator accepts *)

Lemma validateFilter_accepts (filter : FilterConfig) (index : nat) :
  validateFilter filter index = None
  <-> fRaw filter <> ""
      \/ (fColumn filter <> "" /\ In (fOperator filter) validOperators
          /\ Failure.valuesPresent filter).
Proof.
  unfold validateFilter, Failure.valuesPresent.
  destruct (isEmpty (fRaw filter)) eqn:Er; cbn [negb andb orb length Nat.eqb is_nil].
  2:{ apply isEmpty_false in Er. tauto. }
  apply isEmpty_true in Er.
  destruct (isEmpty (fColumn filter)) eqn:Ec.
  { apply isEmpty_true in Ec. split; [discriminate|]. tauto. }
  apply isEmpty_false in Ec.
  destruct (isEmpty (fOperator filter)) eqn:Eo.
  { apply isEmpty_true in Eo. split; [discriminate|].
    intros [H|(_ & H & _)]; [contradiction|].
    rewrite Eo in H. simpl in H.
    repeat (destruct H as [H|H]; [discriminate|]). contradiction. }
  destruct (contains validOperators (fOperator filter)) eqn:Ev; cbn [negb andb orb length Nat.eqb is_nil].
  2:{ split; [discriminate|]. intros [H|(_ & H & _)]; [contradiction|].
      apply contains_In in H. congruence. }
  apply contains_In in Ev.
  destruct (String.eqb (fOperator filter) "IN") eqn:Ein.
  { apply String.eqb_eq in Ein.
    destruct (fValues filter) as [|v r] eqn:Evs; cbn [negb andb orb length Nat.eqb is_nil].
    - split; [discriminate|]. intros [H|(_ & _ & H & _)]; [contradiction|].
      now specialize (H Ein).
    - split; [|reflexivity]. intros _. right. repeat split; try assumption.
      + discriminate.
      + rewrite Ein. discriminate.
      + intros H. exfalso. apply H. rewrite Ein. simpl. tauto. }
  apply String.eqb_neq in Ein.
  destruct (String.eqb (fOperator filter) "BETWEEN") eqn:Ebt.
  { apply String.eqb_eq in Ebt.
    destruct (Nat.eqb (List.length (fValues filter)) 2) eqn:El; cbn [negb andb orb length Nat.eqb is_nil].
    - apply Nat.eqb_eq in El. split; [|reflexivity]. intros _. right.
      repeat split; try assumption; try easy.
      intros H. exfalso. apply H. rewrite Ebt. simpl. tauto.
    - apply Nat.eqb_neq in El. split; [discriminate|].
      intros [H|(_ & _ & _ & H & _)]; [contradiction|].
      now specialize (H Ebt). }
  apply String.eqb_neq in Ebt.
  destruct (String.eqb (fOperator filter) "IS") eqn:Eis.
  { apply String.eqb_eq in Eis. split; [|reflexivity]. intros _. right.
    repeat split; try assumption; try easy.
    intros H. exfalso. apply H. rewrite Eis. simpl. tauto. }
  apply String.eqb_neq in Eis.
  assert (Hnot : ~ In (fOperator filter) ["IN"; "BETWEEN"; "IS"]).
  { simpl. intros [H|[H|[H|[]]]]; congruence. }
  destruct (fValue filter) eqn:Eval; cbn [negb andb orb length Nat.eqb is_nil].
  - destruct (fValues filter) as [|v r] eqn:Evs; cbn [negb andb orb length Nat.eqb is_nil].
    + split; [discriminate|].
      intros [H|(_ & _ & _ & _ & H)]; [contradiction|].
      destruct (H Hnot) as [H'|H']; congruence.
    + split; [|reflexivity]. intros _. right.
      repeat split; try assumption; try easy. intros _. right. discriminate.
  - split; [|reflexivity]. intros _. right.
    repeat split; try assumption; try easy. intros _. left. discriminate.
  - split; [|reflexivity]. intros _. right.
    repeat split; try assumption; try easy. intros _. left. discriminate.
  - split; [|reflexivity]. intros _. right.
    repeat split; try assumption; try easy. intros _. left. discriminate.
Qed.

(** C5.  The validator rejects seven of the sixteen documented operators:
    a structured filter with a column and any of [<>], [NOT IN], [IS NULL],
    [IS NOT NULL], [ILIKE], [NOT LIKE], [NOT ILIKE] is refused as having an
    invalid operator, whatever values it carries. *)
Theorem documented_operators_rejected (filter : FilterConfig) (index : nat) :
  fRaw filter = "" ->
  fColumn filter <> "" ->
  In (fOperator filter)
     ["<>"; "NOT IN"; "IS NULL"; "IS NOT NULL"; "ILIKE"; "NOT LIKE";
      "NOT ILIKE"] ->
  In (fOperator filter) Failure.documentedOperators
  /\ validateFilter filter index
     = Some (ErrInvalidOperator (fOperator filter) index).
Proof.
  intros Hraw Hcol Hop. split.
  - unfold Failure.documentedOperators. simpl in *. tauto.
  - unfold validateFilter. rewrite Hraw. simpl.
    apply isEmpty_false in Hcol. rewrite Hcol.
    simpl in Hop.
    repeat (destruct Hop as [Hop|Hop]; [rewrite <- Hop; reflexivity|]).
    contradiction.
Qed.

Lemma documented_operators_rejected_witness :
  In "IS NULL" Failure.documentedOperators
  /\ validateFilter Failure.deletedAtIsNull 0
     = Some (ErrInvalidOperator "IS NULL" 0).
Proof.
  apply (documented_operators_rejected Failure.deletedAtIsNull 0).
  - reflexivity.
  - discriminate.
  - simpl. tauto.
Defined.

(** ** Raw predicates *)

(** C2.  The builder never reads the raw predicate nor its bound values:
    a filter expands as if they were not there, and a configuration whose
    only filter is the raw predicate [created_at > $1] with the value 5
    passes validation and builds a [WHERE] clause made of an empty column
    and [IS NULL], with no argument. *)
Theorem raw_predicate_ignored :
  (forall column operator v vs raw rawValues st,
      expandFilter (mkFilter column operator v vs raw rawValues) st
      = expandFilter (mkFilter column operator v vs "" []) st)
  /\ validateChartConfig Failure.rawOnly = None
  /\ ToSql Failure.rawOnly
     = Return
         ("SELECT created_at as x_value, SUM(amount) as y_value_0 FROM orders LEFT JOIN users ON orders.user_id = users.id WHERE  IS NULL",
          [], None).
Proof. repeat split; reflexivity. Qed.

(** C9.  A configuration accepted by [ValidateAndNormalizeConfig] on which
    [BuildChartQuery] indexes [Values] out of range: the filter is a raw
    predicate, so the validator does not look at its values, while the
    builder dispatches on its operator field. *)
Theorem between_index_out_of_range :
  ValidateAndNormalizeConfig Failure.rawBetween
  = (None, normalize Failure.rawBetween)
  /\ BuildChartQuery (normalize Failure.rawBetween)
     = Panics (IndexOutOfRange 0 0)
  /\ ToSql Failure.rawBetween = Panics (IndexOutOfRange 0 0).
Proof. repeat split; reflexivity. Qed.

(** C8.  A validated configuration without any NULL bound or NULL operand
    on which the build neither succeeds nor returns an error: it panics. *)
Theorem build_failure_not_an_error :
  validateChartConfig Failure.rawBetweenOne = None
  /\ Failure.nullMisuse Failure.rawBetweenOne = false
  /\ BuildChartQuery Failure.rawBetweenOne = Panics (IndexOutOfRange 1 1).
Proof. repeat split; reflexivity. Qed.

(** ** The clauses before and after [WHERE] *)

Lemma text_literal (l : list string) :
  text (map Txt l) = Clause.concat l /\ placeholders (map Txt l) = [].
Proof.
  induction l as [|x r [IHt IHp]]; simpl; [split; reflexivity|].
  now rewrite IHt, IHp.
Qed.

Lemma concat_app (a b : list string) :
  Clause.concat (a ++ b) = (Clause.concat a ++ Clause.concat b)%string.
Proof.
  induction a as [|x r IH]; simpl; [reflexivity|].
  now rewrite IH, append_assoc.
Qed.

Lemma write_nil (st : state) : write st [] = st.
Proof. unfold write. rewrite app_nil_r. now destruct st. Qed.

Lemma yAxisLoop_pieces (ys : list AxisConfig) (i : nat) (st : state) :
  yAxisLoop i ys st = write st (map Txt (Clause.yAxisPieces i ys)).
Proof.
  revert i st. induction ys as [|y r IH]; intros i st; simpl.
  - apply eq_sym, write_nil.
  - rewrite IH, !write_write. reflexivity.
Qed.

Lemma fromClause_pieces (table : TableConfig) (st : state) :
  fromClause table st = write st (map Txt (Clause.fromPieces table)).
Proof.
  unfold fromClause, Clause.fromPieces.
  destruct (isEmpty (tAlias table)); simpl; [reflexivity|].
  now rewrite write_write.
Qed.

Lemma writeJoin_pieces (st : state) (join : JoinConfig) :
  writeJoin st join = write st (map Txt (Clause.joinPieces join)).
Proof.
  unfold writeJoin, Clause.joinPieces.
  destruct (isEmpty (jAlias join)); simpl; now rewrite !write_write.
Qed.

Lemma fold_writeJoin_pieces (joins : list JoinConfig) (st : state) :
  fold_left writeJoin joins st
  = write st (map Txt (flat_map Clause.joinPieces joins)).
Proof.
  revert st. induction joins as [|j r IH]; intros st; simpl.
  - apply eq_sym, write_nil.
  - now rewrite writeJoin_pieces, IH, write_write, map_app.
Qed.

Lemma joinLoop_pieces (tables : list TableConfig) (st : state) :
  joinLoop tables st
  = write st (map Txt (flat_map Clause.joinPieces (Clause.allJoins tables))).
Proof.
  unfold joinLoop, Clause.allJoins. revert st.
  induction tables as [|t r IH]; intros st; simpl.
  - apply eq_sym, write_nil.
  - now rewrite fold_writeJoin_pieces, IH, write_write, flat_map_app, map_app.
Qed.

Lemma beforeWhere_pieces (config : ChartConfig) :
  beforeWhere config
  = match nth_error (Tables config) 0 with
    | None => Panic (IndexOutOfRange 0 (List.length (Tables config)))
    | Some table0 =>
        Ok (mkState (map Txt (Clause.beforePieces config table0)) [] 1)
    end.
Proof.
  unfold beforeWhere. destruct (nth_error (Tables config) 0); [|reflexivity].
  rewrite joinLoop_pieces, fromClause_pieces, yAxisLoop_pieces.
  rewrite !write_write. unfold write, Clause.beforePieces.
  unfold Clause.selectPieces. cbn [query args argIndex List.app map].
  rewrite !map_app. reflexivity.
Qed.

Lemma afterWhere_pieces (config : ChartConfig) (st : state) :
  afterWhere config st = write st (map Txt (Clause.afterPieces config)).
Proof.
  unfold afterWhere, Clause.afterPieces.
  assert (Hg : groupByClause config st
               = write st (map Txt (Clause.groupByPieces config))).
  { unfold groupByClause, Clause.groupByPieces.
    destruct (GroupBy config); simpl;
      [apply eq_sym, write_nil | now rewrite write_write]. }
  assert (Ho : forall st', orderByClause config st'
               = write st' (map Txt (Clause.orderByPieces config))).
  { intros st'. unfold orderByClause, Clause.orderByPieces.
    destruct (OrderBy config); simpl;
      [apply eq_sym, write_nil | now rewrite write_write]. }
  assert (Hl : forall st', limitClause config st'
               = write st' (map Txt (Clause.limitPieces config))).
  { intros st'. unfold limitClause, Clause.limitPieces.
    destruct (Z.ltb 0 (Limit config)); simpl;
      [reflexivity | apply eq_sym, write_nil]. }
  now rewrite Hl, Ho, Hg, !write_write, !map_app.
Qed.

(** ** The [WHERE] loop *)

Lemma emit_emit (st : state) (w1 w2 : list chunk) (v1 v2 : list value) :
  Table.emit (Table.emit st (w1, v1)) (w2, v2)
  = Table.emit st (w1 ++ w2, v1 ++ v2).
Proof.
  unfold Table.emit. simpl.
  now rewrite <- !app_assoc, length_app, Nat.add_assoc.
Qed.

Lemma emit_nil (st : state) : Table.emit st ([], []) = st.
Proof.
  unfold Table.emit. simpl. rewrite !app_nil_r, Nat.add_0_r. now destruct st.
Qed.

Lemma whereLoop_conjunction (filters : list FilterConfig) (i : nat)
    (st : state) :
  whereLoop i filters st
  = Table.apply st (Clause.conjunction i (argIndex st) filters).
Proof.
  revert i st. induction filters as [|f r IH]; intros i st; simpl.
  - now rewrite emit_nil.
  - rewrite expandFilter_table.
    replace (argIndex (if Nat.ltb 0 i then write st [Txt " AND "] else st))
      with (argIndex st) by now destruct (Nat.ltb 0 i).
    destruct (Table.expansion f (argIndex st)) as [[w vs]|e|p]; simpl;
      [|reflexivity|reflexivity].
    rewrite IH. simpl.
    replace (argIndex (if Nat.ltb 0 i then write st [Txt " AND "] else st))
      with (argIndex st) by now destruct (Nat.ltb 0 i).
    destruct (Clause.conjunction (S i) (argIndex st + List.length vs) r)
      as [[w' vs']|e|p]; simpl; [|reflexivity|reflexivity].
    f_equal. destruct (Nat.ltb 0 i).
    + rewrite emit_write, !emit_emit. reflexivity.
    + rewrite emit_emit. reflexivity.
Qed.

Lemma whereClause_emission (config : ChartConfig) (st : state) :
  argIndex st = 1 ->
  whereClause config st = Table.apply st (Clause.whereEmission config).
Proof.
  intros Hn. unfold whereClause, Clause.whereEmission.
  destruct (Filters config) as [|f r] eqn:Ef.
  - simpl. now rewrite emit_nil.
  - change (Nat.ltb 0 (List.length (f :: r))) with true. cbv iota.
    rewrite whereLoop_conjunction.
    change (argIndex (write st [Txt " WHERE "])) with (argIndex st).
    rewrite Hn.
    destruct (Clause.conjunction 0 1 (f :: r)) as [[w vs]|e|p];
      [|reflexivity|reflexivity].
    simpl. now rewrite emit_write, emit_emit.
Qed.

(** The builder, clause by clause. *)
Lemma buildState_clauses (config : ChartConfig) :
  buildState config
  = match nth_error (Tables config) 0 with
    | None => Panic (IndexOutOfRange 0 (List.length (Tables config)))
    | Some table0 =>
        match Clause.whereEmission config with
        | Ok (w, vs) =>
            Ok (mkState
                  (map Txt (Clause.beforePieces config table0) ++ w
                     ++ map Txt (Clause.afterPieces config))
                  vs (1 + List.length vs))
        | Err e => Err e
        | Panic p => Panic p
        end
    end.
Proof.
  unfold buildState. rewrite beforeWhere_pieces.
  destruct (nth_error (Tables config) 0) as [table0|]; [|reflexivity].
  rewrite whereClause_emission by reflexivity.
  destruct (Clause.whereEmission config) as [[w vs]|e|p];
    [|reflexivity|reflexivity].
  simpl. rewrite afterWhere_pieces. unfold write, Table.emit. simpl.
  now rewrite <- app_assoc.
Qed.

Lemma yAxisPieces_text (ys : list AxisConfig) (i : nat) :
  Clause.concat (Clause.yAxisPieces i ys)
  = Clause.concat (Clause.yAxisTerms i ys).
Proof.
  revert i. induction ys as [|y r IH]; intros i; simpl; [reflexivity|].
  now rewrite IH.
Qed.

Lemma beforePieces_text (config : ChartConfig) (table0 : TableConfig) :
  Clause.concat (Clause.beforePieces config table0)
  = (Clause.selectText config ++ Clause.fromText table0
       ++ Clause.joinsText (Clause.allJoins (Tables config)))%string.
Proof.
  unfold Clause.beforePieces. rewrite !concat_app. f_equal; [|f_equal].
  - unfold Clause.selectPieces, Clause.selectText.
    cbn [Clause.concat]. now rewrite yAxisPieces_text.
  - unfold Clause.fromPieces, Clause.fromText.
    destruct (isEmpty (tAlias table0)); simpl; now string_norm.
  - unfold Clause.joinsText.
    induction (Clause.allJoins (Tables config)) as [|j r IH]; simpl;
      [reflexivity|].
    rewrite concat_app, IH. f_equal.
    unfold Clause.joinPieces, Clause.joinText.
    destruct (isEmpty (jAlias j)); simpl; now string_norm.
Qed.

Lemma afterPieces_text (config : ChartConfig) :
  Clause.concat (Clause.afterPieces config)
  = (Clause.groupByText config ++ Clause.orderByText config
       ++ Clause.limitText config)%string.
Proof.
  unfold Clause.afterPieces. rewrite !concat_app. f_equal; [|f_equal].
  - unfold Clause.groupByPieces, Clause.groupByText.
    destruct (GroupBy config); simpl; now string_norm.
  - unfold Clause.orderByPieces, Clause.orderByText.
    destruct (OrderBy config); simpl; now string_norm.
  - unfold Clause.limitPieces, Clause.limitText.
    destruct (Z.ltb 0 (Limit config)); simpl; now string_norm.
Qed.

Lemma validated_first_table (config : ChartConfig) :
  validateChartConfig config = None ->
  exists table0, nth_error (Tables config) 0 = Some table0.
Proof.
  unfold validateChartConfig.
  destruct (isEmpty (ChartType config)); [discriminate|].
  destruct (isEmpty (Title config)); [discriminate|].
  destruct (Tables config) as [|t r]; [discriminate|].
  intros _. now exists t.
Qed.

Lemma build_success (config : ChartConfig) (sql : string)
    (arguments : list value) :
  BuildChartQuery config = Return (sql, arguments, None) ->
  exists st, buildState config = Ok st
             /\ sql = text (query st) /\ arguments = args st.
Proof.
  unfold BuildChartQuery. destruct (buildState config) as [st|e|p];
    [|discriminate|discriminate].
  intros H. exists st. split; [reflexivity|]. now injection H as <- <-.
Qed.

(** ** JOIN clauses *)

(** C1 (as amended).  For every validated configuration on which the build
    succeeds, the SQL is the [SELECT] list, the [FROM] clause of the first
    table, then one [JOIN] clause for every join of every table, table by
    table and in list order within a table, then the [WHERE], [GROUP BY],
    [ORDER BY] and [LIMIT] clauses. *)
Theorem joins_of_every_table (config : ChartConfig) (sql : string)
    (arguments : list value) :
  validateChartConfig config = None ->
  BuildChartQuery config = Return (sql, arguments, None) ->
  exists table0 w,
    nth_error (Tables config) 0 = Some table0
    /\ Clause.whereEmission config = Ok (w, arguments)
    /\ sql = Clause.sqlWith config table0
               (flat_map tJoins (Tables config)) w.
Proof.
  intros Hv Hb. destruct (validated_first_table config Hv) as [table0 Ht].
  apply build_success in Hb as (st & Hst & -> & ->).
  rewrite buildState_clauses, Ht in Hst.
  destruct (Clause.whereEmission config) as [[w vs]|e|p];
    [|discriminate|discriminate].
  remember (Clause.beforePieces config table0) as pre eqn:Hpre.
  remember (Clause.afterPieces config) as post eqn:Hpost.
  injection Hst as Hst. subst st. cbn [query args].
  exists table0, w. split; [exact Ht|]. split; [reflexivity|].
  rewrite !text_app.
  rewrite (proj1 (text_literal pre)), (proj1 (text_literal post)).
  subst pre post. rewrite beforePieces_text, afterPieces_text.
  unfold Clause.sqlWith, Clause.allJoins. now string_norm.
Qed.

Lemma joins_of_every_table_witness :
  exists table0 w,
    nth_error (Tables Clause.twoTables) 0 = Some table0
    /\ Clause.whereEmission Clause.twoTables = Ok (w, [])
    /\ "SELECT created_at as x_value, SUM(amount) as y_value_0 FROM orders o LEFT JOIN users u ON o.user_id = u.id INNER JOIN regions ON t.region = regions.id"
       = Clause.sqlWith Clause.twoTables table0
           (flat_map tJoins (Tables Clause.twoTables)) w.
Proof.
  apply (joins_of_every_table Clause.twoTables); reflexivity.
Defined.

(** C1 (as stated) fails.  The configuration has two tables with one join
    each and passes validation; the SQL built has the join of the second
    table after the join of the first, so it is not the query with the
    joins of the first table only. *)
Lemma joins_beyond_first_table :
  validateChartConfig Clause.twoTables = None
  /\ exists table0 sql,
       nth_error (Tables Clause.twoTables) 0 = Some table0
       /\ BuildChartQuery Clause.twoTables = Return (sql, [], None)
       /\ sql = "SELECT created_at as x_value, SUM(amount) as y_value_0 FROM orders o LEFT JOIN users u ON o.user_id = u.id INNER JOIN regions ON t.region = regions.id"
       /\ sql <> Clause.sqlWith Clause.twoTables table0
                   (Clause.firstTableJoins (Tables Clause.twoTables)) [].
Proof.
  split; [reflexivity|]. do 2 eexists.
  split; [reflexivity|]. split; [reflexivity|]. split; [reflexivity|].
  vm_compute. discriminate.
Qed.

(** ** Counting placeholders *)

Lemma placeholders_app (a b : list chunk) :
  placeholders (a ++ b) = placeholders a ++ placeholders b.
Proof.
  induction a as [|[s|n] r IH]; simpl; [reflexivity | exact IH |].
  now rewrite IH.
Qed.

Lemma placeholders_list (n k : nat) :
  placeholders (Table.placeholderList n k) = seq n k.
Proof.
  unfold Table.placeholderList. revert n.
  induction k as [|k IH]; intros n; [reflexivity|].
  destruct k as [|k]; [reflexivity|].
  specialize (IH (S n)).
  change (seq n (S (S k))) with (n :: seq (S n) (S k)).
  change (seq (S n) (S k)) with (S n :: seq (S (S n)) k) in *.
  cbn [map joinChunks placeholders] in *. now rewrite IH.
Qed.

Lemma expansion_counted (filter : FilterConfig) (n : nat)
    (w : list chunk) (vs : list value) :
  Table.expansion filter n = Ok (w, vs) ->
  placeholders w = seq n (List.length vs).
Proof.
  unfold Table.expansion.
  assert (Hplain : forall s w vs,
             Ok (Table.plain filter s) = Ok (w, vs) ->
             placeholders w = seq n (List.length vs)).
  { intros s w0 vs0 H. injection H as <- <-. reflexivity. }
  assert (Hbound : forall w vs,
             Ok (Table.bound filter n) = Ok (w, vs) ->
             placeholders w = seq n (List.length vs)).
  { intros w0 vs0 H. injection H as <- <-. reflexivity. }
  assert (Hnullable : forall w vs,
             Ok (Table.nullable filter n) = Ok (w, vs) ->
             placeholders w = seq n (List.length vs)).
  { intros w0 vs0. unfold Table.nullable.
    destruct (is_nil (fValue filter)); [apply Hplain | apply Hbound]. }
  destruct (String.eqb (Go.ToLower (fOperator filter)) "in").
  { unfold Table.membership.
    destruct (Table.hasNull (fValues filter)
              && Table.hasNonNull (fValues filter)).
    - intros H. injection H as <- <-.
      cbn [List.app placeholders fst snd].
      rewrite ?placeholders_app, ?placeholders_list.
      cbn [List.app placeholders]. now rewrite ?app_nil_r.
    - destruct (Table.hasNull (fValues filter)); [apply Hplain|].
      intros H. injection H as <- <-.
      cbn [List.app placeholders fst snd].
      rewrite ?placeholders_app, ?placeholders_list.
      cbn [List.app placeholders]. now rewrite ?app_nil_r. }
  destruct (String.eqb (Go.ToLower (fOperator filter)) "not in").
  { unfold Table.exclusion.
    destruct (Table.hasNull (fValues filter)
              && Table.hasNonNull (fValues filter)).
    - intros H. injection H as <- <-.
      cbn [List.app placeholders fst snd].
      rewrite ?placeholders_app, ?placeholders_list.
      cbn [List.app placeholders]. now rewrite ?app_nil_r.
    - destruct (Table.hasNull (fValues filter)); [apply Hplain|].
      intros H. injection H as <- <-.
      cbn [List.app placeholders fst snd].
      rewrite ?placeholders_app, ?placeholders_list.
      cbn [List.app placeholders]. now rewrite ?app_nil_r. }
  destruct (String.eqb (Go.ToLower (fOperator filter)) "between").
  { destruct (fValues filter) as [|lo [|hi r]]; [discriminate| |].
    - destruct (is_nil lo); discriminate.
    - destruct (is_nil lo || is_nil hi); [discriminate|].
      intros H. injection H as <- <-. simpl. now rewrite Nat.add_1_r. }
  destruct (oneOf (Go.ToLower (fOperator filter)) ["="; "!="; "<>"]).
  { unfold Table.equality.
    destruct (fValue filter) as [|s|b|z]; [apply Hplain| | |apply Hbound].
    - destruct (Table.boolLiteral (VString s)) as [[|]|];
        [apply Hplain | apply Hplain | apply Hbound].
    - destruct (Table.boolLiteral (VBool b)) as [[|]|];
        [apply Hplain | apply Hplain | apply Hbound]. }
  destruct (String.eqb (Go.ToLower (fOperator filter)) "is null");
    [apply Hplain|].
  destruct (String.eqb (Go.ToLower (fOperator filter)) "is not null");
    [apply Hplain|].
  destruct (oneOf (Go.ToLower (fOperator filter)) ["<"; "<="; ">"; ">="]).
  { destruct (is_nil (fValue filter)); [discriminate | apply Hbound]. }
  apply Hnullable.
Qed.

Lemma conjunction_counted (filters : list FilterConfig) (i n : nat)
    (w : list chunk) (vs : list value) :
  Clause.conjunction i n filters = Ok (w, vs) ->
  placeholders w = seq n (List.length vs).
Proof.
  revert i n w vs. induction filters as [|f r IH]; intros i n w vs; simpl.
  - intros H. injection H as <- <-. reflexivity.
  - destruct (Table.expansion f n) as [[w1 vs1]|e|p] eqn:E1;
      [|discriminate|discriminate].
    destruct (Clause.conjunction (S i) (n + List.length vs1) r)
      as [[w2 vs2]|e|p] eqn:E2; [|discriminate|discriminate].
    intros H. injection H as <- <-.
    rewrite !placeholders_app, length_app, seq_app.
    rewrite (expansion_counted _ _ _ _ E1), (IH _ _ _ _ E2).
    now destruct (Nat.ltb 0 i).
Qed.

Lemma whereEmission_counted (config : ChartConfig) (w : list chunk)
    (vs : list value) :
  Clause.whereEmission config = Ok (w, vs) ->
  placeholders w = seq 1 (List.length vs).
Proof.
  unfold Clause.whereEmission. destruct (Filters config) as [|f r].
  - intros H. injection H as <- <-. reflexivity.
  - destruct (Clause.conjunction 0 1 (f :: r)) as [[w1 vs1]|e|p] eqn:E;
      [|discriminate|discriminate].
    intros H. injection H as <- <-. simpl.
    apply (conjunction_counted _ _ _ _ _ E).
Qed.

(** ** Reading placeholders back from the text *)

Lemma scan_free (s t : string) :
  Scan.dollarFree s = true ->
  Scan.placeholdersOf (s ++ t) = Scan.placeholdersOf t.
Proof.
  induction s as [|c r IH]; simpl; [reflexivity|].
  intros H. apply andb_prop in H as [Hc Hr].
  apply negb_true_iff in Hc. rewrite Hc. now apply IH.
Qed.

Lemma digits_free (d : Decimal.uint) :
  Scan.dollarFree (NilEmpty.string_of_uint d) = true.
Proof. induction d; simpl; auto. Qed.

Lemma digits_all (d : Decimal.uint) :
  Guard.allDigits (NilEmpty.string_of_uint d) = true.
Proof. induction d; simpl; auto. Qed.

Lemma itoa_free (n : nat) : Scan.dollarFree (Go.itoa n) = true.
Proof. apply digits_free. Qed.

Lemma itoaZ_free (z : Z) : Scan.dollarFree (Go.itoaZ z) = true.
Proof.
  unfold Go.itoaZ. destruct (Z.to_int z); simpl; apply digits_free.
Qed.

Lemma leadingDigits_app (d t : string) :
  Guard.allDigits d = true -> Scan.stops t = true ->
  Scan.leadingDigits (d ++ t) = d.
Proof.
  intros Hd Ht. induction d as [|c r IH]; simpl.
  - destruct t as [|c t]; [reflexivity|]. simpl in *.
    apply negb_true_iff in Ht. now rewrite Ht.
  - simpl in Hd. apply andb_prop in Hd as [Hc Hr].
    rewrite Hc. f_equal. now apply IH.
Qed.

Lemma to_uint_not_Nil (n : nat) : Nat.to_uint n <> Decimal.Nil.
Proof.
  rewrite <- (Unsigned.of_to n) at 1. rewrite Unsigned.to_of.
  unfold Decimal.unorm. destruct (Decimal.nzhead (Nat.to_uint n));
    discriminate.
Qed.

Lemma itoa_not_empty (n : nat) : Go.itoa n <> "".
Proof.
  unfold Go.itoa. pose proof (to_uint_not_Nil n) as H.
  destruct (Nat.to_uint n); solve [contradiction | discriminate].
Qed.

Lemma numberAt_itoa (n : nat) (t : string) :
  Scan.stops t = true -> Scan.numberAt (Go.itoa n ++ t) = Some n.
Proof.
  intros Ht. unfold Scan.numberAt.
  rewrite leadingDigits_app by (try apply digits_all; assumption).
  pose proof (itoa_not_empty n) as Hne.
  destruct (Go.itoa n) as [|c r] eqn:E; [contradiction|].
  rewrite <- E. unfold Go.itoa. rewrite NilEmpty.usu. simpl.
  now rewrite Unsigned.of_to.
Qed.

Lemma scan_arg (n : nat) (t : string) :
  Scan.stops t = true ->
  Scan.placeholdersOf (placeholderText n ++ t) = n :: Scan.placeholdersOf t.
Proof.
  intros Ht. unfold placeholderText.
  change (("$" ++ Go.itoa n) ++ t)%string
    with (String "$" (Go.itoa n ++ t)).
  cbn [Scan.placeholdersOf]. change (Scan.isDollar "$") with true. cbv iota.
  rewrite numberAt_itoa by assumption.
  now rewrite scan_free by apply itoa_free.
Qed.

(** ** Guarded chunks *)

Lemma guarded_nil : Scan.guarded [].
Proof. intros t _. reflexivity. Qed.

Lemma guarded_txt (s : string) (w : list chunk) :
  Scan.dollarFree s = true -> Scan.guarded w -> Scan.guarded (Txt s :: w).
Proof.
  intros Hs Hw t Ht. cbn [text chunkText placeholders].
  rewrite append_assoc, scan_free by assumption. now apply Hw.
Qed.

Lemma guarded_arg (n : nat) (w : list chunk) :
  Guard.halts w -> Scan.guarded w -> Scan.guarded (Arg n :: w).
Proof.
  intros Hh Hw t Ht. cbn [text chunkText placeholders].
  rewrite append_assoc. fold (placeholderText n).
  rewrite scan_arg by now apply Hh.
  cbn [List.app]. f_equal. now apply Hw.
Qed.

Lemma halts_nil : Guard.halts [].
Proof. intros t Ht. exact Ht. Qed.

Lemma halts_txt (c : ascii) (s : string) (w : list chunk) :
  Scan.isDigit c = false -> Guard.halts (Txt (String c s) :: w).
Proof. intros Hc t _. simpl. now rewrite Hc. Qed.

Lemma guarded_app (a b : list chunk) :
  Scan.guarded a -> Scan.guarded b -> Guard.halts b -> Scan.guarded (a ++ b).
Proof.
  intros Ha Hb Hh t Ht.
  rewrite text_app, placeholders_app, append_assoc, <- app_assoc.
  rewrite Ha by now apply Hh. f_equal. now apply Hb.
Qed.

(** ** Placeholders and arguments *)

Lemma expandFilter_advance (filter : FilterConfig) (st0 st1 : state) :
  expandFilter filter st0 = Ok st1 ->
  exists w,
    query st1 = query st0 ++ w
    /\ placeholders w
       = seq (argIndex st0) (List.length (placeholders w))
    /\ argIndex st1 = argIndex st0 + List.length (placeholders w)
    /\ List.length (args st1)
       = List.length (args st0) + List.length (placeholders w).
Proof.
  rewrite expandFilter_table.
  destruct (Table.expansion filter (argIndex st0)) as [[w vs]|e|p] eqn:E;
    [|discriminate|discriminate].
  intros H. injection H as <-. exists w.
  pose proof (expansion_counted _ _ _ _ E) as Hc.
  assert (Hl : List.length (placeholders w) = List.length vs)
    by now rewrite Hc, length_seq.
  unfold Table.emit. cbn [query args argIndex fst snd].
  rewrite length_app, Hl. repeat split; assumption.
Qed.

(** ** Structured filters: the build is total and fails on NULL misuse only *)

Lemma forRange_None {A : Type} (body : nat -> A -> option error)
    (l : list A) (i : nat) :
  forRange body i l = None ->
  Forall (fun x => exists j, body j x = None) l.
Proof.
  revert i. induction l as [|x r IH]; intros i; simpl; [constructor|].
  destruct (body i x) eqn:E; [discriminate|].
  intros H. constructor; [now exists i | now apply (IH (S i))].
Qed.

Lemma validated_filters (config : ChartConfig) :
  validateChartConfig config = None ->
  Forall (fun f => exists j, validateFilter f j = None) (Filters config).
Proof.
  unfold validateChartConfig.
  destruct (isEmpty (ChartType config)); [discriminate|].
  destruct (isEmpty (Title config)); [discriminate|].
  destruct (Nat.eqb (List.length (Tables config)) 0); [discriminate|].
  destruct (Nat.eqb (List.length (YAxis config)) 0); [discriminate|].
  destruct (negb (contains validChartTypes (ChartType config)));
    [discriminate|].
  destruct (forRange validateTable 0 (Tables config)); [discriminate|].
  destruct (isEmpty (aColumn (XAxis config))); [discriminate|].
  destruct (forRange validateYAxis 0 (YAxis config)); [discriminate|].
  apply forRange_None.
Qed.

Lemma expansion_structured (filter : FilterConfig) (j n : nat) :
  validateFilter filter j = None ->
  Failure.structured filter ->
  if Failure.betweenWithNull filter || Failure.orderedWithNull filter
  then exists e, Table.expansion filter n = Err e
  else exists w vs, Table.expansion filter n = Ok (w, vs).
Proof.
  intros Hv Hs. apply validateFilter_accepts in Hv.
  destruct Hv as [Hraw|(_ & Hop & Hin & Hbt & _)]; [contradiction|].
  unfold Failure.betweenWithNull, Failure.orderedWithNull, Table.expansion.
  unfold validOperators in Hop. simpl in Hop.
  destruct Hop as [Hop|[Hop|[Hop|[Hop|[Hop|[Hop|[Hop|[Hop|[Hop|[Hop|[]]]]]]]]]]];
    rewrite <- Hop in *;
    repeat match goal with
           | |- context [Go.ToLower ?s] =>
               let v := eval vm_compute in (Go.ToLower s) in
               change (Go.ToLower s) with v
           end;
    cbn -[Table.hasNull Table.equality Table.nullable
          Table.membership Table.bound];
    try (destruct (Table.equality filter n); eauto; fail);
    try (destruct (Table.nullable filter n); eauto; fail);
    try (destruct (Table.membership filter n); eauto; fail);
    try (destruct (is_nil (fValue filter));
         [eauto | destruct (Table.bound filter n); eauto]; fail).
  specialize (Hbt eq_refl).
  destruct (fValues filter) as [|lo [|hi [|x r]]]; try discriminate.
  unfold Table.hasNull. cbn [existsb].
  destruct (is_nil lo), (is_nil hi); simpl; unfold Table.range; eauto.
Qed.

Lemma conjunction_structured (filters : list FilterConfig) (i n : nat) :
  Forall (fun f => exists j, validateFilter f j = None) filters ->
  Forall Failure.structured filters ->
  if existsb (fun f => Failure.betweenWithNull f || Failure.orderedWithNull f)
       filters
  then exists e, Clause.conjunction i n filters = Err e
  else exists w vs, Clause.conjunction i n filters = Ok (w, vs).
Proof.
  revert i n. induction filters as [|f r IH]; intros i n Hv Hs.
  - simpl. eauto.
  - inversion Hv as [|? ? [j Hj] Hvr]; subst.
    inversion Hs as [|? ? Hsf Hsr]; subst.
    pose proof (expansion_structured f j n Hj Hsf) as Hf.
    cbn [existsb Clause.conjunction].
    destruct (Failure.betweenWithNull f || Failure.orderedWithNull f).
    + destruct Hf as [e ->]. simpl. eauto.
    + destruct Hf as (w & vs & ->). cbn [orb].
      specialize (IH (S i) (n + List.length vs) Hvr Hsr).
      destruct (existsb _ r).
      * destruct IH as [e ->]. eauto.
      * destruct IH as (w' & vs' & ->). eauto.
Qed.

(** On a validated configuration whose filters are all structured, the
    build returns: an error with empty SQL and no argument when a filter
    uses [BETWEEN] with a NULL bound or an ordered comparison with a NULL
    value, and SQL with its arguments otherwise. *)
Lemma structured_build_outcome (config : ChartConfig) :
  validateChartConfig config = None ->
  Forall Failure.structured (Filters config) ->
  if Failure.nullMisuse config
  then exists e, BuildChartQuery config = Return ("", [], Some e)
  else exists sql arguments,
         BuildChartQuery config = Return (sql, arguments, None).
Proof.
  intros Hv Hs. destruct (validated_first_table config Hv) as [table0 Ht].
  unfold BuildChartQuery. rewrite buildState_clauses, Ht.
  unfold Failure.nullMisuse, Clause.whereEmission.
  pose proof (conjunction_structured (Filters config) 0 1
                (validated_filters config Hv) Hs) as Hc.
  destruct (Filters config) as [|f r] eqn:Ef.
  - simpl. eauto.
  - destruct (existsb _ (f :: r)).
    + destruct Hc as [e ->]. eauto.
    + destruct Hc as (w & vs & ->). eauto.
Qed.

(** ** The entry point *)

Lemma forRange_map {A : Type} (body : nat -> A -> option error)
    (g : A -> A) (l : list A) :
  (forall i x, body i x = None -> body i (g x) = None) ->
  forall i, forRange body i l = None -> forRange body i (map g l) = None.
Proof.
  intros Hg. induction l as [|x r IH]; intros i; simpl; [reflexivity|].
  destruct (body i x) eqn:E; [discriminate|].
  intros H. rewrite (Hg i x E). now apply IH.
Qed.

Lemma defaultJoinType_valid (join : JoinConfig) (i j : nat) :
  validateJoinConfig join i j = None ->
  validateJoinConfig (defaultJoinType join) i j = None.
Proof.
  unfold defaultJoinType.
  destruct (isEmpty (jType join)) eqn:Et; [|trivial].
  unfold validateJoinConfig. cbn [jTable jCondition jType].
  destruct (isEmpty (jTable join)); [discriminate|].
  destruct (isEmpty (jCondition join)); [discriminate|].
  reflexivity.
Qed.

Lemma defaultJoins_valid (i : nat) (table : TableConfig) :
  validateTable i table = None ->
  validateTable i (defaultJoins table) = None.
Proof.
  unfold validateTable, defaultJoins. cbn [tName tJoins].
  destruct (isEmpty (tName table)); [discriminate|].
  apply (forRange_map (fun j join => validateJoinConfig join i j)).
  intros j join. apply defaultJoinType_valid.
Qed.

Lemma ToLower_chart_type (t : string) :
  In t validChartTypes -> Go.ToLower t = t.
Proof.
  unfold validChartTypes. simpl.
  intros [H|[H|[H|[H|[H|[H|[]]]]]]]; subst t; reflexivity.
Qed.

(** Normalisation keeps a configuration valid, so that what is said of the
    builder on configurations that pass validation holds after the
    defaults are filled in as well. *)
Lemma normalize_validated (config : ChartConfig) :
  validateChartConfig config = None ->
  validateChartConfig (normalize config) = None.
Proof.
  intros Hv.
  pose proof (validated_chart_type config Hv) as Hk.
  apply contains_In in Hk.
  revert Hv. unfold validateChartConfig, normalize.
  cbn [ChartType Title Tables YAxis XAxis Filters].
  rewrite (ToLower_chart_type _ Hk), length_map.
  destruct (isEmpty (ChartType config)); [discriminate|].
  destruct (isEmpty (Title config)); [discriminate|].
  destruct (Nat.eqb (List.length (Tables config)) 0); [discriminate|].
  destruct (Nat.eqb (List.length (YAxis config)) 0); [discriminate|].
  destruct (negb (contains validChartTypes (ChartType config)));
    [discriminate|].
  destruct (forRange validateTable 0 (Tables config)) eqn:Et; [discriminate|].
  rewrite (forRange_map validateTable defaultJoins (Tables config)
             defaultJoins_valid 0 Et).
  trivial.
Qed.

Lemma ToSql_validated (config : ChartConfig) :
  validateChartConfig config = None ->
  ToSql config = BuildChartQuery (normalize config).
Proof.
  intros Hv. unfold ToSql, ValidateAndNormalizeConfig. rewrite Hv.
  unfold BuildChartQuery.
  destruct (buildState (normalize config)); reflexivity.
Qed.

Lemma ToSql_rejected (config : ChartConfig) (e : error) :
  validateChartConfig config = Some e ->
  ToSql config = Return ("", [], Some e).
Proof.
  intros Hv. unfold ToSql, ValidateAndNormalizeConfig. now rewrite Hv.
Qed.

(** * Further properties *)

(** ** Result rows *)

Section Rows.

Import ChartRow.

(** X1.  [convertValue] changes byte slices into strings and nothing else:
    integers, [float32] and booleans come back as they are, because the
    [driver.Value] case of the type switch catches every non-nil value
    before the numeric cases.  Converting twice is converting once. *)
Theorem convertValue_bytes_only (v : dyn) :
  convertValue v = match v with DBytes b => DString b | _ => v end
  /\ convertValue (convertValue v) = convertValue v
  /\ (forall b, convertValue v <> DBytes b).
Proof.
  destruct v; repeat split; try reflexivity; intros b'; discriminate.
Qed.

Lemma index_in_range {A : Type} (s : list A) (i : nat) (d : A) :
  i < List.length s -> index s (Z.of_nat i) = Done (nth i s d).
Proof.
  intros Hi. unfold index.
  destruct (Z.ltb_spec (Z.of_nat i) 0) as [H|_]; [lia|].
  rewrite Nat2Z.id.
  destruct (nth_error s i) as [x|] eqn:E.
  - now rewrite (nth_error_nth s i d E).
  - apply nth_error_None in E. lia.
Qed.

Lemma GetYValueAsFloat_get (row : ChartDataRow) (i : Z) :
  (0 <= i)%Z ->
  GetYValueAsFloat row i
  = Done match nth_error (YValues row) (Z.to_nat i) with
         | Some y => RowSpec.asFloat y
         | None => None
         end.
Proof.
  unfold GetYValueAsFloat. intros Hi.
  destruct (Z.geb_spec i (Z.of_nat (List.length (YValues row)))) as [H|H].
  - assert (E : nth_error (YValues row) (Z.to_nat i) = None)
      by (apply nth_error_None; lia).
    now rewrite E.
  - rewrite <- (Z2Nat.id i Hi) at 1.
    rewrite (index_in_range _ _ DNil) by lia.
    assert (E : nth_error (YValues row) (Z.to_nat i)
                = Some (nth (Z.to_nat i) (YValues row) DNil))
      by (apply nth_error_nth'; lia).
    rewrite E. cbn [bind].
    now destruct (nth (Z.to_nat i) (YValues row) DNil).
Qed.

(** X2.  [GetYValueAsFloat] panics exactly on a negative index.  On any
    other index it returns: nil past the end, on a nil cell and on a cell
    that is neither [float64], [int64] nor [int]; the number otherwise. *)
Theorem GetYValueAsFloat_cases (row : ChartDataRow) (i : Z) :
  ((i < 0)%Z ->
   GetYValueAsFloat row i = IndexPanic i (List.length (YValues row)))
  /\ ((0 <= i)%Z ->
      GetYValueAsFloat row i
      = Done match nth_error (YValues row) (Z.to_nat i) with
             | Some y => RowSpec.asFloat y
             | None => None
             end).
Proof.
  split; [|apply GetYValueAsFloat_get].
  unfold GetYValueAsFloat. intros Hi.
  destruct (Z.geb_spec i (Z.of_nat (List.length (YValues row)))); [lia|].
  unfold index. destruct (Z.ltb_spec i 0); [reflexivity | lia].
Qed.

Lemma GetYValueAsFloat_cases_witness :
  GetYValueAsFloat RowSpec.sampleRow (-1) = IndexPanic (-1) 4
  /\ GetYValueAsFloat RowSpec.sampleRow 3 = Done (Some (toFloat64 7)).
Proof.
  split.
  - apply (proj1 (GetYValueAsFloat_cases RowSpec.sampleRow (-1))). lia.
  - apply (proj2 (GetYValueAsFloat_cases RowSpec.sampleRow 3)). lia.
Defined.

Lemma scanInto_nth (n : nat) (cells : list dyn) (j : nat) :
  j < n -> nth j (map convertValue (scanInto n cells)) DNil
           = convertValue (nth j cells DNil).
Proof.
  intros Hj. unfold scanInto. rewrite map_map.
  rewrite (nth_indep _ DNil (convertValue (nth 0 cells DNil)))
    by now rewrite length_map, length_seq.
  rewrite (map_nth (fun i => convertValue (nth i cells DNil)) (seq 0 n) 0 j).
  now rewrite seq_nth.
Qed.

Lemma scanInto_length (n : nat) (cells : list dyn) :
  List.length (map convertValue (scanInto n cells)) = n.
Proof. unfold scanInto. now rewrite !length_map, length_seq. Qed.

Lemma yValuesLoop_spec (columns : list string) (values : list dyn)
    (todo i : nat) :
  i + todo < List.length columns ->
  List.length values = List.length columns ->
  yValuesLoop columns values i todo
  = Done (map (fun j => DMap [(nth j columns ""%string, nth j values DNil)])
              (seq (i + 1) todo)).
Proof.
  revert i. induction todo as [|todo IH]; intros i Hi Hl; [reflexivity|].
  cbn [yValuesLoop].
  rewrite (index_in_range columns (i + 1) ""%string) by lia.
  rewrite (index_in_range values (i + 1) DNil) by lia.
  cbn [bind]. rewrite IH by lia. cbn [bind seq map].
  now replace (S i + 1) with (S (i + 1)) by lia.
Qed.

Lemma buildRow_spec (columns : list string) (cells : list dyn) :
  columns <> [] ->
  buildRow columns cells = Done (RowSpec.rowOf columns cells).
Proof.
  intros Hne. unfold buildRow, RowSpec.rowOf.
  assert (Hn : 0 < List.length columns)
    by (destruct columns; [contradiction | simpl; lia]).
  set (values := map convertValue (scanInto (List.length columns) cells)).
  assert (Hl : List.length values = List.length columns)
    by apply scanInto_length.
  assert (Hs : slice values 1 = Done (skipn 1 values)).
  { unfold slice. destruct (Nat.leb_spec 1 (List.length values));
      [reflexivity | lia]. }
  rewrite Hs. cbn [bind].
  change 0%Z with (Z.of_nat 0).
  rewrite (index_in_range values 0 DNil) by lia. cbn [bind XValue].
  rewrite yValuesLoop_spec by lia. cbn [bind]. f_equal. f_equal.
  - now apply scanInto_nth.
  - apply map_ext_in. intros j Hj. apply in_seq in Hj.
    unfold values. rewrite scanInto_nth by lia. reflexivity.
Qed.

Lemma scanLoop_spec (columns : list string)
    (next : list (dbError + list dyn)) (results : list ChartDataRow)
    (err : option dbError) :
  columns <> [] ->
  scanLoop columns next results err
  = Done match RowSpec.firstScanError next with
         | Some e => ([], Some e)
         | None =>
             (results ++ map (RowSpec.rowOf columns) (RowSpec.scanned next),
              err)
         end.
Proof.
  intros Hne. revert results.
  induction next as [|[e|cells] r IH]; intros results; simpl.
  - now rewrite app_nil_r.
  - reflexivity.
  - rewrite buildRow_spec by assumption. cbn [bind]. rewrite IH.
    destruct (RowSpec.firstScanError r); [reflexivity|].
    now rewrite <- app_assoc.
Qed.

(** X3.  With at least one column, [ScanDynamicChart] never panics.  If a
    scan fails it returns no row and the error of the first failing scan,
    whatever was scanned before.  Otherwise it returns one row per database
    row, in order: the first cell, converted, as x value, and for every
    other column a single-key map from the column's name to its converted
    cell; the error is the one [rows.Err()] reports. *)
Theorem ScanDynamicChart_rows (rows : Rows) (columns : list string) :
  Columns rows = inr columns ->
  columns <> [] ->
  ScanDynamicChart rows
  = Done match RowSpec.firstScanError (Next rows) with
         | Some e => ([], Some e)
         | None =>
             (map (RowSpec.rowOf columns) (RowSpec.scanned (Next rows)),
              Err rows)
         end.
Proof.
  intros Hc Hne. unfold ScanDynamicChart. rewrite Hc.
  now rewrite scanLoop_spec.
Qed.

Lemma ScanDynamicChart_rows_witness :
  ScanDynamicChart RowSpec.sample
  = Done ([ mkRow (DString "2024-01")
              [DMap [("y_value_0"%string, DInt64 5)];
               DMap [("y_value_1"%string, DNil)]];
            mkRow (DString "2024-02")
              [DMap [("y_value_0"%string, DFloat64 (toFloat64 3))];
               DMap [("y_value_1"%string, DBool true)]] ],
          None).
Proof.
  apply (ScanDynamicChart_rows RowSpec.sample
           ["x_value"; "y_value_0"; "y_value_1"]%string);
    [reflexivity | discriminate].
Defined.

(** X4.  Without any column, [ScanDynamicChart] panics on the first row
    that scans: the literal of the row takes [values[0]] and [values[1:]]
    of an empty slice, and the run stops on the slice bounds out of range
    [1:0] or, were the index taken first, on the index out of range [0].
    It returns normally only when there is no row or when the first scan
    fails. *)
Theorem ScanDynamicChart_no_column (rows : Rows) :
  Columns rows = inr [] ->
  match Next rows with
  | [] => ScanDynamicChart rows = Done ([], Err rows)
  | inl e :: _ => ScanDynamicChart rows = Done ([], Some e)
  | inr _ :: _ =>
      ScanDynamicChart rows = SlicePanic 1 0
      \/ ScanDynamicChart rows = IndexPanic 0 0
  end.
Proof.
  intros Hc. unfold ScanDynamicChart. rewrite Hc.
  destruct (Next rows) as [|[e|cells] r]; try reflexivity.
  left. reflexivity.
Qed.

Lemma ScanDynamicChart_no_column_witness :
  ScanDynamicChart (mkRows (inr []) [inr [DInt64 1]] None) = SlicePanic 1 0
  \/ ScanDynamicChart (mkRows (inr []) [inr [DInt64 1]] None)
     = IndexPanic 0 0.
Proof.
  apply (ScanDynamicChart_no_column (mkRows (inr []) [inr [DInt64 1]] None)).
  reflexivity.
Defined.

Lemma yValuesLoop_maps (columns : list string) (values : list dyn)
    (todo i : nat) (ys : list dyn) :
  yValuesLoop columns values i todo = Done ys ->
  forallb RowSpec.isMap ys = true.
Proof.
  revert i ys. induction todo as [|todo IH]; intros i ys; cbn [yValuesLoop].
  - intros H. now injection H as <-.
  - destruct (index columns (Z.of_nat (i + 1)));
      [|discriminate|discriminate].
    destruct (index values (Z.of_nat (i + 1)));
      [|discriminate|discriminate].
    cbn [bind].
    destruct (yValuesLoop columns values (S i) todo) as [rest| |] eqn:E;
      [|discriminate|discriminate].
    cbn [bind]. intros H. injection H as <-. simpl. now apply (IH (S i)).
Qed.

Lemma scanLoop_maps (columns : list string)
    (next : list (dbError + list dyn)) (results out : list ChartDataRow)
    (err e : option dbError) :
  Forall (fun row => forallb RowSpec.isMap (YValues row) = true) results ->
  scanLoop columns next results err = Done (out, e) ->
  Forall (fun row => forallb RowSpec.isMap (YValues row) = true) out.
Proof.
  revert results. induction next as [|[e'|cells] r IH]; intros results Hr;
    simpl.
  - intros H. now injection H as <- <-.
  - intros H. injection H as <- <-. constructor.
  - unfold buildRow.
    destruct (slice _ 1) as [tail| |]; [|discriminate|discriminate].
    cbn [bind].
    destruct (index _ 0) as [x| |]; [|discriminate|discriminate].
    cbn [bind].
    destruct (yValuesLoop _ _ 0 _) as [ys| |] eqn:Ey;
      [|discriminate|discriminate].
    cbn [bind]. apply IH. apply Forall_app. split; [assumption|].
    constructor; [|constructor]. simpl.
    now apply (yValuesLoop_maps _ _ _ _ _ Ey).
Qed.

(** X5.  On a row produced by [ScanDynamicChart], [GetYValueAsFloat]
    returns nil at every index that is not negative: the y values of such
    a row are maps, never numbers. *)
Theorem scanned_rows_have_no_float (rows : Rows)
    (results : list ChartDataRow) (e : option dbError)
    (row : ChartDataRow) (i : Z) :
  ScanDynamicChart rows = Done (results, e) ->
  In row results ->
  (0 <= i)%Z ->
  GetYValueAsFloat row i = Done None.
Proof.
  intros Hs Hin Hi.
  assert (Hm : forallb RowSpec.isMap (YValues row) = true).
  { unfold ScanDynamicChart in Hs.
    destruct (Columns rows) as [e'|columns].
    - injection Hs as <- <-. contradiction.
    - pose proof (scanLoop_maps _ _ _ _ _ _ (Forall_nil _) Hs) as Hall.
      rewrite Forall_forall in Hall. now apply Hall. }
  rewrite (GetYValueAsFloat_get row i Hi).
  destruct (nth_error (YValues row) (Z.to_nat i)) as [y|] eqn:E;
    [|reflexivity].
  rewrite forallb_forall in Hm. apply nth_error_In in E.
  specialize (Hm y E). now destruct y.
Qed.

End Rows.

Lemma scanned_rows_have_no_float_witness :
  ChartRow.GetYValueAsFloat
    (ChartRow.mkRow (ChartRow.DString "2024-01")
       [ChartRow.DMap [("y_value_0"%string, ChartRow.DInt64 5)];
        ChartRow.DMap [("y_value_1"%string, ChartRow.DNil)]]) 0
  = ChartRow.Done None.
Proof.
  eapply (scanned_rows_have_no_float RowSpec.sample _ None _ 0).
  - reflexivity.
  - left. reflexivity.
  - lia.
Defined.

(** ** The other rows of the operator table *)

Lemma expandFilter_emission (filter : FilterConfig) (st : state)
    (e : Table.emission) :
  Table.expansion filter (argIndex st) = Ok e ->
  expandFilter filter st = Ok (Table.emit st e).
Proof. intros H. now rewrite expandFilter_table, H. Qed.

(** X6.  For a filter whose operator is [IN] in any letter case, [n] being
    the current counter:
    - when no value is NULL, which includes no value at all, it emits
      [col IN ($n, ...)] and binds every value;
    - when every value is NULL it emits [col IS NULL] and binds nothing;
    - when NULL and non-NULL values are mixed it emits
      [(col IN ($n, ...) OR col IS NULL)] and binds the non-NULL values
      only. *)
Theorem in_expansion (filter : FilterConfig) (st : state) :
  Go.ToLower (fOperator filter) = "in"%string ->
  let col := fColumn filter in
  let vals := fValues filter in
  let n := argIndex st in
  (~ In VNil vals ->
   expandFilter filter st
   = Ok (mkState
           (query st
              ++ [Txt (col ++ " IN (")]
              ++ Table.placeholderList n (List.length vals)
              ++ [Txt ")"])
           (args st ++ vals)
           (n + List.length vals)))
  /\ (vals <> [] -> (forall v, In v vals -> v = VNil) ->
      expandFilter filter st = Ok (write st [Txt (col ++ " IS NULL")]))
  /\ (In VNil vals -> (exists v, In v vals /\ v <> VNil) ->
      expandFilter filter st
      = Ok (mkState
              (query st
                 ++ [Txt "("; Txt (col ++ " IN (")]
                 ++ Table.placeholderList n
                      (List.length (nonNullValues vals))
                 ++ [Txt (") OR " ++ col ++ " IS NULL"); Txt ")"])
              (args st ++ nonNullValues vals)
              (n + List.length (nonNullValues vals)))).
Proof.
  intros Hop col vals n.
  assert (Hexp : expandFilter filter st
                 = Ok (Table.emit st (Table.membership filter n))).
  { rewrite expandFilter_table. unfold Table.expansion.
    rewrite Hop. reflexivity. }
  rewrite Hexp. unfold Table.membership. fold col. fold vals.
  split; [|split].
  - intros Hnn.
    assert (Hn : Table.hasNull vals = false).
    { destruct (Table.hasNull vals) eqn:E; [|reflexivity].
      now apply hasNull_In in E. }
    rewrite Hn, (nonNullValues_all vals Hnn). reflexivity.
  - intros Hne Hall.
    assert (Hn : Table.hasNull vals = true).
    { apply hasNull_In. destruct vals as [|v r]; [contradiction|].
      rewrite <- (Hall v (or_introl eq_refl)). now left. }
    rewrite Hn, (nonNullValues_none vals Hall). simpl.
    now rewrite emit_write.
  - intros Hnull Hother.
    apply hasNull_In in Hnull. apply hasNonNull_In in Hother.
    rewrite Hnull, Hother. reflexivity.
Qed.

Lemma in_expansion_witness :
  expandFilter MoreFilters.inPlain SampleFilter.start
  = Ok (mkState
          [Txt "SELECT 1 WHERE "; Txt "status IN ("; Arg 1; Txt ", "; Arg 2;
           Txt ")"]
          [VInt 1; VInt 2] 3)
  /\ expandFilter MoreFilters.inNulls SampleFilter.start
     = Ok (write SampleFilter.start [Txt "status IS NULL"])
  /\ expandFilter MoreFilters.inMixed SampleFilter.start
     = Ok (mkState
             [Txt "SELECT 1 WHERE "; Txt "("; Txt "status IN ("; Arg 1;
              Txt ", "; Arg 2; Txt ") OR status IS NULL"; Txt ")"]
             [VInt 1; VInt 2] 3).
Proof.
  split; [|split].
  - apply (proj1 (in_expansion MoreFilters.inPlain SampleFilter.start
                    eq_refl)).
    simpl. intros [H|[H|[]]]; discriminate.
  - apply (proj1 (proj2 (in_expansion MoreFilters.inNulls
                           SampleFilter.start eq_refl))).
    + discriminate.
    + simpl. intros v [H|[]]; now subst.
  - apply (proj2 (proj2 (in_expansion MoreFilters.inMixed
                           SampleFilter.start eq_refl))).
    + simpl. tauto.
    + exists (VInt 1). split; [simpl; tauto | discriminate].
Defined.

(** X7.  For a filter whose operator is [BETWEEN] in any letter case, [n]
    being the current counter:
    - two non-NULL values first give [col BETWEEN $n AND $n+1], bind both
      and advance the counter by two; values after the second are ignored;
    - a NULL first value is an error, even when it is the only value;
    - a NULL second value is an error;
    - no value at all, or a single non-NULL value, is a panic. *)
Theorem between_expansion (filter : FilterConfig) (st : state) :
  Go.ToLower (fOperator filter) = "between"%string ->
  let col := fColumn filter in
  let n := argIndex st in
  (forall lo hi rest,
      fValues filter = lo :: hi :: rest -> lo <> VNil -> hi <> VNil ->
      expandFilter filter st
      = Ok (mkState
              (query st ++ [Txt (col ++ " BETWEEN "); Arg n; Txt " AND ";
                            Arg (n + 1)])
              (args st ++ [lo; hi])
              (n + 2)))
  /\ (forall rest, fValues filter = VNil :: rest ->
                   expandFilter filter st = Err ErrBetweenNull)
  /\ (forall lo rest, fValues filter = lo :: VNil :: rest ->
                      expandFilter filter st = Err ErrBetweenNull)
  /\ (fValues filter = [] ->
      expandFilter filter st = Panic (IndexOutOfRange 0 0))
  /\ (forall lo, fValues filter = [lo] -> lo <> VNil ->
                 expandFilter filter st = Panic (IndexOutOfRange 1 1)).
Proof.
  intros Hop col n. unfold expandFilter. rewrite Hop.
  change (String.eqb "between" "in") with false.
  change (String.eqb "between" "not in") with false.
  change (String.eqb "between" "between") with true. cbv iota.
  unfold caseBetween. repeat split.
  - intros lo hi rest -> Hlo Hhi. simpl.
    destruct lo; [contradiction|..]; destruct hi; try contradiction;
      reflexivity.
  - intros rest ->. reflexivity.
  - intros lo rest ->. simpl. now destruct lo.
  - intros ->. reflexivity.
  - intros lo -> Hlo. simpl. destruct lo; [contradiction|..]; reflexivity.
Qed.

Lemma between_expansion_witness :
  expandFilter MoreFilters.between SampleFilter.start
  = Ok (mkState
          [Txt "SELECT 1 WHERE "; Txt "total BETWEEN "; Arg 1; Txt " AND ";
           Arg 2]
          [VInt 10; VInt 20] 3)
  /\ expandFilter MoreFilters.betweenNull SampleFilter.start
     = Err ErrBetweenNull
  /\ expandFilter MoreFilters.betweenShort SampleFilter.start
     = Panic (IndexOutOfRange 1 1).
Proof.
  split; [|split].
  - apply (proj1 (between_expansion MoreFilters.between SampleFilter.start
                    eq_refl) (VInt 10) (VInt 20) []);
      [reflexivity | discriminate | discriminate].
  - apply (proj1 (proj2 (between_expansion MoreFilters.betweenNull
                           SampleFilter.start eq_refl)) []).
    reflexivity.
  - apply (proj2 (proj2 (proj2 (proj2
             (between_expansion MoreFilters.betweenShort SampleFilter.start
                eq_refl)))) (VInt 10)); [reflexivity | discriminate].
Defined.

(** X8.  For a filter whose operator is [<], [<=], [>] or [>=]: an
    absent/NULL value is an error naming the operator, whatever the value
    sequence holds; any other value gives [col OP $n] and is bound as the
    next argument. *)
Theorem ordered_expansion (filter : FilterConfig) (st : state) :
  In (fOperator filter) ["<"; "<="; ">"; ">="]%string ->
  (fValue filter = VNil ->
   expandFilter filter st = Err (ErrCompareNull (fOperator filter)))
  /\ (fValue filter <> VNil ->
      expandFilter filter st
      = Ok (mkState
              (query st ++ [Txt (fColumn filter ++ " " ++ fOperator filter
                                   ++ " ");
                            Arg (argIndex st)])
              (args st ++ [fValue filter])
              (S (argIndex st)))).
Proof.
  intros Hop.
  assert (Hexp : expandFilter filter st = caseOrdered filter st).
  { unfold expandFilter.
    destruct Hop as [H|[H|[H|[H|[]]]]]; rewrite <- H; reflexivity. }
  rewrite Hexp. unfold caseOrdered. split.
  - intros ->. reflexivity.
  - intros Hv. unfold compare, bind, write. cbn [query args argIndex].
    destruct (fValue filter); [contradiction|..]; reflexivity.
Qed.

Lemma ordered_expansion_witness :
  expandFilter MoreFilters.olderNull SampleFilter.start
  = Err (ErrCompareNull ">=")
  /\ expandFilter MoreFilters.older SampleFilter.start
     = Ok (mkState [Txt "SELECT 1 WHERE "; Txt "age >= "; Arg 1]
                   [VInt 18] 2).
Proof.
  split.
  - apply (proj1 (ordered_expansion MoreFilters.olderNull SampleFilter.start
                    (or_intror (or_intror (or_intror (or_introl eq_refl)))))).
    reflexivity.
  - apply (proj2 (ordered_expansion MoreFilters.older SampleFilter.start
                    (or_intror (or_intror (or_intror (or_introl eq_refl)))))).
    discriminate.
Defined.

Lemma eqb_not_In (s : string) (l : list string) (t : string) :
  ~ In s l -> In t l -> String.eqb s t = false.
Proof.
  intros Hn Hin. apply String.eqb_neq. intros ->. contradiction.
Qed.

(** X9.  For a filter whose operator is written in ASCII and, in lower
    case, has no case of its own in the builder (the [LIKE] family and any
    unknown operator): an absent/NULL value gives [col IS NULL], also for
    the negated operators; any other value gives [col OP $n] with the
    operator as it was written, and is bound as the next argument. *)
Theorem other_operator_expansion (filter : FilterConfig) (st : state) :
  MoreFilters.isASCII (fOperator filter) = true ->
  ~ In (Go.ToLower (fOperator filter)) MoreFilters.ownCase ->
  (fValue filter = VNil ->
   expandFilter filter st
   = Ok (write st [Txt (fColumn filter ++ " IS NULL")]))
  /\ (fValue filter <> VNil ->
      expandFilter filter st
      = Ok (mkState
              (query st ++ [Txt (fColumn filter ++ " " ++ fOperator filter
                                   ++ " ");
                            Arg (argIndex st)])
              (args st ++ [fValue filter])
              (S (argIndex st)))).
Proof.
  intros _ Hop.
  assert (Hexp : expandFilter filter st = Ok (caseNullable filter st)).
  { unfold expandFilter, oneOf. cbn [existsb].
    rewrite !(eqb_not_In _ _ _ Hop)
      by (unfold MoreFilters.ownCase; simpl; tauto).
    cbn [orb].
    match goal with
    | |- (if ?b then _ else _) = _ => destruct b
    end; reflexivity. }
  rewrite Hexp. unfold caseNullable. split.
  - intros ->. reflexivity.
  - intros Hv. unfold compare, bind, write. cbn [query args argIndex].
    destruct (fValue filter); [contradiction|..]; reflexivity.
Qed.

Lemma other_operator_expansion_witness :
  expandFilter MoreFilters.notLikeNull SampleFilter.start
  = Ok (write SampleFilter.start [Txt "name IS NULL"])
  /\ expandFilter MoreFilters.similar SampleFilter.start
     = Ok (mkState [Txt "SELECT 1 WHERE "; Txt "name SIMILAR TO "; Arg 1]
                   [VString "a%"] 2).
Proof.
  split.
  - apply (other_operator_expansion MoreFilters.notLikeNull
             SampleFilter.start).
    + reflexivity.
    + unfold MoreFilters.ownCase. simpl.
      intros H. repeat (destruct H as [H|H]; [discriminate|]). exact H.
    + reflexivity.
  - apply (other_operator_expansion MoreFilters.similar SampleFilter.start).
    + reflexivity.
    + unfold MoreFilters.ownCase. simpl.
      intros H. repeat (destruct H as [H|H]; [discriminate|]). exact H.
    + discriminate.
Defined.

(** ** What is bound and what is written *)

Lemma build_clauses (config : ChartConfig) :
  BuildChartQuery config
  = match nth_error (Tables config) 0 with
    | None => Panics (IndexOutOfRange 0 (List.length (Tables config)))
    | Some table0 =>
        match Clause.whereEmission config with
        | Ok (w, vs) =>
            Return (text (map Txt (Clause.beforePieces config table0) ++ w
                            ++ map Txt (Clause.afterPieces config)),
                    vs, None)
        | Err e => Return (""%string, [], Some e)
        | Panic p => Panics p
        end
    end.
Proof.
  unfold BuildChartQuery. rewrite buildState_clauses.
  destruct (nth_error (Tables config) 0); [|reflexivity].
  now destruct (Clause.whereEmission config) as [[w vs]|e|p].
Qed.

Lemma nonNullValues_In (vals : list value) (a : value) :
  In a (nonNullValues vals) -> a <> VNil /\ In a vals.
Proof.
  unfold nonNullValues. rewrite filter_In. intros [Hin Hn].
  split; [|assumption]. intros ->. discriminate.
Qed.

Lemma is_nil_false (v : value) : is_nil v = false -> v <> VNil.
Proof. intros H ->. discriminate. Qed.

Lemma expansion_values (filter : FilterConfig) (n : nat)
    (w : list chunk) (vs : list value) (a : value) :
  Table.expansion filter n = Ok (w, vs) ->
  In a vs ->
  a <> VNil /\ (a = fValue filter \/ In a (fValues filter)).
Proof.
  unfold Table.expansion.
  assert (Hplain : forall s, Ok (Table.plain filter s) = Ok (w, vs) ->
                             In a vs -> a <> VNil
                             /\ (a = fValue filter \/ In a (fValues filter))).
  { intros s H. injection H as <- <-. contradiction. }
  assert (Hbound : fValue filter <> VNil ->
                   Ok (Table.bound filter n) = Ok (w, vs) ->
                   In a vs -> a <> VNil
                   /\ (a = fValue filter \/ In a (fValues filter))).
  { intros Hv H. injection H as <- <-. intros [<-|[]]. now split; [|left]. }
  assert (Hnon : forall w0, Ok (w0, nonNullValues (fValues filter))
                            = Ok (w, vs) ->
                 In a vs -> a <> VNil
                 /\ (a = fValue filter \/ In a (fValues filter))).
  { intros w0 H. injection H as <- <-. intros Hin.
    apply nonNullValues_In in Hin as [Hn Hin]. now split; [|right]. }
  assert (Hnullable : Ok (Table.nullable filter n) = Ok (w, vs) ->
                      In a vs -> a <> VNil
                      /\ (a = fValue filter \/ In a (fValues filter))).
  { unfold Table.nullable. destruct (is_nil (fValue filter)) eqn:E;
      [apply Hplain | apply Hbound; now apply is_nil_false]. }
  destruct (String.eqb (Go.ToLower (fOperator filter)) "in").
  { unfold Table.membership.
    destruct (Table.hasNull (fValues filter)
              && Table.hasNonNull (fValues filter)); [apply Hnon|].
    destruct (Table.hasNull (fValues filter)); [apply Hplain | apply Hnon]. }
  destruct (String.eqb (Go.ToLower (fOperator filter)) "not in").
  { unfold Table.exclusion.
    destruct (Table.hasNull (fValues filter)
              && Table.hasNonNull (fValues filter)); [apply Hnon|].
    destruct (Table.hasNull (fValues filter)); [apply Hplain | apply Hnon]. }
  destruct (String.eqb (Go.ToLower (fOperator filter)) "between").
  { destruct (fValues filter) as [|lo [|hi r]]; [discriminate| |].
    - destruct (is_nil lo); discriminate.
    - destruct (is_nil lo) eqn:El; [discriminate|].
      destruct (is_nil hi) eqn:Eh; [discriminate|].
      cbn [orb]. intros H. injection H as <- <-.
      intros [<-|[<-|[]]].
      + split; [now apply is_nil_false | right; now left].
      + split; [now apply is_nil_false | right; right; now left]. }
  destruct (oneOf (Go.ToLower (fOperator filter)) ["="; "!="; "<>"]).
  { unfold Table.equality.
    destruct (fValue filter) as [|s|b|z] eqn:Ev; [apply Hplain| | |].
    - destruct (Table.boolLiteral (VString s)) as [[|]|];
        [apply Hplain | apply Hplain | apply Hbound; discriminate].
    - destruct (Table.boolLiteral (VBool b)) as [[|]|];
        [apply Hplain | apply Hplain | apply Hbound; discriminate].
    - apply Hbound. discriminate. }
  destruct (String.eqb (Go.ToLower (fOperator filter)) "is null");
    [apply Hplain|].
  destruct (String.eqb (Go.ToLower (fOperator filter)) "is not null");
    [apply Hplain|].
  destruct (oneOf (Go.ToLower (fOperator filter)) ["<"; "<="; ">"; ">="]).
  { destruct (is_nil (fValue filter)) eqn:E; [discriminate|].
    apply Hbound. now apply is_nil_false. }
  apply Hnullable.
Qed.

Lemma conjunction_values (filters : list FilterConfig) (i n : nat)
    (w : list chunk) (vs : list value) (a : value) :
  Clause.conjunction i n filters = Ok (w, vs) ->
  In a vs ->
  a <> VNil
  /\ exists f, In f filters /\ (a = fValue f \/ In a (fValues f)).
Proof.
  revert i n w vs. induction filters as [|f r IH]; intros i n w vs; simpl.
  - intros H. injection H as <- <-. contradiction.
  - destruct (Table.expansion f n) as [[w1 vs1]|e|p] eqn:E1;
      [|discriminate|discriminate].
    destruct (Clause.conjunction (S i) (n + List.length vs1) r)
      as [[w2 vs2]|e|p] eqn:E2; [|discriminate|discriminate].
    intros H. injection H as <- <-. intros Hin.
    apply in_app_or in Hin as [Hin|Hin].
    + destruct (expansion_values _ _ _ _ _ E1 Hin) as [Hn Hf].
      split; [assumption|]. exists f. split; [now left | assumption].
    + destruct (IH _ _ _ _ E2 Hin) as [Hn (g & Hg & Hf)].
      split; [assumption|]. exists g. split; [now right | assumption].
Qed.

(** X10.  Every argument returned by a successful build is a value of one
    of the filters, either its scalar value or one of its value sequence,
    and it is never NULL: NULL is always spelled in the SQL text, never
    bound. *)
Theorem arguments_are_filter_values (config : ChartConfig) (sql : string)
    (arguments : list value) (a : value) :
  BuildChartQuery config = Return (sql, arguments, None) ->
  In a arguments ->
  a <> VNil
  /\ exists f, In f (Filters config)
               /\ (a = fValue f \/ In a (fValues f)).
Proof.
  rewrite build_clauses.
  destruct (nth_error (Tables config) 0); [|discriminate].
  unfold Clause.whereEmission.
  destruct (Filters config) as [|f r] eqn:Ef.
  - intros H. injection H as _ <-. contradiction.
  - destruct (Clause.conjunction 0 1 (f :: r)) as [[w vs]|e|p] eqn:E;
      [|discriminate|discriminate].
    intros H. injection H as _ <-.
    apply (conjunction_values _ _ _ _ _ _ E).
Qed.

Lemma arguments_are_filter_values_witness :
  VInt 20 <> VNil
  /\ exists f, In f (Filters Mixed.config)
               /\ (VInt 20 = fValue f \/ In (VInt 20) (fValues f)).
Proof.
  apply (arguments_are_filter_values Mixed.config Mixed.sql Mixed.arguments).
  - reflexivity.
  - simpl. tauto.
Defined.

(** ** The SQL text does not depend on the values bound *)

Lemma hasNull_shape (a b : list value) :
  map is_nil a = map is_nil b ->
  Table.hasNull a = Table.hasNull b
  /\ Table.hasNonNull a = Table.hasNonNull b
  /\ List.length (nonNullValues a) = List.length (nonNullValues b).
Proof.
  unfold Table.hasNull, Table.hasNonNull, nonNullValues.
  revert b. induction a as [|x a IH]; intros [|y b] H; try discriminate.
  - repeat split.
  - simpl in H. injection H as Hxy Hab.
    destruct (IH b Hab) as (H1 & H2 & H3).
    simpl. rewrite Hxy, H1, H2.
    destruct (is_nil y); simpl; now rewrite ?H3.
Qed.

Lemma expansion_shape (f g : FilterConfig) (n : nat) :
  Depends.sameShape f g ->
  Depends.sameWritten (Table.expansion f n) (Table.expansion g n).
Proof.
  intros (Hc & Ho & Hn & Hb & Hv).
  destruct (hasNull_shape _ _ Hv) as (Hh & Hnn & Hl).
  assert (Hbound : Depends.sameWritten (Ok (Table.bound f n))
                               (Ok (Table.bound g n))).
  { unfold Table.bound. rewrite Hc, Ho. now split. }
  assert (Hplain : forall s, Depends.sameWritten (Ok (Table.plain f s))
                                         (Ok (Table.plain g s))).
  { intros s. unfold Table.plain. rewrite Hc. now split. }
  unfold Table.expansion. rewrite <- Ho.
  destruct (String.eqb (Go.ToLower (fOperator f)) "in").
  { unfold Table.membership. rewrite <- Hh, <- Hnn, <- Hl, <- Hc.
    destruct (Table.hasNull (fValues f) && Table.hasNonNull (fValues f));
      [now split|].
    destruct (Table.hasNull (fValues f)); [apply Hplain|].
    now split. }
  destruct (String.eqb (Go.ToLower (fOperator f)) "not in").
  { unfold Table.exclusion. rewrite <- Hh, <- Hnn, <- Hl, <- Hc.
    destruct (Table.hasNull (fValues f) && Table.hasNonNull (fValues f));
      [now split|].
    destruct (Table.hasNull (fValues f)); [apply Hplain|].
    now split. }
  destruct (String.eqb (Go.ToLower (fOperator f)) "between").
  { destruct (fValues f) as [|lo [|hi r]], (fValues g) as [|lo' [|hi' r']];
      try discriminate; simpl in Hv.
    - reflexivity.
    - injection Hv as Hlo. rewrite <- Hlo.
      destruct (is_nil lo); reflexivity.
    - injection Hv as Hlo Hhi _. rewrite <- Hlo, <- Hhi.
      destruct (is_nil lo || is_nil hi); [reflexivity|].
      unfold Table.range. rewrite Hc. now split. }
  destruct (oneOf (Go.ToLower (fOperator f)) ["="; "!="; "<>"]).
  { unfold Table.equality. rewrite <- Ho.
    destruct (fValue f) eqn:Ef, (fValue g) eqn:Eg;
      rewrite ?Ef, ?Eg in Hn, Hb; simpl in Hn; try discriminate;
      try apply Hplain;
      rewrite <- Hb; destruct (Table.boolLiteral _) as [[|]|];
      solve [apply Hplain | apply Hbound]. }
  destruct (String.eqb (Go.ToLower (fOperator f)) "is null");
    [apply Hplain|].
  destruct (String.eqb (Go.ToLower (fOperator f)) "is not null");
    [apply Hplain|].
  destruct (oneOf (Go.ToLower (fOperator f)) ["<"; "<="; ">"; ">="]).
  { rewrite <- Hn. destruct (is_nil (fValue f)); [|apply Hbound].
    simpl. now rewrite Ho. }
  unfold Table.nullable. rewrite <- Hn.
  destruct (is_nil (fValue f)); [apply Hplain | apply Hbound].
Qed.

Lemma conjunction_shape (fs gs : list FilterConfig) (i n : nat) :
  Forall2 Depends.sameShape fs gs ->
  Depends.sameWritten (Clause.conjunction i n fs) (Clause.conjunction i n gs).
Proof.
  intros H. revert i n. induction H as [|f g fs gs Hfg _ IH]; intros i n.
  - simpl. now split.
  - cbn [Clause.conjunction].
    pose proof (expansion_shape f g n Hfg) as He.
    destruct (Table.expansion f n) as [[w vs]|e|p],
             (Table.expansion g n) as [[w' vs']|e'|p'];
      try contradiction; try exact He.
    destruct He as [<- Hl]. rewrite <- Hl.
    specialize (IH (S i) (n + List.length vs)).
    destruct (Clause.conjunction (S i) (n + List.length vs) fs)
      as [[w2 vs2]|e|p],
      (Clause.conjunction (S i) (n + List.length vs) gs)
      as [[w2' vs2']|e'|p'];
      try contradiction; try exact IH.
    destruct IH as [<- Hl2]. split; [reflexivity|].
    now rewrite !length_app, Hl, Hl2.
Qed.

(** X11.  The SQL text does not depend on the values the filters bind.
    Replacing the filters of a configuration by filters with the same
    columns and operators, NULL at the same places and the same booleans
    spelled, gives the same SQL text, as many arguments and the same error
    or panic: a bound value never reaches the text. *)
Theorem sql_independent_of_bound_values (config : ChartConfig)
    (filters : list FilterConfig) :
  Forall2 Depends.sameShape (Filters config) filters ->
  match BuildChartQuery config,
        BuildChartQuery (Depends.withFilters config filters) with
  | Return (sql, arguments, e), Return (sql', arguments', e') =>
      sql = sql' /\ List.length arguments = List.length arguments' /\ e = e'
  | Panics p, Panics p' => p = p'
  | _, _ => False
  end.
Proof.
  intros H. rewrite !build_clauses.
  change (Tables (Depends.withFilters config filters)) with (Tables config).
  destruct (nth_error (Tables config) 0) as [table0|]; [|reflexivity].
  change (Clause.beforePieces (Depends.withFilters config filters) table0)
    with (Clause.beforePieces config table0).
  change (Clause.afterPieces (Depends.withFilters config filters))
    with (Clause.afterPieces config).
  unfold Clause.whereEmission.
  change (Filters (Depends.withFilters config filters)) with filters.
  pose proof (conjunction_shape _ _ 0 1 H) as Hc.
  destruct H as [|f g fs gs Hfg Hr]; [now repeat split|].
  destruct (Clause.conjunction 0 1 (f :: fs)) as [[w vs]|e|p],
           (Clause.conjunction 0 1 (g :: gs)) as [[w' vs']|e'|p'];
    try contradiction.
  - destruct Hc as [<- Hl]. now repeat split.
  - cbn in Hc. subst e'. now repeat split.
  - exact Hc.
Qed.

Lemma sql_independent_of_bound_values_witness :
  match BuildChartQuery Mixed.config,
        BuildChartQuery (Depends.withFilters Mixed.config Depends.otherValues)
  with
  | Return (sql, arguments, e), Return (sql', arguments', e') =>
      sql = sql' /\ List.length arguments = List.length arguments' /\ e = e'
  | Panics p, Panics p' => p = p'
  | _, _ => False
  end.
Proof.
  apply (sql_independent_of_bound_values Mixed.config Depends.otherValues).
  repeat constructor.
Defined.

(** ** What the builder does not read *)

Lemma yAxisPieces_key (ys ys' : list AxisConfig) (i : nat) :
  map Depends.axisKey ys = map Depends.axisKey ys' ->
  Clause.yAxisPieces i ys = Clause.yAxisPieces i ys'.
Proof.
  revert ys' i. induction ys as [|y r IH]; intros [|y' r'] i H;
    try discriminate; [reflexivity|].
  simpl in H. injection H as Hc Ha Hr.
  cbn [Clause.yAxisPieces]. rewrite (IH r' (S i) Hr).
  unfold yAxisTerm. now rewrite Hc, Ha.
Qed.

(** X12.  The SQL and the arguments depend on the tables, on the column
    and the aggregation of each axis, on the group-by expressions, the
    filters, the limit and the order-by list, and on nothing else: chart
    kind, title, description, options and the label, data type, format and
    alias of the axes are never read by the builder. *)
Theorem build_ignores_presentation (c d : ChartConfig) :
  Depends.sameQuery c d -> BuildChartQuery c = BuildChartQuery d.
Proof.
  intros (Ht & Hx & Hy & Hg & Hf & Hl & Ho).
  rewrite !build_clauses, <- Ht.
  destruct (nth_error (Tables c) 0) as [table0|]; [|reflexivity].
  assert (Hw : Clause.whereEmission c = Clause.whereEmission d)
    by (unfold Clause.whereEmission; now rewrite Hf).
  assert (Hb : Clause.beforePieces c table0 = Clause.beforePieces d table0).
  { unfold Clause.beforePieces, Clause.selectPieces.
    rewrite <- Ht, (yAxisPieces_key _ _ 0 Hy).
    unfold Depends.axisKey in Hx. injection Hx as Hc Ha.
    unfold xAxisTerm. now rewrite Hc, Ha. }
  assert (Ha : Clause.afterPieces c = Clause.afterPieces d).
  { unfold Clause.afterPieces, Clause.groupByPieces, Clause.orderByPieces,
      Clause.limitPieces. now rewrite Hg, Ho, Hl. }
  now rewrite Hw, Hb, Ha.
Qed.

Lemma build_ignores_presentation_witness :
  BuildChartQuery Mixed.config = BuildChartQuery Depends.restyled.
Proof.
  apply (build_ignores_presentation Mixed.config Depends.restyled).
  repeat split.
Defined.

(** ** When the builder panics *)

Lemma expansion_safe (filter : FilterConfig) (n : nat) :
  Depends.betweenSafe filter ->
  forall p, Table.expansion filter n <> Panic p.
Proof.
  intros Hs p. unfold Table.expansion.
  destruct (String.eqb (Go.ToLower (fOperator filter)) "in");
    [discriminate|].
  destruct (String.eqb (Go.ToLower (fOperator filter)) "not in");
    [discriminate|].
  destruct (String.eqb (Go.ToLower (fOperator filter)) "between") eqn:Eb.
  { apply String.eqb_eq in Eb. destruct (Hs Eb) as [Hl|[rest Hr]].
    - destruct (fValues filter) as [|lo [|hi r]]; simpl in Hl; try lia.
      destruct (is_nil lo || is_nil hi); discriminate.
    - rewrite Hr. destruct rest; [discriminate|].
      cbn [is_nil orb]. discriminate. }
  destruct (oneOf (Go.ToLower (fOperator filter)) ["="; "!="; "<>"]);
    [discriminate|].
  destruct (String.eqb (Go.ToLower (fOperator filter)) "is null");
    [discriminate|].
  destruct (String.eqb (Go.ToLower (fOperator filter)) "is not null");
    [discriminate|].
  destruct (oneOf (Go.ToLower (fOperator filter)) ["<"; "<="; ">"; ">="]);
    [|discriminate].
  destruct (is_nil (fValue filter)); discriminate.
Qed.

Lemma conjunction_safe (filters : list FilterConfig) (i n : nat) :
  Forall Depends.betweenSafe filters ->
  forall p, Clause.conjunction i n filters <> Panic p.
Proof.
  intros H. revert i n. induction H as [|f r Hf _ IH]; intros i n p.
  - discriminate.
  - cbn [Clause.conjunction].
    pose proof (expansion_safe f n Hf) as He.
    destruct (Table.expansion f n) as [[w vs]|e|p']; [|discriminate|].
    + specialize (IH (S i) (n + List.length vs)).
      destruct (Clause.conjunction (S i) (n + List.length vs) r)
        as [[w' vs']|e|p']; [discriminate | discriminate|].
      now destruct (IH p').
    + now destruct (He p').
Qed.

(** X13.  Called directly, the builder panics on a configuration without
    table, whatever else it holds.  With at least one table it returns,
    SQL or error, as soon as every filter taking the [BETWEEN] case has
    two values or a NULL first value. *)
Theorem build_panics_without_table (config : ChartConfig) :
  (Tables config = [] ->
   BuildChartQuery config = Panics (IndexOutOfRange 0 0))
  /\ (Tables config <> [] ->
      Forall Depends.betweenSafe (Filters config) ->
      exists sql arguments e,
        BuildChartQuery config = Return (sql, arguments, e)).
Proof.
  rewrite build_clauses. split.
  - intros ->. reflexivity.
  - intros Ht Hs. destruct (Tables config) as [|t r]; [contradiction|].
    cbn [nth_error]. unfold Clause.whereEmission.
    destruct (Filters config) as [|f fs] eqn:Ef; [eauto|].
    pose proof (conjunction_safe (f :: fs) 0 1 Hs) as Hc.
    destruct (Clause.conjunction 0 1 (f :: fs)) as [[w vs]|e|p]; eauto.
    now destruct (Hc p).
Qed.

Lemma build_panics_without_table_witness :
  BuildChartQuery (Sample.chart "line" "Sales" [] (Sample.axis "x" "") [])
  = Panics (IndexOutOfRange 0 0)
  /\ exists sql arguments e,
       BuildChartQuery Mixed.config = Return (sql, arguments, e).
Proof.
  split.
  - apply (build_panics_without_table
             (Sample.chart "line" "Sales" [] (Sample.axis "x" "") [])).
    reflexivity.
  - apply (build_panics_without_table Mixed.config); [discriminate|].
    unfold Mixed.config, Mixed.filters. cbn [Filters].
    repeat (apply Forall_cons;
            [intros H; vm_compute in H;
             first [discriminate H | left; simpl; lia]|]).
    apply Forall_nil.
Defined.

(** ** The entry point on structured filters *)

(** X14.  On a configuration whose filters are all structured, [ToSql]
    never panics.  It returns the validation error when validation fails;
    otherwise an error with empty SQL and no argument when a filter uses
    [BETWEEN] with a NULL bound or an ordered comparison with a NULL value;
    otherwise SQL, arguments and no error. *)
Theorem ToSql_structured (config : ChartConfig) :
  Forall Failure.structured (Filters config) ->
  match validateChartConfig config with
  | Some e => ToSql config = Return (""%string, [], Some e)
  | None =>
      if Failure.nullMisuse config
      then exists e, ToSql config = Return (""%string, [], Some e)
      else exists sql arguments,
             ToSql config = Return (sql, arguments, None)
  end.
Proof.
  intros Hs. destruct (validateChartConfig config) as [e|] eqn:Hv.
  - now apply ToSql_rejected.
  - rewrite (ToSql_validated config Hv).
    apply (structured_build_outcome (normalize config)
             (normalize_validated config Hv) Hs).
Qed.

Lemma ToSql_structured_witness :
  exists sql arguments, ToSql Mixed.config = Return (sql, arguments, None).
Proof.
  apply (ToSql_structured Mixed.config).
  repeat constructor.
Defined.

(** ** The validator, declaratively *)

Lemma forRange_None_iff {A : Type} (body : nat -> A -> option error)
    (P : A -> Prop) (l : list A) :
  (forall i x, body i x = None <-> P x) ->
  forall i, forRange body i l = None <-> Forall P l.
Proof.
  intros Hb. induction l as [|x r IH]; intros i; simpl.
  - split; [constructor | reflexivity].
  - destruct (body i x) eqn:E.
    + split; [discriminate|]. intros H. inversion H as [|? ? Hx _]; subst.
      apply (Hb i) in Hx. congruence.
    + rewrite IH. split.
      * intros H. constructor; [now apply (Hb i) | assumption].
      * intros H. now inversion H.
Qed.

Lemma validateJoinConfig_accepts (j : JoinConfig) (i k : nat) :
  validateJoinConfig j i k = None <-> Valid.join j.
Proof.
  unfold validateJoinConfig, Valid.join.
  destruct (isEmpty (jTable j)) eqn:Et.
  { apply isEmpty_true in Et. split; [discriminate | tauto]. }
  apply isEmpty_false in Et.
  destruct (isEmpty (jCondition j)) eqn:Ec.
  { apply isEmpty_true in Ec. split; [discriminate | tauto]. }
  apply isEmpty_false in Ec.
  destruct (isEmpty (jType j)) eqn:Ety.
  { apply isEmpty_true in Ety. cbn [negb andb]. tauto. }
  apply isEmpty_false in Ety. cbn [negb andb].
  destruct (contains validJoinTypes (jType j)) eqn:Ev; cbn [negb].
  - apply contains_In in Ev. tauto.
  - split; [discriminate|]. intros (_ & _ & [H|H]); [contradiction|].
    apply contains_In in H. congruence.
Qed.

Lemma validateTable_accepts (i : nat) (t : TableConfig) :
  validateTable i t = None <-> Valid.table t.
Proof.
  unfold validateTable, Valid.table.
  destruct (isEmpty (tName t)) eqn:En.
  { apply isEmpty_true in En. split; [discriminate | tauto]. }
  apply isEmpty_false in En.
  rewrite (forRange_None_iff _ Valid.join)
    by (intros k j; apply validateJoinConfig_accepts).
  tauto.
Qed.

Lemma validateYAxis_accepts (i : nat) (y : AxisConfig) :
  validateYAxis i y = None <-> Valid.yAxis y.
Proof.
  unfold validateYAxis, Valid.yAxis.
  destruct (isEmpty (aColumn y)) eqn:Ec.
  { apply isEmpty_true in Ec. split; [discriminate | tauto]. }
  apply isEmpty_false in Ec.
  destruct (isEmpty (aAggregation y)) eqn:Ea.
  { apply isEmpty_true in Ea. cbn [negb andb]. tauto. }
  apply isEmpty_false in Ea. cbn [negb andb].
  destruct (contains validAggregations (aAggregation y)) eqn:Ev; cbn [negb].
  - apply contains_In in Ev. tauto.
  - split; [discriminate|]. intros (_ & [H|H]); [contradiction|].
    apply contains_In in H. congruence.
Qed.

(** X15.  The validator accepts a configuration exactly when: its chart
    kind is one of the six; it has a title, a table and a y-axis; every
    table has a name and every join a table, a condition and a kind that is
    empty or one of the four; the x-axis has a column; every y-axis has a
    column and an aggregation that is empty or one of the five; and every
    filter is a raw predicate or has a column, one of the ten operators and
    the values its operator asks for. *)
Theorem validateChartConfig_accepts (c : ChartConfig) :
  validateChartConfig c = None <-> Valid.config c.
Proof.
  unfold validateChartConfig, Valid.config.
  destruct (isEmpty (ChartType c)) eqn:Ek.
  { apply isEmpty_true in Ek. split; [discriminate|].
    intros (H & _). rewrite Ek in H. simpl in H.
    repeat (destruct H as [H|H]; [discriminate|]). contradiction. }
  destruct (isEmpty (Title c)) eqn:Et.
  { apply isEmpty_true in Et. split; [discriminate | tauto]. }
  apply isEmpty_false in Et.
  destruct (Tables c) as [|t ts] eqn:Ets.
  { split; [discriminate | tauto]. }
  destruct (YAxis c) as [|y ys] eqn:Eys.
  { split; [discriminate | tauto]. }
  cbn [List.length Nat.eqb].
  destruct (contains validChartTypes (ChartType c)) eqn:Ev; cbn [negb].
  2:{ split; [discriminate|]. intros (H & _).
      apply contains_In in H. congruence. }
  apply contains_In in Ev.
  pose proof (forRange_None_iff validateTable Valid.table (t :: ts)
                validateTable_accepts 0) as Htab.
  destruct (forRange validateTable 0 (t :: ts)).
  { split; [discriminate|]. intros (_ & _ & _ & _ & H & _).
    apply Htab in H. discriminate. }
  destruct (isEmpty (aColumn (XAxis c))) eqn:Ex.
  { apply isEmpty_true in Ex. split; [discriminate | tauto]. }
  apply isEmpty_false in Ex.
  pose proof (forRange_None_iff validateYAxis Valid.yAxis (y :: ys)
                validateYAxis_accepts 0) as Hy.
  destruct (forRange validateYAxis 0 (y :: ys)).
  { split; [discriminate|]. intros (_ & _ & _ & _ & _ & _ & H & _).
    apply Hy in H. discriminate. }
  rewrite (forRange_None_iff (fun i f => validateFilter f i) Valid.filter)
    by (intros i f; apply validateFilter_accepts).
  assert (Ht1 : Forall Valid.table (t :: ts)) by now apply Htab.
  assert (Hy1 : Forall Valid.yAxis (y :: ys)) by now apply Hy.
  split.
  - intros H. repeat split; try assumption; discriminate.
  - tauto.
Qed.

(** ** What a validation error points at *)

Lemma forRange_Some {A : Type} (body : nat -> A -> option error)
    (l : list A) (i : nat) (e : error) :
  forRange body i l = Some e ->
  exists k x, nth_error l k = Some x /\ body (i + k) x = Some e.
Proof.
  revert i. induction l as [|x r IH]; intros i; simpl; [discriminate|].
  destruct (body i x) eqn:E.
  - intros H. injection H as <-. exists 0, x.
    now rewrite Nat.add_0_r.
  - intros H. destruct (IH (S i) H) as (k & y & Hk & Hy).
    exists (S k), y. split; [assumption|]. now rewrite Nat.add_succ_r.
Qed.

Lemma validateJoinConfig_Some (j : JoinConfig) (i k : nat) (e : error) :
  validateJoinConfig j i k = Some e ->
  (e = ErrJoinTable i k /\ jTable j = ""%string)
  \/ (e = ErrJoinCondition i k /\ jCondition j = ""%string)
  \/ (e = ErrJoinType (jType j) i k /\ jType j <> ""%string
      /\ ~ In (jType j) validJoinTypes).
Proof.
  unfold validateJoinConfig.
  destruct (isEmpty (jTable j)) eqn:Et.
  { apply isEmpty_true in Et. intros H. injection H as <-. now left. }
  destruct (isEmpty (jCondition j)) eqn:Ec.
  { apply isEmpty_true in Ec. intros H. injection H as <-.
    right. now left. }
  destruct (isEmpty (jType j)) eqn:Ety; cbn [negb andb]; [discriminate|].
  apply isEmpty_false in Ety.
  destruct (contains validJoinTypes (jType j)) eqn:Ev; cbn [negb];
    [discriminate|].
  intros H. injection H as <-. right. right.
  repeat split; [assumption|]. intros Hin. apply contains_In in Hin.
  congruence.
Qed.

Lemma validateFilter_Some (f : FilterConfig) (i : nat) (e : error) :
  validateFilter f i = Some e ->
  fRaw f = ""%string
  /\ ((e = ErrFilterColumn i /\ fColumn f = ""%string)
      \/ (e = ErrFilterOperator i /\ fOperator f = ""%string)
      \/ (e = ErrInvalidOperator (fOperator f) i
          /\ ~ In (fOperator f) validOperators)
      \/ (e = ErrInValues i /\ fOperator f = "IN"%string
          /\ fValues f = [])
      \/ (e = ErrBetweenValues i /\ fOperator f = "BETWEEN"%string
          /\ List.length (fValues f) <> 2)
      \/ (e = ErrFilterValue (fOperator f) i /\ fValue f = VNil
          /\ fValues f = [])).
Proof.
  unfold validateFilter.
  destruct (isEmpty (fRaw f)) eqn:Er; cbn [negb]; [|discriminate].
  apply isEmpty_true in Er. intros H. split; [assumption|]. revert H.
  destruct (isEmpty (fColumn f)) eqn:Ec.
  { apply isEmpty_true in Ec. intros H. injection H as <-. now left. }
  destruct (isEmpty (fOperator f)) eqn:Eo.
  { apply isEmpty_true in Eo. intros H. injection H as <-.
    right. now left. }
  destruct (contains validOperators (fOperator f)) eqn:Ev; cbn [negb].
  2:{ intros H. injection H as <-. right. right. left.
      split; [reflexivity|]. intros Hin. apply contains_In in Hin.
      congruence. }
  destruct (String.eqb (fOperator f) "IN") eqn:Ein.
  { apply String.eqb_eq in Ein.
    destruct (fValues f) as [|v r]; cbn [List.length Nat.eqb];
      [|discriminate].
    intros H. injection H as <-. do 3 right. left. now repeat split. }
  destruct (String.eqb (fOperator f) "BETWEEN") eqn:Eb.
  { apply String.eqb_eq in Eb.
    destruct (Nat.eqb (List.length (fValues f)) 2) eqn:El; cbn [negb];
      [discriminate|].
    apply Nat.eqb_neq in El. intros H. injection H as <-.
    do 4 right. left. now repeat split. }
  destruct (String.eqb (fOperator f) "IS"); [discriminate|].
  destruct (fValue f); cbn [is_nil andb]; try discriminate.
  destruct (fValues f) as [|v r]; cbn [List.length Nat.eqb];
    [|discriminate].
  intros H. injection H as <-. do 5 right. now repeat split.
Qed.

(** X16.  Every error of the validator names an element that exists and
    has the defect reported: the table, join, y-axis or filter at the
    index given is there, and it is the one with the empty name, the
    missing condition, the unknown kind, aggregation or operator, or the
    missing values.  The validator never returns one of the builder's
    errors. *)
Theorem validation_error_locates (c : ChartConfig) (e : error) :
  validateChartConfig c = Some e -> Valid.locates c e.
Proof.
  unfold validateChartConfig.
  destruct (isEmpty (ChartType c)) eqn:Ek.
  { apply isEmpty_true in Ek. intros H. now injection H as <-. }
  destruct (isEmpty (Title c)) eqn:Et.
  { apply isEmpty_true in Et. intros H. now injection H as <-. }
  destruct (Tables c) as [|t0 ts] eqn:Ets.
  { intros H. now injection H as <-. }
  destruct (YAxis c) as [|y0 ys] eqn:Eys.
  { intros H. now injection H as <-. }
  cbn [List.length Nat.eqb].
  destruct (contains validChartTypes (ChartType c)) eqn:Ev; cbn [negb].
  2:{ intros H. injection H as <-. split; [reflexivity|].
      intros Hin. apply contains_In in Hin. congruence. }
  destruct (forRange validateTable 0 (t0 :: ts)) as [e1|] eqn:E1.
  { intros H. injection H as <-.
    apply forRange_Some in E1 as (i & t & Hi & Ht). cbn [Nat.add] in Ht.
    unfold validateTable in Ht.
    destruct (isEmpty (tName t)) eqn:En.
    - apply isEmpty_true in En. injection Ht as <-. cbn [Valid.locates].
      rewrite Ets. now exists t.
    - apply forRange_Some in Ht as (k & j & Hk & Hj). cbn [Nat.add] in Hj.
      apply validateJoinConfig_Some in Hj
        as [[-> Hj]|[[-> Hj]|[-> [Hj1 Hj2]]]];
        cbn [Valid.locates]; rewrite Ets; exists t, j; now repeat split. }
  destruct (isEmpty (aColumn (XAxis c))) eqn:Ex.
  { apply isEmpty_true in Ex. intros H. now injection H as <-. }
  destruct (forRange validateYAxis 0 (y0 :: ys)) as [e2|] eqn:E2.
  { intros H. injection H as <-.
    apply forRange_Some in E2 as (i & y & Hi & Hy). cbn [Nat.add] in Hy.
    unfold validateYAxis in Hy.
    destruct (isEmpty (aColumn y)) eqn:Ec.
    - apply isEmpty_true in Ec. injection Hy as <-. cbn [Valid.locates].
      rewrite Eys. now exists y.
    - destruct (isEmpty (aAggregation y)) eqn:Ea; cbn [negb andb] in Hy;
        [discriminate|].
      apply isEmpty_false in Ea.
      destruct (contains validAggregations (aAggregation y)) eqn:Eagg;
        cbn [negb] in Hy; [discriminate|].
      injection Hy as <-. cbn [Valid.locates]. rewrite Eys. exists y.
      repeat split; try assumption.
      intros Hin. apply contains_In in Hin. congruence. }
  intros H. apply forRange_Some in H as (i & f & Hi & Hf).
  cbn [Nat.add] in Hf.
  apply validateFilter_Some in Hf
    as [Hraw [[-> H]|[[-> H]|[[-> H]|[[-> H]|[[-> H]|[-> H]]]]]]];
    cbn [Valid.locates]; exists f; tauto.
Qed.

Lemma validation_error_locates_witness :
  exists f, nth_error (Filters Valid.thirdFilter) 2 = Some f
            /\ fRaw f = ""%string /\ fOperator f = "IN"%string
            /\ fValues f = [].
Proof.
  apply (validation_error_locates Valid.thirdFilter (ErrInValues 2)).
  reflexivity.
Defined.

(** ** Normalisation *)

Lemma lower_byte_idempotent (c : ascii) :
  Go.lower_byte (Go.lower_byte c) = Go.lower_byte c.
Proof. destruct c as [[] [] [] [] [] [] [] []]; reflexivity. Qed.

Lemma ToLower_idempotent (s : string) :
  Go.ToLower (Go.ToLower s) = Go.ToLower s.
Proof.
  induction s as [|c r IH]; simpl; [reflexivity|].
  now rewrite lower_byte_idempotent, IH.
Qed.

Lemma defaultJoinType_idempotent (j : JoinConfig) :
  defaultJoinType (defaultJoinType j) = defaultJoinType j.
Proof.
  unfold defaultJoinType at 2 3.
  destruct (isEmpty (jType j)) eqn:E; [reflexivity|].
  unfold defaultJoinType. now rewrite E.
Qed.

Lemma defaultDirection_idempotent (o : OrderConfig) :
  defaultDirection (defaultDirection o) = defaultDirection o.
Proof.
  unfold defaultDirection at 2 3.
  destruct (isEmpty (oDirection o)) eqn:E; [reflexivity|].
  unfold defaultDirection. now rewrite E.
Qed.

Lemma defaultOptions_idempotent (o : ChartOptions) :
  defaultOptions (defaultOptions o) = defaultOptions o.
Proof.
  unfold defaultOptions. cbn [Width Height Theme Stacked ShowLegend ShowGrid
                              DateFormat TimeInterval Colors].
  destruct (Z.eqb (Width o) 0) eqn:Ew, (Z.eqb (Height o) 0) eqn:Eh,
           (isEmpty (Theme o)) eqn:Et;
    cbn; rewrite ?Ew, ?Eh, ?Et; reflexivity.
Qed.

Lemma normalize_idempotent (c : ChartConfig) :
  normalize (normalize c) = normalize c.
Proof.
  unfold normalize.
  cbn [ChartType Title Description Tables XAxis YAxis GroupBy Filters
       Options Limit OrderBy].
  rewrite ToLower_idempotent, defaultOptions_idempotent, !map_map.
  f_equal.
  - apply map_ext. intros t. unfold defaultJoins. cbn [tName tAlias tJoins].
    rewrite map_map. f_equal. apply map_ext.
    apply defaultJoinType_idempotent.
  - apply map_ext. apply defaultDirection_idempotent.
Qed.

(** X17.  [ValidateAndNormalizeConfig] is idempotent: the configuration it
    leaves after a success is accepted again and is not changed by a second
    call. *)
Theorem ValidateAndNormalizeConfig_idempotent (c c' : ChartConfig) :
  ValidateAndNormalizeConfig c = (None, c') ->
  ValidateAndNormalizeConfig c' = (None, c').
Proof.
  unfold ValidateAndNormalizeConfig.
  destruct (validateChartConfig c) eqn:Hv; [discriminate|].
  intros H. injection H as <-.
  now rewrite (normalize_validated c Hv), normalize_idempotent.
Qed.

Lemma ValidateAndNormalizeConfig_idempotent_witness :
  ValidateAndNormalizeConfig (normalize Valid.bare)
  = (None, normalize Valid.bare).
Proof.
  apply (ValidateAndNormalizeConfig_idempotent Valid.bare). reflexivity.
Defined.

Lemma validated_tables (c : ChartConfig) :
  validateChartConfig c = None -> Forall Valid.table (Tables c).
Proof.
  unfold validateChartConfig.
  destruct (isEmpty (ChartType c)); [discriminate|].
  destruct (isEmpty (Title c)); [discriminate|].
  destruct (Nat.eqb (List.length (Tables c)) 0); [discriminate|].
  destruct (Nat.eqb (List.length (YAxis c)) 0); [discriminate|].
  destruct (negb (contains validChartTypes (ChartType c))); [discriminate|].
  destruct (forRange validateTable 0 (Tables c)) eqn:E; [discriminate|].
  intros _.
  now apply (forRange_None_iff validateTable Valid.table (Tables c)
               validateTable_accepts 0).
Qed.

Lemma defaultJoinType_kind (j : JoinConfig) :
  Valid.join j -> In (jType (defaultJoinType j)) validJoinTypes.
Proof.
  intros (_ & _ & Hk). unfold defaultJoinType.
  destruct (isEmpty (jType j)) eqn:E.
  - cbn [jType]. unfold validJoinTypes. simpl. tauto.
  - apply isEmpty_false in E. destruct Hk as [Hk|Hk];
      [contradiction | assumption].
Qed.

(** X18.  After a successful [ValidateAndNormalizeConfig] every join has
    one of the four kinds, every order has a direction, width and height
    are not zero and the theme is not empty; the chart kind, the title,
    the axes, the group-by list, the filters, the limit, the names of the
    tables and the columns of the order-by list are those given. *)
Theorem normalization_fills_defaults (c c' : ChartConfig) :
  ValidateAndNormalizeConfig c = (None, c') -> Valid.defaultsFilled c c'.
Proof.
  unfold ValidateAndNormalizeConfig.
  destruct (validateChartConfig c) eqn:Hv; [discriminate|].
  intros H. injection H as <-.
  unfold Valid.defaultsFilled, normalize.
  cbn [ChartType Title Description Tables XAxis YAxis GroupBy Filters
       Options Limit OrderBy].
  split; [|split; [|split; [|split; [|split; [|split]]]]].
  - intros t j Ht Hj.
    apply in_map_iff in Ht as (t0 & <- & Ht0).
    unfold defaultJoins in Hj. cbn [tJoins] in Hj.
    apply in_map_iff in Hj as (j0 & <- & Hj0).
    apply defaultJoinType_kind.
    pose proof (validated_tables c Hv) as Hall.
    rewrite Forall_forall in Hall. destruct (Hall t0 Ht0) as [_ Hjs].
    rewrite Forall_forall in Hjs. now apply Hjs.
  - intros o Ho. apply in_map_iff in Ho as (o0 & <- & _).
    unfold defaultDirection. destruct (isEmpty (oDirection o0)) eqn:E.
    + discriminate.
    + now apply isEmpty_false.
  - unfold defaultOptions. cbn [Width].
    destruct (Z.eqb_spec (Width (Options c)) 0); [discriminate | assumption].
  - unfold defaultOptions. cbn [Height].
    destruct (Z.eqb_spec (Height (Options c)) 0); [discriminate | assumption].
  - unfold defaultOptions. cbn [Theme].
    destruct (isEmpty (Theme (Options c))) eqn:E;
      [discriminate | now apply isEmpty_false].
  - apply ToLower_chart_type, contains_In. now apply validated_chart_type.
  - repeat split.
    + rewrite map_map. apply map_ext. reflexivity.
    + rewrite map_map. apply map_ext. intros o. unfold defaultDirection.
      now destruct (isEmpty (oDirection o)).
Qed.

Lemma normalization_fills_defaults_witness :
  Valid.defaultsFilled Valid.bare (normalize Valid.bare).
Proof.
  apply (normalization_fills_defaults Valid.bare). reflexivity.
Defined.

(** ** Placeholders read back from the SQL text *)

Lemma numberAt_stops (t : string) :
  Scan.stops t = true -> Scan.numberAt t = None.
Proof.
  destruct t as [|c t]; [reflexivity|]. unfold Scan.numberAt. simpl.
  intros H. apply negb_true_iff in H. now rewrite H.
Qed.

Lemma stops_app (s t : string) :
  Scan.stops s = true -> Scan.stops t = true ->
  Scan.stops (s ++ t)%string = true.
Proof. destruct s; simpl; auto. Qed.

Lemma scan_quiet (s t : string) :
  Quiet.quiet s = true -> Scan.stops t = true ->
  Scan.placeholdersOf (s ++ t)%string = Scan.placeholdersOf t.
Proof.
  intros Hs Ht. induction s as [|c r IH]; [reflexivity|].
  cbn [Quiet.quiet] in Hs. apply andb_prop in Hs as [Hc Hr].
  cbn [append Scan.placeholdersOf]. rewrite (IH Hr).
  destruct (Scan.isDollar c); [|reflexivity].
  cbn [andb] in Hc. apply negb_true_iff, negb_false_iff in Hc.
  now rewrite numberAt_stops by now apply stops_app.
Qed.

Lemma quiet_cons (c : ascii) (s : string) :
  Scan.isDollar c = false -> Quiet.quiet (String c s) = Quiet.quiet s.
Proof. intros H. cbn [Quiet.quiet]. now rewrite H. Qed.

Lemma quiet_free (s : string) :
  Scan.dollarFree s = true -> Quiet.quiet s = true.
Proof.
  induction s as [|c r IH]; [reflexivity|]. cbn [Scan.dollarFree].
  intros H. apply andb_prop in H as [Hc Hr]. apply negb_true_iff in Hc.
  rewrite quiet_cons by assumption. now apply IH.
Qed.

Lemma quiet_app (a b : string) :
  Quiet.quiet a = true -> Scan.stops b = true ->
  Quiet.quiet (a ++ b)%string = Quiet.quiet b.
Proof.
  intros Ha Hb. induction a as [|c r IH]; [reflexivity|].
  cbn [Quiet.quiet] in Ha. apply andb_prop in Ha as [Hc Hr].
  cbn [append Quiet.quiet]. rewrite (IH Hr).
  destruct (Scan.isDollar c); [|reflexivity].
  cbn [andb] in Hc. apply negb_true_iff, negb_false_iff in Hc.
  now rewrite stops_app.
Qed.

(** Texts put together from quiet parts and literals. *)
Ltac quieten :=
  cbn [append];
  repeat first
    [ rewrite quiet_cons by reflexivity
    | rewrite quiet_app by (assumption || reflexivity) ];
  solve [ assumption | reflexivity
        | apply quiet_free; first [apply itoa_free | apply itoaZ_free] ].

Lemma quiet_Join (l : list string) :
  forallb Quiet.quiet l = true -> Quiet.quiet (Go.Join l ", ") = true.
Proof.
  induction l as [|x r IH]; [reflexivity|].
  cbn [forallb]. intros H. apply andb_prop in H as [Hx Hr].
  destruct r as [|y r]; [exact Hx|].
  change (Go.Join (x :: y :: r) ", ")
    with (x ++ ", " ++ Go.Join (y :: r) ", ")%string.
  specialize (IH Hr). quieten.
Qed.

Lemma forallb_map {A B : Type} (f : A -> B) (p : A -> bool)
    (q : B -> bool) (l : list A) :
  (forall x, p x = true -> q (f x) = true) ->
  forallb p l = true -> forallb q (map f l) = true.
Proof.
  intros Hf. induction l as [|x r IH]; simpl; [reflexivity|].
  intros H. apply andb_prop in H as [Hx Hr].
  now rewrite (Hf x Hx), IH.
Qed.

(** *** Chunks *)

Lemma guarded_quiet (s : string) (w : list chunk) :
  Quiet.quiet s = true -> Scan.guarded w -> Guard.halts w ->
  Scan.guarded (Txt s :: w).
Proof.
  intros Hs Hw Hh t Ht. cbn [text chunkText placeholders].
  rewrite append_assoc, scan_quiet by (assumption || now apply Hh).
  now apply Hw.
Qed.

Lemma halts_arg (n : nat) (w : list chunk) : Guard.halts (Arg n :: w).
Proof. intros t _. reflexivity. Qed.

Lemma halts_app (a b : list chunk) :
  Guard.halts a -> Guard.halts b -> Guard.halts (a ++ b).
Proof.
  intros Ha Hb t Ht. rewrite text_app, append_assoc.
  apply Ha. now apply Hb.
Qed.

Lemma guarded_list (n k : nat) (c : ascii) (s : string) (w : list chunk) :
  Scan.isDigit c = false -> Quiet.quiet (String c s) = true ->
  Scan.guarded w -> Guard.halts w ->
  Scan.guarded (Table.placeholderList n k ++ Txt (String c s) :: w).
Proof.
  intros Hc Hs Hw Hh. unfold Table.placeholderList. revert n.
  induction k as [|k IH]; intros n.
  - simpl. now apply guarded_quiet.
  - destruct k as [|k].
    + simpl. apply guarded_arg; [now apply halts_txt|].
      now apply guarded_quiet.
    + specialize (IH (S n)).
      change (seq n (S (S k))) with (n :: seq (S n) (S k)).
      change (seq (S n) (S k)) with (S n :: seq (S (S n)) k) in *.
      cbn [map joinChunks List.app] in *.
      apply guarded_arg; [now apply halts_txt|].
      apply guarded_txt; [reflexivity | exact IH].
Qed.

(** *** The filters *)

Lemma expansion_guarded (filter : FilterConfig) (n : nat)
    (w : list chunk) (vs : list value) :
  Table.expansion filter n = Ok (w, vs) ->
  Quiet.filterQuiet filter = true ->
  Scan.guarded w.
Proof.
  intros He Hf. unfold Quiet.filterQuiet in Hf.
  apply andb_prop in Hf as [Hcol Hop]. revert He.
  unfold Table.expansion.
  assert (Hplain : forall s w vs,
             Scan.stops s = true -> Quiet.quiet s = true ->
             Ok (Table.plain filter s) = Ok (w, vs) -> Scan.guarded w).
  { intros s w0 vs0 Hs Hq H. injection H as <- <-.
    apply guarded_quiet; [|apply guarded_nil | apply halts_nil].
    now rewrite quiet_app. }
  assert (Hbound : forall w vs,
             Ok (Table.bound filter n) = Ok (w, vs) -> Scan.guarded w).
  { intros w0 vs0 H. injection H as <- <-.
    apply guarded_quiet; [quieten | | apply halts_arg].
    apply guarded_arg; [apply halts_nil | apply guarded_nil]. }
  assert (Hnullable : forall w vs,
             Ok (Table.nullable filter n) = Ok (w, vs) -> Scan.guarded w).
  { intros w0 vs0. unfold Table.nullable.
    destruct (is_nil (fValue filter));
      [now apply Hplain | apply Hbound]. }
  destruct (String.eqb (Go.ToLower (fOperator filter)) "in").
  { unfold Table.membership.
    destruct (Table.hasNull (fValues filter)
              && Table.hasNonNull (fValues filter)).
    - intros H. injection H as <- <-. cbn [List.app].
      apply guarded_txt; [reflexivity|].
      apply guarded_quiet; [quieten| |].
      + apply (guarded_list _ _ ")"); [reflexivity | quieten | |].
        * apply guarded_txt; [reflexivity | apply guarded_nil].
        * now apply halts_txt.
      + destruct (List.length (nonNullValues (fValues filter)))
          as [|[|k]]; solve [now apply halts_txt | apply halts_arg].
    - destruct (Table.hasNull (fValues filter)); [now apply Hplain|].
      intros H. injection H as <- <-. cbn [List.app].
      apply guarded_quiet; [quieten| |].
      + apply (guarded_list _ _ ")");
          [reflexivity | reflexivity | apply guarded_nil | apply halts_nil].
      + destruct (List.length (nonNullValues (fValues filter)))
          as [|[|k]]; solve [now apply halts_txt | apply halts_arg]. }
  destruct (String.eqb (Go.ToLower (fOperator filter)) "not in").
  { unfold Table.exclusion.
    destruct (Table.hasNull (fValues filter)
              && Table.hasNonNull (fValues filter)).
    - intros H. injection H as <- <-. cbn [List.app].
      apply guarded_txt; [reflexivity|].
      apply guarded_quiet; [quieten| |].
      + apply (guarded_list _ _ ")"); [reflexivity | quieten | |].
        * apply guarded_txt; [reflexivity | apply guarded_nil].
        * now apply halts_txt.
      + destruct (List.length (nonNullValues (fValues filter)))
          as [|[|k]]; solve [now apply halts_txt | apply halts_arg].
    - destruct (Table.hasNull (fValues filter)); [now apply Hplain|].
      intros H. injection H as <- <-. cbn [List.app].
      apply guarded_quiet; [quieten| |].
      + apply (guarded_list _ _ ")");
          [reflexivity | quieten | apply guarded_nil | apply halts_nil].
      + destruct (List.length (nonNullValues (fValues filter)))
          as [|[|k]]; solve [now apply halts_txt | apply halts_arg]. }
  destruct (String.eqb (Go.ToLower (fOperator filter)) "between").
  { destruct (fValues filter) as [|lo [|hi r]]; [discriminate| |].
    - destruct (is_nil lo); discriminate.
    - destruct (is_nil lo || is_nil hi); [discriminate|].
      intros H. injection H as <- <-.
      apply guarded_quiet; [quieten | | apply halts_arg].
      apply guarded_arg; [now apply halts_txt|].
      apply guarded_txt; [reflexivity|].
      apply guarded_arg; [apply halts_nil | apply guarded_nil]. }
  destruct (oneOf (Go.ToLower (fOperator filter)) ["="; "!="; "<>"]).
  { unfold Table.equality.
    destruct (fValue filter) as [|s|b|z].
    - apply Hplain; now destruct (String.eqb (fOperator filter) "=").
    - destruct (Table.boolLiteral (VString s)) as [[|]|];
        [apply Hplain | apply Hplain | apply Hbound];
        now destruct (String.eqb (fOperator filter) "=").
    - destruct (Table.boolLiteral (VBool b)) as [[|]|];
        [apply Hplain | apply Hplain | apply Hbound];
        now destruct (String.eqb (fOperator filter) "=").
    - apply Hbound. }
  destruct (String.eqb (Go.ToLower (fOperator filter)) "is null");
    [now apply Hplain|].
  destruct (String.eqb (Go.ToLower (fOperator filter)) "is not null");
    [now apply Hplain|].
  destruct (oneOf (Go.ToLower (fOperator filter)) ["<"; "<="; ">"; ">="]).
  { destruct (is_nil (fValue filter)); [discriminate | apply Hbound]. }
  apply Hnullable.
Qed.

Lemma conjunction_guarded (filters : list FilterConfig) (i n : nat)
    (w : list chunk) (vs : list value) :
  Clause.conjunction i n filters = Ok (w, vs) ->
  forallb Quiet.filterQuiet filters = true ->
  Scan.guarded w /\ (0 < i -> Guard.halts w).
Proof.
  revert i n w vs. induction filters as [|f r IH]; intros i n w vs; simpl.
  - intros H _. injection H as <- <-.
    split; [apply guarded_nil | intros _; apply halts_nil].
  - destruct (Table.expansion f n) as [[w1 vs1]|e|p] eqn:E1;
      [|discriminate|discriminate].
    destruct (Clause.conjunction (S i) (n + List.length vs1) r)
      as [[w2 vs2]|e|p] eqn:E2; [|discriminate|discriminate].
    intros H Hf. injection H as <- <-.
    apply andb_prop in Hf as [Hf Hr].
    destruct (IH _ _ _ _ E2 Hr) as [Hg2 Hh2].
    assert (Hg : Scan.guarded (w1 ++ w2)).
    { apply guarded_app;
        [now apply (expansion_guarded _ _ _ _ E1) | assumption|].
      apply Hh2. apply Nat.lt_0_succ. }
    split.
    + destruct (Nat.ltb 0 i); [|exact Hg].
      now apply guarded_txt.
    + intros Hi. apply Nat.ltb_lt in Hi. rewrite Hi.
      now apply halts_txt.
Qed.

Lemma whereEmission_guarded (config : ChartConfig) (w : list chunk)
    (vs : list value) :
  Clause.whereEmission config = Ok (w, vs) ->
  forallb Quiet.filterQuiet (Filters config) = true ->
  Scan.guarded w /\ Guard.halts w.
Proof.
  unfold Clause.whereEmission. destruct (Filters config) as [|f r].
  - intros H _. injection H as <- <-.
    split; [apply guarded_nil | apply halts_nil].
  - destruct (Clause.conjunction 0 1 (f :: r)) as [[w1 vs1]|e|p] eqn:E;
      [|discriminate|discriminate].
    intros H Hf. injection H as <- <-.
    split; [|now apply halts_txt].
    apply guarded_txt; [reflexivity|].
    now apply (conjunction_guarded _ _ _ _ _ E).
Qed.

(** *** The clauses around the filters *)

Lemma passes_nil : Quiet.passes [].
Proof. intros rest Hg Hh. now split. Qed.

Lemma passes_app (a b : list string) :
  Quiet.passes a -> Quiet.passes b -> Quiet.passes (a ++ b).
Proof.
  intros Ha Hb rest Hg Hh. rewrite map_app, <- app_assoc.
  destruct (Hb rest Hg Hh) as [Hg' Hh']. now apply Ha.
Qed.

(** A quiet piece that does not start with a digit. *)
Lemma passes_piece (s : string) (l : list string) :
  Quiet.quiet s = true -> Quiet.begins s = true ->
  Quiet.passes l -> Quiet.passes (s :: l).
Proof.
  intros Hq Hb Hl rest Hg Hh. destruct (Hl rest Hg Hh) as [Hg' Hh'].
  cbn [map List.app]. split; [now apply guarded_quiet|].
  destruct s as [|c s]; [discriminate|].
  apply halts_txt. now apply negb_true_iff in Hb.
Qed.

(** A literal, then a quiet text. *)
Lemma passes_pair (c : ascii) (s t : string) (l : list string) :
  Scan.dollarFree (String c s) = true -> Scan.isDigit c = false ->
  Quiet.quiet t = true ->
  Quiet.passes l -> Quiet.passes (String c s :: t :: l).
Proof.
  intros Hs Hc Ht Hl rest Hg Hh. destruct (Hl rest Hg Hh) as [Hg' Hh'].
  cbn [map List.app]. split; [|now apply halts_txt].
  apply guarded_txt; [assumption|]. now apply guarded_quiet.
Qed.

Lemma axisTerm_quiet (a : AxisConfig) (i : nat) :
  Quiet.axisQuiet a = true ->
  Quiet.quiet (xAxisTerm a) = true /\ Quiet.quiet (yAxisTerm i a) = true.
Proof.
  unfold Quiet.axisQuiet, xAxisTerm, yAxisTerm. intros H.
  apply andb_prop in H as [Hc Ha].
  destruct (negb (isEmpty (aAggregation a))); split; quieten.
Qed.

Lemma yAxisPieces_passes (ys : list AxisConfig) (i : nat) :
  forallb Quiet.axisQuiet ys = true ->
  Quiet.passes (Clause.yAxisPieces i ys).
Proof.
  revert i. induction ys as [|y r IH]; intros i; [intros _; apply passes_nil|].
  cbn [forallb Clause.yAxisPieces]. intros H.
  apply andb_prop in H as [Hy Hr].
  apply passes_pair; [reflexivity | reflexivity | | now apply IH].
  now apply (axisTerm_quiet y i).
Qed.

Lemma selectPieces_passes (config : ChartConfig) :
  Quiet.axisQuiet (XAxis config) = true ->
  forallb Quiet.axisQuiet (YAxis config) = true ->
  Quiet.passes (Clause.selectPieces config).
Proof.
  intros Hx Hys. unfold Clause.selectPieces.
  apply passes_pair; [reflexivity | reflexivity | |].
  - now apply (axisTerm_quiet _ 0).
  - now apply yAxisPieces_passes.
Qed.

Lemma fromPieces_passes (table0 : TableConfig) :
  Quiet.quiet (tName table0) = true -> Quiet.quiet (tAlias table0) = true ->
  Quiet.passes (Clause.fromPieces table0).
Proof.
  intros Hn Ha. unfold Clause.fromPieces.
  apply passes_piece; [quieten | reflexivity|].
  destruct (isEmpty (tAlias table0)); [apply passes_nil|].
  apply passes_piece; [quieten | reflexivity | apply passes_nil].
Qed.

Lemma joinPieces_passes (joins : list JoinConfig) :
  forallb Quiet.joinQuiet joins = true ->
  Quiet.passes (flat_map Clause.joinPieces joins).
Proof.
  induction joins as [|j r IH]; [intros _; apply passes_nil|].
  cbn [forallb flat_map]. intros H. apply andb_prop in H as [Hj Hr].
  apply passes_app; [|now apply IH].
  unfold Quiet.joinQuiet in Hj.
  apply andb_prop in Hj as [Hj Hcond]. apply andb_prop in Hj as [Hj Hal].
  apply andb_prop in Hj as [Hty Htb].
  unfold Clause.joinPieces.
  apply passes_piece; [quieten | reflexivity|].
  destruct (isEmpty (jAlias j)); cbn [List.app].
  - apply passes_piece; [quieten | reflexivity | apply passes_nil].
  - apply passes_piece; [quieten | reflexivity|].
    apply passes_piece; [quieten | reflexivity | apply passes_nil].
Qed.

Lemma beforePieces_passes (config : ChartConfig) (table0 : TableConfig) :
  Quiet.configQuiet config = true ->
  nth_error (Tables config) 0 = Some table0 ->
  Quiet.passes (Clause.beforePieces config table0).
Proof.
  unfold Quiet.configQuiet. intros H Ht.
  apply andb_prop in H as [H _]. apply andb_prop in H as [H _].
  apply andb_prop in H as [H _]. apply andb_prop in H as [H Hjoins].
  apply andb_prop in H as [H Hfrom]. apply andb_prop in H as [Hx Hys].
  unfold Clause.beforePieces.
  apply passes_app; [now apply selectPieces_passes|].
  apply passes_app; [|now apply joinPieces_passes].
  destruct (Tables config) as [|t r]; [discriminate|].
  injection Ht as ->. cbn [Quiet.fromQuiet] in Hfrom.
  apply andb_prop in Hfrom as [Hn Ha]. now apply fromPieces_passes.
Qed.

Lemma orderClause_quiet (order : OrderConfig) :
  Quiet.orderQuiet order = true -> Quiet.quiet (orderClause order) = true.
Proof.
  unfold Quiet.orderQuiet, orderClause. intros H.
  apply andb_prop in H as [Hc Hd]. quieten.
Qed.

Lemma afterPieces_passes (config : ChartConfig) :
  Quiet.configQuiet config = true ->
  Quiet.passes (Clause.afterPieces config).
Proof.
  unfold Quiet.configQuiet. intros H.
  apply andb_prop in H as [H Ho]. apply andb_prop in H as [_ Hg].
  unfold Clause.afterPieces.
  apply passes_app; [|apply passes_app].
  - unfold Clause.groupByPieces.
    destruct (GroupBy config) as [|g r] eqn:E; [apply passes_nil|].
    apply passes_pair;
      [reflexivity | reflexivity | now apply quiet_Join | apply passes_nil].
  - unfold Clause.orderByPieces.
    destruct (OrderBy config) as [|o r] eqn:E; [apply passes_nil|].
    apply passes_pair; [reflexivity | reflexivity | | apply passes_nil].
    apply quiet_Join.
    apply (forallb_map orderClause Quiet.orderQuiet); [|assumption].
    apply orderClause_quiet.
  - unfold Clause.limitPieces.
    destruct (Z.ltb 0 (Limit config)); [|apply passes_nil].
    apply passes_piece; [quieten | reflexivity | apply passes_nil].
Qed.

(** The placeholders of the query are those read back from its text. *)
Lemma query_guarded (config : ChartConfig) (table0 : TableConfig)
    (w : list chunk) (vs : list value) :
  Quiet.configQuiet config = true ->
  nth_error (Tables config) 0 = Some table0 ->
  Clause.whereEmission config = Ok (w, vs) ->
  let q := map Txt (Clause.beforePieces config table0) ++ w
             ++ map Txt (Clause.afterPieces config) in
  Scan.placeholdersOf (text q) = placeholders q.
Proof.
  intros Hq Ht Ew q.
  assert (Hfilters : forallb Quiet.filterQuiet (Filters config) = true).
  { unfold Quiet.configQuiet in Hq.
    apply andb_prop in Hq as [Hq _]. apply andb_prop in Hq as [Hq _].
    now apply andb_prop in Hq as [_ Hq]. }
  destruct (whereEmission_guarded _ _ _ Ew Hfilters) as [Hgw Hhw].
  destruct (afterPieces_passes config Hq [] guarded_nil halts_nil)
    as [Hga Hha].
  rewrite app_nil_r in Hga, Hha.
  assert (Hg : Scan.guarded q).
  { apply (beforePieces_passes config table0 Hq Ht).
    - now apply guarded_app.
    - now apply halts_app. }
  specialize (Hg "" eq_refl).
  now rewrite append_nil_r, app_nil_r in Hg.
Qed.

(** *** The values behind the placeholders *)

Lemma conjunction_split (before : list FilterConfig) (filter : FilterConfig)
    (after : list FilterConfig) (i n : nat) (w : list chunk)
    (vs : list value) :
  Clause.conjunction i n (before ++ filter :: after) = Ok (w, vs) ->
  exists wpre vpre wf vf wpost vpost,
    Table.expansion filter (n + List.length vpre) = Ok (wf, vf)
    /\ placeholders wpre = seq n (List.length vpre)
    /\ w = wpre ++ wf ++ wpost
    /\ vs = vpre ++ vf ++ vpost.
Proof.
  revert i n w vs. induction before as [|b r IH]; intros i n w vs;
    cbn [List.app Clause.conjunction].
  - destruct (Table.expansion filter n) as [[w1 vs1]|e|p] eqn:E1;
      [|discriminate|discriminate].
    destruct (Clause.conjunction (S i) (n + List.length vs1) after)
      as [[w2 vs2]|e|p]; [|discriminate|discriminate].
    intros H. injection H as <- <-.
    exists (if Nat.ltb 0 i then [Txt " AND "] else []), [], w1, vs1, w2, vs2.
    cbn [List.length List.app]. rewrite Nat.add_0_r.
    repeat split; [assumption|]. now destruct (Nat.ltb 0 i).
  - destruct (Table.expansion b n) as [[w1 vs1]|e|p] eqn:E1;
      [|discriminate|discriminate].
    destruct (Clause.conjunction (S i) (n + List.length vs1)
                (r ++ filter :: after))
      as [[w2 vs2]|e|p] eqn:E2; [|discriminate|discriminate].
    intros H. injection H as <- <-.
    destruct (IH _ _ _ _ E2)
      as (wpre & vpre & wf & vf & wpost & vpost & Hf & Hp & -> & ->).
    exists ((if Nat.ltb 0 i then [Txt " AND "] else []) ++ w1 ++ wpre),
      (vs1 ++ vpre), wf, vf, wpost, vpost.
    rewrite length_app, Nat.add_assoc. split; [exact Hf|].
    split; [|split].
    + rewrite !placeholders_app, seq_app, Hp.
      rewrite (expansion_counted _ _ _ _ E1). now destruct (Nat.ltb 0 i).
    + now rewrite <- !app_assoc.
    + now rewrite <- !app_assoc.
Qed.

Lemma nth_error_seq_lt (a n k : nat) :
  k < n -> nth_error (seq a n) k = Some (a + k).
Proof.
  revert a k. induction n as [|n IH]; intros a k Hk; [lia|].
  destruct k as [|k]; simpl; [f_equal; lia|].
  rewrite IH by lia. f_equal. lia.
Qed.

(** The state in which a filter of the configuration is expanded, and what
    the expansion adds to it. *)
Lemma filter_expanded (config : ChartConfig) (table0 : TableConfig)
    (w : list chunk) (arguments : list value)
    (before : list FilterConfig) (filter : FilterConfig)
    (after : list FilterConfig) :
  Clause.whereEmission config = Ok (w, arguments) ->
  Filters config = before ++ filter :: after ->
  exists st0 st1 wf vf qpost post,
    expandFilter filter st0 = Ok st1
    /\ argIndex st0 = 1 + List.length (args st0)
    /\ placeholders (query st0) = seq 1 (List.length (args st0))
    /\ query st1 = query st0 ++ wf
    /\ args st1 = args st0 ++ vf
    /\ placeholders wf = seq (argIndex st0) (List.length vf)
    /\ map Txt (Clause.beforePieces config table0) ++ w
         ++ map Txt (Clause.afterPieces config)
       = query st1 ++ qpost
    /\ arguments = args st1 ++ post
    /\ (forall k v,
          nth_error vf k = Some v ->
          nth_error (placeholders wf) k = Some (argIndex st0 + k)
          /\ nth_error arguments (argIndex st0 + k - 1) = Some v).
Proof.
  unfold Clause.whereEmission. intros Ew Hf. rewrite Hf in Ew.
  destruct (before ++ filter :: after) as [|f0 r] eqn:El;
    [now destruct before|].
  rewrite <- El in Ew.
  destruct (Clause.conjunction 0 1 (before ++ filter :: after))
    as [[w1 vs1]|e|p] eqn:E; [|discriminate|discriminate].
  injection Ew as <- <-.
  destruct (conjunction_split _ _ _ _ _ _ _ E)
    as (wpre & vpre & wf & vf & wpost & vpost & Hx & Hp & -> & ->).
  pose proof (expansion_counted _ _ _ _ Hx) as Hc.
  remember (Clause.beforePieces config table0) as pre eqn:Hpre.
  remember (Clause.afterPieces config) as post eqn:Hpost.
  exists (mkState (map Txt pre ++ Txt " WHERE " :: wpre) vpre
            (1 + List.length vpre)).
  exists (mkState ((map Txt pre ++ Txt " WHERE " :: wpre) ++ wf)
            (vpre ++ vf) (1 + List.length vpre + List.length vf)).
  exists wf, vf, (wpost ++ map Txt post), vpost.
  cbn [query args argIndex].
  split; [rewrite expandFilter_table; cbn [argIndex]; now rewrite Hx|].
  split; [reflexivity|].
  split; [rewrite placeholders_app, (proj2 (text_literal pre)); exact Hp|].
  split; [reflexivity|]. split; [reflexivity|]. split; [exact Hc|].
  split; [cbn [List.app]; now rewrite <- !app_assoc|].
  split; [now rewrite <- app_assoc|].
  intros k v Hk.
  assert (Hlt : k < List.length vf)
    by (apply nth_error_Some; now rewrite Hk).
  split; [rewrite Hc; now apply nth_error_seq_lt|].
  replace (1 + List.length vpre + k - 1) with (List.length vpre + k) by lia.
  rewrite nth_error_app2 by lia.
  replace (List.length vpre + k - List.length vpre) with k by lia.
  rewrite nth_error_app1 by assumption. exact Hk.
Qed.

(** C4 (as amended).  For every validated configuration on which the build
    succeeds:
    - the placeholders written into the query are numbered 1, 2, ... up to
      the number of arguments, in this order, so that there are as many of
      them as arguments, without gap;
    - the counter ends one above the number of arguments;
    - when, in the texts the builder copies from the configuration, no
      dollar sign is followed by a digit, these are exactly the placeholders
      read back from the SQL text;
    - every filter of the configuration is expanded in a state whose
      counter is one above the number of arguments bound so far; the
      placeholders it writes are numbered from this counter on, one for
      each value it binds, and the placeholder number p stands for the
      value at position p of the returned argument list, which is this
      value;
    - every filter advances the counter by the number of placeholders it
      writes and binds as many arguments: a filter without placeholder
      leaves the counter where it was. *)
Theorem placeholders_match_arguments (config : ChartConfig) (sql : string)
    (arguments : list value) :
  validateChartConfig config = None ->
  BuildChartQuery config = Return (sql, arguments, None) ->
  exists st,
    buildState config = Ok st
    /\ sql = text (query st)
    /\ arguments = args st
    /\ placeholders (query st) = seq 1 (List.length arguments)
    /\ argIndex st = 1 + List.length arguments
    /\ (Quiet.configQuiet config = true ->
        Scan.placeholdersOf sql = seq 1 (List.length arguments))
    /\ (forall before filter after,
           Filters config = before ++ filter :: after ->
           exists st0 st1 w vs rest post,
             expandFilter filter st0 = Ok st1
             /\ argIndex st0 = 1 + List.length (args st0)
             /\ placeholders (query st0) = seq 1 (List.length (args st0))
             /\ query st1 = query st0 ++ w
             /\ args st1 = args st0 ++ vs
             /\ placeholders w = seq (argIndex st0) (List.length vs)
             /\ query st = query st1 ++ rest
             /\ arguments = args st1 ++ post
             /\ (forall k v,
                   nth_error vs k = Some v ->
                   nth_error (placeholders w) k = Some (argIndex st0 + k)
                   /\ nth_error arguments (argIndex st0 + k - 1) = Some v))
    /\ (forall filter st0 st1,
           expandFilter filter st0 = Ok st1 ->
           exists w,
             query st1 = query st0 ++ w
             /\ placeholders w
                = seq (argIndex st0) (List.length (placeholders w))
             /\ argIndex st1 = argIndex st0 + List.length (placeholders w)
             /\ List.length (args st1)
                = List.length (args st0) + List.length (placeholders w)).
Proof.
  intros Hv Hb. destruct (validated_first_table config Hv) as [table0 Ht].
  apply build_success in Hb as (st & Hst & -> & ->).
  exists st. split; [exact Hst|]. split; [reflexivity|].
  split; [reflexivity|].
  rewrite buildState_clauses, Ht in Hst.
  destruct (Clause.whereEmission config) as [[w vs]|e|p] eqn:Ew;
    [|discriminate|discriminate].
  pose proof (query_guarded config table0 w vs) as Hscan.
  pose proof (filter_expanded config table0 w vs) as Hfilter.
  remember (Clause.beforePieces config table0) as pre eqn:Hpre.
  remember (Clause.afterPieces config) as post eqn:Hpost.
  injection Hst as Hst. subst st. cbn [query args argIndex].
  pose proof (whereEmission_counted _ _ _ Ew) as Hc.
  assert (Hq : placeholders (map Txt pre ++ w ++ map Txt post)
               = seq 1 (List.length vs)).
  { rewrite !placeholders_app.
    rewrite (proj2 (text_literal pre)), (proj2 (text_literal post)).
    now rewrite app_nil_r. }
  split; [exact Hq|]. split; [reflexivity|].
  split; [|split].
  - intros Hquiet. rewrite <- Hq. now apply Hscan.
  - intros before filter after Hf. now apply (Hfilter before filter after).
  - apply expandFilter_advance.
Qed.

Lemma placeholders_match_arguments_witness :
  validateChartConfig Quiet.dollars = None
  /\ BuildChartQuery Quiet.dollars
     = Return (Quiet.dollarsSql, Quiet.dollarsArguments, None)
  /\ Quiet.configQuiet Quiet.dollars = true
  /\ Scan.placeholdersOf Quiet.dollarsSql = [1; 2; 3; 4; 5].
Proof.
  split; [reflexivity|]. split; [reflexivity|]. split; [reflexivity|].
  destruct (placeholders_match_arguments Quiet.dollars Quiet.dollarsSql
              Quiet.dollarsArguments eq_refl eq_refl)
    as (st & _ & _ & _ & _ & _ & Hscan & _).
  exact (Hscan eq_refl).
Defined.

(** C4 (as stated) fails.  The configuration passes validation and its
    x-axis column is the text of a placeholder; the build succeeds without
    any argument, and the SQL text has one placeholder, numbered 9: neither
    as many placeholders as arguments, nor the numbers from 1 on. *)
Lemma placeholder_from_configuration :
  validateChartConfig Quiet.dollarColumn = None
  /\ BuildChartQuery Quiet.dollarColumn
     = Return (Quiet.dollarColumnSql, [], None)
  /\ Scan.placeholdersOf Quiet.dollarColumnSql = [9]
  /\ List.length (Scan.placeholdersOf Quiet.dollarColumnSql)
     <> List.length (@nil value)
  /\ Scan.placeholdersOf Quiet.dollarColumnSql
     <> seq 1 (List.length (@nil value)).
Proof.
  split; [reflexivity|]. split; [reflexivity|]. split; [reflexivity|].
  split; vm_compute; discriminate.
Qed.
